(** * FlowPilot: the plan, approval and dispatch pipeline

    A shallow embedding of the route handlers of the FlowPilot web
    application (plan generation, plan approvals, dispatch flags, the
    dispatch-ready resolver, review settings, the review-job queue and the
    appointment webhook), followed by the properties that the design
    document states about them.

    Conventions of the embedding.
    - A JavaScript string is a [string]: a sequence of code units.  Code
      units are restricted to the range 0..255; in that range the
      JavaScript white-space class (used by [trim] and by the regular
      expression class \s) is tab, line feed, vertical tab, form feed,
      carriage return, space and no-break space (160).
    - A value of type [unknown] or [any] (a parsed JSON document) is a
      [json].  A missing property reads as [None] (JavaScript's undefined).
    - Instants are integers (milliseconds since the epoch); the ISO 8601
      rendering of an instant is not modelled.
    - A table of the relational store is a list of rows, in storage order.
      Store failures (the [error] results of the client) are not modelled:
      every query succeeds.
    - A handler is a function from its inputs (authenticated user, request
      body, clock, tables) to a response and, where it writes, the new
      tables. *)

From Stdlib Require Import Ascii QArith Qround.
From stdpp Require Import gmap strings pretty list sorting.

Set Warnings "-register-all".
Local Open Scope Z_scope.

(* ================================================================== *)
(** * Part I: the embedding                                             *)
(* ================================================================== *)

(** ** JavaScript values and string primitives *)

Module Js.

(** White space in the sense of [String.prototype.trim] and of \s. *)
Definition is_space (c : ascii) : bool :=
  match c with
  | "009" | "010" | "011" | "012" | "013" | " " | "160" => true
  | _ => false
  end%char.

(** \d *)
Definition is_digit (c : ascii) : bool :=
  match c with
  | "0" | "1" | "2" | "3" | "4" | "5" | "6" | "7" | "8" | "9" => true
  | _ => false
  end%char.

Definition is_char (d c : ascii) : bool := bool_decide (c = d).

(** A character between [lo] and [hi] (inclusive), as in [[0-5]]. *)
Definition in_range (lo hi c : ascii) : bool :=
  (N_of_ascii lo <=? N_of_ascii c)%N && (N_of_ascii c <=? N_of_ascii hi)%N.

(** An anchored regular expression that is a fixed sequence of character
    classes: /^c1 c2 ... cn$/. *)
Fixpoint match_seq (classes : list (ascii → bool)) (s : string) : bool :=
  match classes, s with
  | [], "" => true
  | cl :: classes, String c s => cl c && match_seq classes s
  | _, _ => false
  end.

Fixpoint trimStart (s : string) : string :=
  match s with
  | "" => ""
  | String c r => if is_space c then trimStart r else s
  end.

Fixpoint trimEnd (s : string) : string :=
  match s with
  | "" => ""
  | String c r =>
      match trimEnd r with
      | "" => if is_space c then "" else String c ""
      | r' => String c r'
      end
  end.

(** [s.trim()] *)
Definition trim (s : string) : string := trimEnd (trimStart s).

(** [s.replace(/\s+/g, " ")]: every maximal run of white space becomes one
    space.  [in_run] tells that the previous character belonged to a run
    whose replacement has been emitted. *)
Fixpoint replace_ws_runs (in_run : bool) (s : string) : string :=
  match s with
  | "" => ""
  | String c r =>
      if is_space c
      then if in_run then replace_ws_runs true r
           else String " " (replace_ws_runs true r)
      else String c (replace_ws_runs false r)
  end.

(** [s.slice(0, n)] *)
Fixpoint slice0 (n : nat) (s : string) : string :=
  match n, s with
  | S n, String c r => String c (slice0 n r)
  | _, _ => ""
  end.

(** [s.startsWith(p)] *)
Fixpoint startsWith (p s : string) : bool :=
  match p, s with
  | "", _ => true
  | String a p, String b s => bool_decide (a = b) && startsWith p s
  | _, _ => false
  end.

(** [s.replaceAll(pat, rep)] for a non-empty [pat] and a replacement [rep]
    without the character $ (which JS reads as the start of a substitution
    pattern such as $& or $$): matches are taken left
    to right and do not overlap.  [skip] counts the characters of the
    current match that are still to be consumed. *)
Fixpoint replaceAll_from (pat rep : string) (skip : nat) (s : string) : string :=
  match s with
  | "" => ""
  | String c r =>
      match skip with
      | S k => replaceAll_from pat rep k r
      | O =>
          if startsWith pat s
          then rep +:+ replaceAll_from pat rep (String.length pat - 1) r
          else String c (replaceAll_from pat rep O r)
      end
  end.

Definition replaceAll (pat rep s : string) : string := replaceAll_from pat rep O s.

(** [arr.join(sep)] *)
Definition join (sep : string) (parts : list string) : string := String.concat sep parts.

(** [String(n)] for an array index. *)
Definition String_of_index (n : nat) : string := pretty n.

(** White space at the start, at the end, twice in a row, or other than
    the plain space (a line feed, a tab, ...). *)
Definition starts_ws (s : string) : bool :=
  match s with String c _ => is_space c | "" => false end.

Fixpoint ends_ws (s : string) : bool :=
  match s with
  | "" => false
  | String c r => match r with "" => is_space c | _ => ends_ws r end
  end.

Fixpoint adjacent_ws (s : string) : bool :=
  match s with
  | "" => false
  | String c r => (is_space c && starts_ws r) || adjacent_ws r
  end.

Fixpoint other_ws (s : string) : bool :=
  match s with
  | "" => false
  | String c r => (is_space c && negb (is_char " " c)) || other_ws r
  end.

(** The strings in which white space occurs only as single spaces between
    other characters.  [after_space] tells that the text so far is empty or
    ends with a space. *)
Fixpoint tidy_from (after_space : bool) (s : string) : bool :=
  match s with
  | "" => negb after_space
  | String c r =>
      if is_space c then negb after_space && is_char " " c && tidy_from true r
      else tidy_from false r
  end.

Definition tidy (s : string) : bool :=
  match s with "" => true | _ => tidy_from true s end.

(** No occurrence of the bar that [makePostKey] joins with. *)
Fixpoint no_bar (s : string) : bool :=
  match s with
  | "" => true
  | String c r => negb (is_char "|" c) && no_bar r
  end.

End Js.

(** ** JSON documents *)

(** A JavaScript number: a finite value (a rational; every finite double is
    one), NaN, or an infinity. *)
Inductive number :=
| Finite (q : Q)
| NaN
| Infinity (negative : bool).

Inductive json :=
| JNull
| JBool (b : bool)
| JNum (x : number)
| JStr (s : string)
| JArr (items : list json)
| JObj (fields : list (string * json)).

(** ToBoolean. *)
Definition truthy (v : json) : bool :=
  match v with
  | JNull => false
  | JBool b => b
  | JNum (Finite q) => negb (Qeq_bool q 0)
  | JNum NaN => false
  | JNum (Infinity _) => true
  | JStr s => negb (bool_decide (s = ""))
  | JArr _ | JObj _ => true
  end.

Definition is_null (v : json) : bool :=
  match v with JNull => true | _ => false end.

(** [typeof v === "object"]: null, arrays and objects. *)
Definition typeof_object (v : json) : bool :=
  match v with JNull | JArr _ | JObj _ => true | _ => false end.

Fixpoint lookup_field (k : string) (fields : list (string * json)) : option json :=
  match fields with
  | [] => None
  | (k', v) :: fields => if bool_decide (k = k') then Some v else lookup_field k fields
  end.

(** [v.k] (or [v?.k]) for the property names the handlers read.  None of
    them is "length" or an index, so only a plain object can have one;
    reading a property of null is handled by the callers, where it
    matters. *)
Definition prop (k : string) (v : json) : option json :=
  match v with
  | JObj fields => lookup_field k fields
  | _ => None
  end.

(** [typeof x === "string"] as a projection. *)
Definition as_str (v : option json) : option string :=
  match v with Some (JStr s) => Some s | _ => None end.

(** [Array.isArray(x)] as a projection. *)
Definition as_array (v : option json) : option (list json) :=
  match v with Some (JArr l) => Some l | _ => None end.

(** [typeof x === "boolean"] as a projection. *)
Definition as_bool (v : option json) : option bool :=
  match v with Some (JBool b) => Some b | _ => None end.


(** [normalizeSpaces], declared identically in the plan-approvals, dispatch
    and review-settings routes. *)
Definition normalizeSpaces (s : string) : string :=
  Js.replace_ws_runs false (Js.trim s).

(** ** The plan data model and the post key *)

Inductive Source := priority | scheduled.
Inductive Platform := instagram | facebook.
Inductive Format := post | reel | story.

Definition Source_str (x : Source) : string :=
  match x with priority => "priority" | scheduled => "scheduled" end.
Definition Platform_str (x : Platform) : string :=
  match x with instagram => "instagram" | facebook => "facebook" end.
Definition Format_str (x : Format) : string :=
  match x with post => "post" | reel => "reel" | story => "story" end.

Record PlanPost := {
  source : Source;
  platform : Platform;
  format : Format;
  suggested_time_local : string;
  caption : string;
  hashtags : list string;
  media_instructions : string;
  approval_required : bool;
  approval_reason : string
}.

Record PlanDay := { date : string; posts : list PlanPost }.

Record Plan := {
  horizon_start_date : string;
  horizon_end_date : string;
  days : list PlanDay
}.

(** [makePostKey], the same in the dispatch-ready route and in the plan and
    overview pages. *)
Definition makePostKey (dayDate : string) (p : PlanPost) (idx : nat) : string :=
  Js.join "|" [
    dayDate;
    Js.String_of_index idx;
    Platform_str p.(platform);
    Format_str p.(format);
    p.(suggested_time_local);
    Js.slice0 80 p.(caption);
    Js.slice0 80 p.(media_instructions)
  ].

(** [a ?? b] *)
Definition nullish {A} (a b : option A) : option A :=
  match a with Some _ => a | None => b end.

Infix "??" := nullish (at level 60, right associativity).

(** ** PlanValidator: [isValidPlan] of the plan-store and dispatch-ready
    routes (the two declarations are the same) *)

(** /^\d{4}-\d{2}-\d{2}$/ *)
Definition isYyyyMmDd (value : string) : bool :=
  Js.match_seq
    [Js.is_digit; Js.is_digit; Js.is_digit; Js.is_digit; Js.is_char "-";
     Js.is_digit; Js.is_digit; Js.is_char "-"; Js.is_digit; Js.is_digit]
    value.

(** /^([01]\d|2[0-3]):([0-5]\d)$/ *)
Definition isHhMm (value : string) : bool :=
  Js.match_seq
    [Js.in_range "0" "1"; Js.is_digit; Js.is_char ":";
     Js.in_range "0" "5"; Js.is_digit] value
  || Js.match_seq
    [Js.is_char "2"; Js.in_range "0" "3"; Js.is_char ":";
     Js.in_range "0" "5"; Js.is_digit] value.

(** [!x || typeof x !== "object"], negated. *)
Definition is_object (v : json) : bool := truthy v && typeof_object v.

(** [x === "lit"] *)
Definition is_str (lit : string) (v : option json) : bool :=
  match v with Some (JStr s) => bool_decide (s = lit) | _ => false end.

(** [typeof x === "string" && shape(x)] *)
Definition str_with (shape : string → bool) (v : option json) : bool :=
  match v with Some (JStr s) => shape s | _ => false end.

Definition isValidPost (post : json) : bool :=
  is_object post
  && (is_str "priority" (prop "source" post)
      || is_str "scheduled" (prop "source" post))
  && (is_str "instagram" (prop "platform" post)
      || is_str "facebook" (prop "platform" post))
  && (is_str "post" (prop "format" post)
      || is_str "reel" (prop "format" post)
      || is_str "story" (prop "format" post))
  && str_with isHhMm (prop "suggested_time_local" post)
  && bool_decide (is_Some (as_str (prop "caption" post)))
  && match as_array (prop "hashtags" post) with
     | Some tags => forallb (λ t, bool_decide (is_Some (as_str (Some t)))) tags
     | None => false
     end
  && bool_decide (is_Some (as_str (prop "media_instructions" post)))
  && bool_decide (is_Some (as_bool (prop "approval_required" post)))
  && bool_decide (is_Some (as_str (prop "approval_reason" post))).

Definition isValidDay (day : json) : bool :=
  is_object day
  && str_with isYyyyMmDd (prop "date" day)
  && match as_array (prop "posts" day) with
     | Some posts => forallb isValidPost posts
     | None => false
     end.

Definition isValidPlan (plan : json) : bool :=
  is_object plan
  && str_with isYyyyMmDd (prop "horizon_start_date" plan)
  && str_with isYyyyMmDd (prop "horizon_end_date" plan)
  && match as_array (prop "days" plan) with
     | Some days => forallb isValidDay days
     | None => false
     end.

(** The type guard [plan is Plan]: the typed reading of a document, which
    the handlers use after [isValidPlan] has answered true. *)
Definition asSource (v : option json) : option Source :=
  if is_str "priority" v then Some priority
  else if is_str "scheduled" v then Some scheduled else None.

Definition asPlatform (v : option json) : option Platform :=
  if is_str "instagram" v then Some instagram
  else if is_str "facebook" v then Some facebook else None.

Definition asFormat (v : option json) : option Format :=
  if is_str "post" v then Some post
  else if is_str "reel" v then Some reel
  else if is_str "story" v then Some story else None.

Definition asPost (j : json) : option PlanPost :=
  src ← asSource (prop "source" j);
  plat ← asPlatform (prop "platform" j);
  fmt ← asFormat (prop "format" j);
  time ← as_str (prop "suggested_time_local" j);
  cap ← as_str (prop "caption" j);
  tags ← as_array (prop "hashtags" j) ≫= mapM (λ t, as_str (Some t));
  media ← as_str (prop "media_instructions" j);
  req ← as_bool (prop "approval_required" j);
  reason ← as_str (prop "approval_reason" j);
  Some {| source := src; platform := plat; format := fmt;
          suggested_time_local := time; caption := cap; hashtags := tags;
          media_instructions := media; approval_required := req;
          approval_reason := reason |}.

Definition asDay (j : json) : option PlanDay :=
  d ← as_str (prop "date" j);
  ps ← as_array (prop "posts" j) ≫= mapM asPost;
  Some {| date := d; posts := ps |}.

Definition asPlan (j : json) : option Plan :=
  s ← as_str (prop "horizon_start_date" j);
  e ← as_str (prop "horizon_end_date" j);
  ds ← as_array (prop "days" j) ≫= mapM asDay;
  Some {| horizon_start_date := s; horizon_end_date := e; days := ds |}.

(** The shapes that [isValidPlan] asks of the strings of a typed plan. *)
Definition shaped_post (p : PlanPost) : bool := isHhMm p.(suggested_time_local).

Definition shaped_day (d : PlanDay) : bool :=
  isYyyyMmDd d.(date) && forallb shaped_post d.(posts).

Definition shaped_plan (p : Plan) : bool :=
  isYyyyMmDd p.(horizon_start_date) && isYyyyMmDd p.(horizon_end_date)
  && forallb shaped_day p.(days).

(** ** The relational store: rows of the tables the core reads and writes *)

Inductive ApprovalStatus := pending | approved | rejected.

Global Instance ApprovalStatus_eq_dec : EqDecision ApprovalStatus.
Proof. solve_decision. Defined.

Module PlanRow.
Record t := {
  user_id : string;
  plan_json : json;
  model : option string;
  generated_at : Z
}.
End PlanRow.

Module ApprovalRow.
Record t := {
  user_id : string;
  post_key : string;
  status : ApprovalStatus;
  reject_reason : option string;
  decided_at : option Z;
  updated_at : Z
}.
End ApprovalRow.

Module DispatchRow.
Record t := {
  user_id : string;
  post_key : string;
  ready : bool;
  updated_at : Z
}.
End DispatchRow.

(** [auth()] yields a user id or null; the handlers test it with [!userId],
    which the empty string fails too. *)
Definition authenticated (userId : option string) : option string :=
  match userId with
  | Some u => if bool_decide (u = "") then None else Some u
  | None => None
  end.

(** ** ApprovalRegistry: the plan-approvals route *)

Module PlanApprovals.

Inductive Response :=
| JsonError (message : string) (status : Z)
| Ok.

(** [isStatus] *)
Definition isStatus (x : option json) : option ApprovalStatus :=
  if is_str "pending" x then Some pending
  else if is_str "approved" x then Some approved
  else if is_str "rejected" x then Some rejected
  else None.

(** [upsert(row, { onConflict: "user_id,post_key" })]: the row replaces the
    stored row of the same user and key, or is added. *)
Fixpoint upsert (row : ApprovalRow.t) (table : list ApprovalRow.t) : list ApprovalRow.t :=
  match table with
  | [] => [row]
  | r :: table =>
      if bool_decide (r.(ApprovalRow.user_id) = row.(ApprovalRow.user_id)
                      ∧ r.(ApprovalRow.post_key) = row.(ApprovalRow.post_key))
      then row :: table
      else r :: upsert row table
  end.

Section Handlers.

(** [Date.parse]; [None] stands for NaN. *)
Variable Date_parse : string → option Z.

Definition safeIsoOrNull (x : option json) : option Z :=
  match x with
  | Some (JStr s) =>
      let v := Js.trim s in
      if bool_decide (v = "") then None else Date_parse v
  | _ => None
  end.

(** [POST].  [body] is [None] when [req.json()] throws; [now] is the clock
    reading of [new Date()]. *)
Definition POST (userId : option string) (body : option json) (now : Z)
    (table : list ApprovalRow.t) : Response * list ApprovalRow.t :=
  match authenticated userId with
  | None => (JsonError "Unauthorized" 401, table)
  | Some userId =>
  match body with
  | None => (JsonError "Body must be valid JSON." 400, table)
  | Some b =>
  if negb (is_object b) then (JsonError "Invalid JSON body." 400, table) else
  match as_str (prop "postKey" b) with
  | None => (JsonError "postKey is required." 400, table)
  | Some rawKey =>
  if bool_decide (String.length (normalizeSpaces rawKey) = 0%nat)
  then (JsonError "postKey is required." 400, table) else
  match isStatus (prop "status" b) with
  | None =>
      (JsonError "status must be 'pending', 'approved', or 'rejected'." 400, table)
  | Some st =>
      let postKey := normalizeSpaces rawKey in
      let rejectReason :=
        match prop "rejectReason" b with
        | Some (JStr s) => Some (normalizeSpaces s)
        | _ => None
        end in
      let decidedAtIso := safeIsoOrNull (prop "decidedAtIso" b) in
      (Ok,
       upsert
         {| ApprovalRow.user_id := userId;
            ApprovalRow.post_key := postKey;
            ApprovalRow.status := st;
            ApprovalRow.reject_reason :=
              match st with rejected => rejectReason | _ => None end;
            ApprovalRow.decided_at :=
              match st with
              | pending => None
              | _ => Some (default now decidedAtIso)
              end;
            ApprovalRow.updated_at := now |}
         table)
  end end end end.

End Handlers.

(** The columns of the uniqueness constraint. *)
Definition key_of (r : ApprovalRow.t) : string * string :=
  (r.(ApprovalRow.user_id), r.(ApprovalRow.post_key)).

(** The stored record of a user and key. *)
Definition stored (userId postKey : string) (table : list ApprovalRow.t)
    : option ApprovalRow.t :=
  head (filter (λ r, r.(ApprovalRow.user_id) = userId
                     ∧ r.(ApprovalRow.post_key) = postKey) table).

(** The tables that a sequence of [POST] calls builds from the empty
    table. *)
Inductive written : list ApprovalRow.t → Prop :=
| written_nil : written []
| written_POST Date_parse userId body now table response table' :
    written table →
    POST Date_parse userId body now table = (response, table') →
    written table'.

(** What [GET] answers for one key: the status, the reason and the
    decision time of the row ([?? undefined] leaves a null column out). *)
Record ApprovalView := {
  view_status : ApprovalStatus;
  rejectReason : option string;
  decidedAtIso : option Z
}.

Definition view (row : ApprovalRow.t) : ApprovalView :=
  {| view_status := row.(ApprovalRow.status);
     rejectReason := row.(ApprovalRow.reject_reason);
     decidedAtIso := row.(ApprovalRow.decided_at) |}.

Inductive GetResponse :=
| GetError (message : string) (status : Z)
| Approvals (approvals : gmap string ApprovalView).

(** [GET]: [approvals[row.post_key] = {...}] row by row on a plain object.
    Such an assignment to the name __proto__ sets the prototype and adds no
    property, so that key is absent from the answer. *)
Definition GET (userId : option string) (table : list ApprovalRow.t) : GetResponse :=
  match authenticated userId with
  | None => GetError "Unauthorized" 401
  | Some userId =>
      Approvals
        (foldl (λ acc row,
                  if bool_decide (row.(ApprovalRow.post_key) = "__proto__") then acc
                  else <[row.(ApprovalRow.post_key) := view row]> acc)
           ∅ (filter (λ r, r.(ApprovalRow.user_id) = userId) table))
  end.

End PlanApprovals.

(** ** DispatchRegistry: the dispatch route *)

Module Dispatch.

Inductive Response :=
| JsonError (message : string) (status : Z)
| Ok.

(** [upsert({ user_id, post_key, ready }, { onConflict: "user_id,post_key" })].
    The handler does not send [updated_at]: a new row takes the store's
    clock, a replaced row keeps its own. *)
Fixpoint upsert (userId postKey : string) (ready : bool) (now : Z)
    (table : list DispatchRow.t) : list DispatchRow.t :=
  match table with
  | [] => [ {| DispatchRow.user_id := userId; DispatchRow.post_key := postKey;
               DispatchRow.ready := ready; DispatchRow.updated_at := now |} ]
  | r :: table =>
      if bool_decide (r.(DispatchRow.user_id) = userId
                      ∧ r.(DispatchRow.post_key) = postKey)
      then {| DispatchRow.user_id := userId; DispatchRow.post_key := postKey;
              DispatchRow.ready := ready;
              DispatchRow.updated_at := r.(DispatchRow.updated_at) |} :: table
      else r :: upsert userId postKey ready now table
  end.

Definition POST (userId : option string) (body : option json) (now : Z)
    (table : list DispatchRow.t) : Response * list DispatchRow.t :=
  match authenticated userId with
  | None => (JsonError "Unauthorized" 401, table)
  | Some userId =>
  match body with
  | None => (JsonError "Body must be valid JSON." 400, table)
  | Some b =>
  if negb (is_object b) then (JsonError "Invalid JSON body." 400, table) else
  match as_str (prop "postKey" b) with
  | None => (JsonError "postKey is required." 400, table)
  | Some rawKey =>
  if bool_decide (String.length (normalizeSpaces rawKey) = 0%nat)
  then (JsonError "postKey is required." 400, table) else
  match as_bool (prop "ready" b) with
  | None => (JsonError "ready must be boolean." 400, table)
  | Some ready =>
      let postKey := normalizeSpaces rawKey in
      (Ok, upsert userId postKey ready now table)
  end end end end.

(** The tables that a sequence of [POST] calls builds from the empty
    table. *)
Inductive written : list DispatchRow.t → Prop :=
| written_nil : written []
| written_POST userId body now table response table' :
    written table →
    POST userId body now table = (response, table') →
    written table'.

(** The columns of the uniqueness constraint. *)
Definition key_of (r : DispatchRow.t) : string * string :=
  (r.(DispatchRow.user_id), r.(DispatchRow.post_key)).

(** The stored row of a user and key. *)
Definition stored (userId postKey : string) (table : list DispatchRow.t)
    : option DispatchRow.t :=
  head (filter (λ r, r.(DispatchRow.user_id) = userId
                     ∧ r.(DispatchRow.post_key) = postKey) table).

(** What [GET] answers for one key. *)
Record DispatchView := { view_ready : bool; updatedAtIso : Z }.

Definition view (row : DispatchRow.t) : DispatchView :=
  {| view_ready := row.(DispatchRow.ready);
     updatedAtIso := row.(DispatchRow.updated_at) |}.

Inductive GetResponse :=
| GetError (message : string) (status : Z)
| DispatchMap (dispatch : gmap string DispatchView).

(** [GET]: [dispatch[row.post_key] = {...}] row by row on a plain object;
    an assignment to the name __proto__ adds no property. *)
Definition GET (userId : option string) (table : list DispatchRow.t) : GetResponse :=
  match authenticated userId with
  | None => GetError "Unauthorized" 401
  | Some userId =>
      DispatchMap
        (foldl (λ acc row,
                  if bool_decide (row.(DispatchRow.post_key) = "__proto__") then acc
                  else <[row.(DispatchRow.post_key) := view row]> acc)
           ∅ (filter (λ r, r.(DispatchRow.user_id) = userId) table))
  end.

End Dispatch.

(** ** DispatchReadinessResolver: the dispatch-ready route *)

Module Item.
Record t := {
  postKey : string;
  date : string;
  timeLocal : string;
  platform : Platform;
  format : Format;
  source : Source;
  caption : string;
  hashtags : string;
  mediaInstructions : string;
  approvalRequired : bool;
  approvalReason : string;
  dispatchUpdatedAtIso : option Z
}.
End Item.

Module DispatchReady.

Record Meta := {
  reason : option string;
  model : option string;
  planGeneratedAt : option Z;
  dispatchReadyCount : option nat;
  returnedCount : option nat
}.

Inductive Response :=
| JsonError (message : string) (status : Z)
| Json (items : list Item.t) (meta : Meta).

(** [joinHashtags]: trim, drop the empty tags, put one # in front. *)
Definition joinHashtags (tags : list string) : string :=
  Js.join " "
    (map (λ t, if Js.startsWith "#" t then t else "#" +:+ t)
       (filter (λ t, t ≠ "") (map Js.trim tags))).

(** [.eq("user_id", userId).order("generated_at", { ascending: false }).limit(1)] *)
Definition newer_first (a b : PlanRow.t) : Prop :=
  b.(PlanRow.generated_at) ≤ a.(PlanRow.generated_at).

Global Instance newer_first_dec : RelDecision newer_first.
Proof. intros a b. unfold newer_first. apply _. Defined.

Definition latest_plan (userId : string) (plans : list PlanRow.t) : option PlanRow.t :=
  head (merge_sort newer_first (filter (λ r, r.(PlanRow.user_id) = userId) plans)).

(** [.eq("user_id", userId).eq("ready", true)] *)
Definition select_ready (userId : string) (table : list DispatchRow.t) : list DispatchRow.t :=
  filter (λ r, r.(DispatchRow.user_id) = userId ∧ r.(DispatchRow.ready) = true) table.

(** [.eq("user_id", userId)] *)
Definition select_approvals (userId : string) (table : list ApprovalRow.t) : list ApprovalRow.t :=
  filter (λ r, r.(ApprovalRow.user_id) = userId) table.

(** The set and the two records that the handler fills row by row; a row
    without a key is skipped.  The records are plain objects: every key
    looked up below is a post key, which contains the bar and so is the
    name of no inherited property. *)
Definition dispatchReadyKeys (rows : list DispatchRow.t) : gset string :=
  foldl (λ acc row,
           if bool_decide (row.(DispatchRow.post_key) = "") then acc
           else {[ row.(DispatchRow.post_key) ]} ∪ acc) ∅ rows.

Definition dispatchUpdatedAt (rows : list DispatchRow.t) : gmap string Z :=
  foldl (λ acc row,
           if bool_decide (row.(DispatchRow.post_key) = "") then acc
           else <[ row.(DispatchRow.post_key) := row.(DispatchRow.updated_at) ]> acc)
        ∅ rows.

Definition approvals_of (rows : list ApprovalRow.t) : gmap string ApprovalRow.t :=
  foldl (λ acc row,
           if bool_decide (row.(ApprovalRow.post_key) = "") then acc
           else <[ row.(ApprovalRow.post_key) := row ]> acc) ∅ rows.

(** The body of [day.posts.forEach((p, idx) => ...)]: the item pushed for a
    post, if any. *)
Definition item_of (readyKeys : gset string) (approvals : gmap string ApprovalRow.t)
    (updatedAt : gmap string Z) (day : PlanDay) (idx : nat) (p : PlanPost)
    : option Item.t :=
  let postKey := makePostKey day.(date) p idx in
  if negb (bool_decide (postKey ∈ readyKeys)) then None
  else if p.(approval_required)
          && negb (match approvals !! postKey with
                   | Some a => bool_decide (a.(ApprovalRow.status) = approved)
                   | None => false
                   end)
  then None
  else Some {| Item.postKey := postKey;
               Item.date := day.(date);
               Item.timeLocal := p.(suggested_time_local);
               Item.platform := p.(platform);
               Item.format := p.(format);
               Item.source := p.(source);
               Item.caption := p.(caption);
               Item.hashtags := joinHashtags p.(hashtags);
               Item.mediaInstructions := p.(media_instructions);
               Item.approvalRequired := p.(approval_required);
               Item.approvalReason := p.(approval_reason);
               Item.dispatchUpdatedAtIso := updatedAt !! postKey |}.

Definition items_of_plan (readyKeys : gset string) (approvals : gmap string ApprovalRow.t)
    (updatedAt : gmap string Z) (plan : Plan) : list Item.t :=
  plan.(days) ≫= λ day,
    omap id (imap (item_of readyKeys approvals updatedAt day) day.(posts)).

Section Handler.

(** [a.localeCompare(b)]: negative, zero or positive. *)
Variable localeCompare : string → string → Z.

Definition sort_key (it : Item.t) : string :=
  it.(Item.date) +:+ " " +:+ it.(Item.timeLocal).

(** [items.sort((a, b) => key(a).localeCompare(key(b)))], a stable sort. *)
Fixpoint sort_insert (x : Item.t) (sorted : list Item.t) : list Item.t :=
  match sorted with
  | [] => [x]
  | y :: rest =>
      if localeCompare (sort_key x) (sort_key y) <=? 0 then x :: sorted
      else y :: sort_insert x rest
  end.

Definition sort_items (items : list Item.t) : list Item.t :=
  foldr sort_insert [] items.

Definition GET (userId : option string) (plans : list PlanRow.t)
    (plan_dispatch : list DispatchRow.t) (plan_post_approvals : list ApprovalRow.t)
    : Response :=
  match authenticated userId with
  | None => JsonError "Unauthorized" 401
  | Some userId =>
  match latest_plan userId plans with
  | None =>
      Json [] {| reason := Some "no_plan_found"; model := None;
                 planGeneratedAt := None; dispatchReadyCount := None;
                 returnedCount := None |}
  | Some planRow =>
  if negb (isValidPlan planRow.(PlanRow.plan_json))
  then JsonError "Stored plan_json is invalid. Regenerate plan." 500 else
  match asPlan planRow.(PlanRow.plan_json) with
  | None => JsonError "Stored plan_json is invalid. Regenerate plan." 500
  | Some plan =>
  let dispatchRows := select_ready userId plan_dispatch in
  let readyKeys := dispatchReadyKeys dispatchRows in
  let updatedAt := dispatchUpdatedAt dispatchRows in
  if bool_decide (size readyKeys = 0%nat)
  then Json [] {| reason := None; model := planRow.(PlanRow.model);
                  planGeneratedAt := Some planRow.(PlanRow.generated_at);
                  dispatchReadyCount := Some 0%nat; returnedCount := None |}
  else
  let approvals := approvals_of (select_approvals userId plan_post_approvals) in
  let items := sort_items (items_of_plan readyKeys approvals updatedAt plan) in
  Json items {| reason := None; model := planRow.(PlanRow.model);
                planGeneratedAt := Some planRow.(PlanRow.generated_at);
                dispatchReadyCount := Some (size readyKeys);
                returnedCount := Some (length items) |}
  end end end.

End Handler.

End DispatchReady.

(** ** Review settings, appointment events and review jobs *)

Inductive Channel := email | sms.
Inductive JobStatus := queued | sent | failed.

Global Instance JobStatus_eq_dec : EqDecision JobStatus.
Proof. solve_decision. Defined.

Module BookingSettingsRow.
Record t := { user_id : string; slug : string }.
End BookingSettingsRow.

Module ReviewSettingsRow.
Record t := {
  user_id : string;
  review_url : string;
  send_delay_minutes : Z;
  channel : Channel;
  template : string;
  updated_at : Z
}.
End ReviewSettingsRow.

(** Row identifiers are generated by the store; they are never zero or
    empty. *)
Module AppointmentEventRow.
Record t := {
  id : positive;
  user_id : string;
  external_event_id : option string;
  customer_name : option string;
  customer_email : option string;
  customer_phone : option string;
  appointment_end : option Z;
  raw : json
}.
End AppointmentEventRow.

Module ReviewJobRow.
Record t := {
  id : positive;
  user_id : string;
  appointment_event_id : positive;
  channel : Channel;
  to_email : option string;
  to_phone : option string;
  message : string;
  scheduled_for : Z;
  status : JobStatus;
  sent_at : option Z;
  error : option string
}.
End ReviewJobRow.

(** [Math.max(0, Math.min(7 * 24 * 60, Math.floor(x)))] on a finite [x]. *)
Definition clamp_minutes (floor_x : Z) : Z := Z.max 0 (Z.min (7 * 24 * 60) floor_x).

(** ** The review-settings route *)

Module ReviewSettings.

Inductive Response :=
| JsonError (message : string) (status : Z)
| Ok.

(** The value of [sendDelayMinutes] that [POST] computes from the body's
    property: [typeof x === "number" && Number.isFinite(x)], then floor and
    clamp; otherwise 120. *)
Definition sendDelayMinutes (x : option json) : Z :=
  match x with
  | Some (JNum (Finite q)) => clamp_minutes (Qfloor q)
  | _ => 120
  end.

(** [upsert(row, { onConflict: "user_id" })] *)
Fixpoint upsert (row : ReviewSettingsRow.t) (table : list ReviewSettingsRow.t)
    : list ReviewSettingsRow.t :=
  match table with
  | [] => [row]
  | r :: table =>
      if bool_decide (r.(ReviewSettingsRow.user_id) = row.(ReviewSettingsRow.user_id))
      then row :: table
      else r :: upsert row table
  end.

Definition stored (userId : string) (table : list ReviewSettingsRow.t)
    : option ReviewSettingsRow.t :=
  head (filter (λ r, r.(ReviewSettingsRow.user_id) = userId) table).

Section Handlers.

(** [isValidHttpUrl]: the [URL] constructor accepts the string and the
    protocol is http or https. *)
Variable isValidHttpUrl : string → bool.

Definition POST (userId : option string) (body : option json) (now : Z)
    (table : list ReviewSettingsRow.t) : Response * list ReviewSettingsRow.t :=
  match authenticated userId with
  | None => (JsonError "Unauthorized" 401, table)
  | Some userId =>
  match body with
  | None => (JsonError "Body must be valid JSON." 400, table)
  | Some b =>
  if negb (is_object b) then (JsonError "Invalid JSON body." 400, table) else
  let reviewUrl := from_option Js.trim "" (as_str (prop "reviewUrl" b)) in
  if bool_decide (reviewUrl = "") || negb (isValidHttpUrl reviewUrl)
  then (JsonError "reviewUrl must be a valid http(s) link." 400, table) else
  let delay := sendDelayMinutes (prop "sendDelayMinutes" b) in
  let channel := if is_str "sms" (prop "channel" b) then sms else email in
  let templateRaw := default "" (as_str (prop "template" b)) in
  let template := normalizeSpaces templateRaw in
  if bool_decide (String.length template < 10)%nat
  then (JsonError
          "template is too short. Please write a short message (10+ characters)."
          400, table) else
  (Ok,
   upsert {| ReviewSettingsRow.user_id := userId;
             ReviewSettingsRow.review_url := reviewUrl;
             ReviewSettingsRow.send_delay_minutes := delay;
             ReviewSettingsRow.channel := channel;
             ReviewSettingsRow.template := template;
             ReviewSettingsRow.updated_at := now |} table)
  end end.

End Handlers.

(** The tables that a sequence of [POST] calls builds from the empty
    table. *)
Inductive written : list ReviewSettingsRow.t → Prop :=
| written_nil : written []
| written_POST isValidHttpUrl userId body now table response table' :
    written table →
    POST isValidHttpUrl userId body now table = (response, table') →
    written table'.

End ReviewSettings.


(** ** ReviewJobQueue: the review-jobs route *)

Module ReviewJobs.

Inductive Response :=
| JsonError (message : string) (status : Z)
| Jobs (jobs : list ReviewJobRow.t)
| Sent (sent : nat) (jobs : list ReviewJobRow.t).

(** [.eq("status", "queued").lte("scheduled_for", nowIso)] *)
Definition due (now : Z) (j : ReviewJobRow.t) : Prop :=
  j.(ReviewJobRow.status) = queued ∧ j.(ReviewJobRow.scheduled_for) ≤ now.

Global Instance due_dec now j : Decision (due now j).
Proof. unfold due. apply _. Defined.

(** [.order("scheduled_for", { ascending: true })] *)
Definition earlier_first (a b : ReviewJobRow.t) : Prop :=
  a.(ReviewJobRow.scheduled_for) ≤ b.(ReviewJobRow.scheduled_for).

Global Instance earlier_first_dec : RelDecision earlier_first.
Proof. intros a b. unfold earlier_first. apply _. Defined.

(** [fetchDueJobs(limit)], with the clock reading [now]. *)
Definition fetchDueJobs (now : Z) (limit : nat) (review_jobs : list ReviewJobRow.t)
    : list ReviewJobRow.t :=
  take limit (merge_sort earlier_first (filter (due now) review_jobs)).

(** [.update({ status: "sent", sent_at: nowIso, error: null }).eq("id", id)] *)
Definition mark_sent (now : Z) (id : positive) (review_jobs : list ReviewJobRow.t)
    : list ReviewJobRow.t :=
  map (λ j, if bool_decide (j.(ReviewJobRow.id) = id)
            then {| ReviewJobRow.id := j.(ReviewJobRow.id);
                    ReviewJobRow.user_id := j.(ReviewJobRow.user_id);
                    ReviewJobRow.appointment_event_id := j.(ReviewJobRow.appointment_event_id);
                    ReviewJobRow.channel := j.(ReviewJobRow.channel);
                    ReviewJobRow.to_email := j.(ReviewJobRow.to_email);
                    ReviewJobRow.to_phone := j.(ReviewJobRow.to_phone);
                    ReviewJobRow.message := j.(ReviewJobRow.message);
                    ReviewJobRow.scheduled_for := j.(ReviewJobRow.scheduled_for);
                    ReviewJobRow.status := sent;
                    ReviewJobRow.sent_at := Some now;
                    ReviewJobRow.error := None |}
            else j) review_jobs.

Definition token_status (tokenErr : string) : Z :=
  if bool_decide (tokenErr = "Unauthorized.") then 401 else 400.

(** [GET]: preview the due jobs.  [tokenErr] is the answer of
    [requireAutomationToken]. *)
Definition GET (tokenErr : option string) (now : Z) (review_jobs : list ReviewJobRow.t)
    : Response :=
  match tokenErr with
  | Some e => JsonError e (token_status e)
  | None => Jobs (fetchDueJobs now 25 review_jobs)
  end.

(** [POST]: mark the due jobs as sent. *)
Definition POST (tokenErr : option string) (now : Z) (review_jobs : list ReviewJobRow.t)
    : Response * list ReviewJobRow.t :=
  match tokenErr with
  | Some e => (JsonError e (token_status e), review_jobs)
  | None =>
      let jobs := fetchDueJobs now 25 review_jobs in
      (Sent (length jobs) jobs,
       foldl (λ table j, mark_sent now j.(ReviewJobRow.id) table) review_jobs jobs)
  end.

End ReviewJobs.

(** The row that [mark_sent] writes in place of a job, spelled out for the
    statements about the consume handler. *)
Definition as_sent (now : Z) (j : ReviewJobRow.t) : ReviewJobRow.t :=
  {| ReviewJobRow.id := j.(ReviewJobRow.id);
     ReviewJobRow.user_id := j.(ReviewJobRow.user_id);
     ReviewJobRow.appointment_event_id := j.(ReviewJobRow.appointment_event_id);
     ReviewJobRow.channel := j.(ReviewJobRow.channel);
     ReviewJobRow.to_email := j.(ReviewJobRow.to_email);
     ReviewJobRow.to_phone := j.(ReviewJobRow.to_phone);
     ReviewJobRow.message := j.(ReviewJobRow.message);
     ReviewJobRow.scheduled_for := j.(ReviewJobRow.scheduled_for);
     ReviewJobRow.status := sent;
     ReviewJobRow.sent_at := Some now;
     ReviewJobRow.error := None |}.

(** ** The appointment webhook *)

Module Webhook.

Record Store := {
  booking_settings : list BookingSettingsRow.t;
  review_settings : list ReviewSettingsRow.t;
  appointment_events : list AppointmentEventRow.t;
  review_jobs : list ReviewJobRow.t;
  next_event_id : positive;
  next_job_id : positive
}.

Inductive Response :=
| JsonError (message : string) (status : Z)
| Deduped
| NotQueued (reason : string) (appointmentEventId : positive)
| Queued (scheduledFor : Z) (channel : Channel) (appointmentEventId : positive).

(** The answer of [.maybeSingle()]: no row, the row, or the error that the
    client reports for several rows. *)
Inductive Single (A : Type) :=
| NoRow
| OneRow (row : A)
| ManyRows.
Arguments NoRow {A}.
Arguments OneRow {A} row.
Arguments ManyRows {A}.

Definition maybeSingle {A} (rows : list A) : Single A :=
  match rows with
  | [] => NoRow
  | [row] => OneRow row
  | _ => ManyRows
  end.

(** [asString] *)
Definition asString (x : option json) : option string :=
  match x with
  | Some (JStr s) =>
      if bool_decide (String.length (Js.trim s) = 0%nat) then None else Some (Js.trim s)
  | _ => None
  end.

(** [substituteTemplate] *)
Definition substituteTemplate (template reviewUrl : string) : string :=
  Js.replaceAll "{review_url}" reviewUrl template.

(** The external event id that the handler extracts from the payload. *)
Definition externalEventId (rawObj : json) : option string :=
  asString (prop "external_event_id" rawObj)
  ?? asString (prop "eventId" rawObj)
  ?? asString (prop "id" rawObj)
  ?? asString (prop "bookingId" rawObj).

(** [.eq("user_id", userId).eq("external_event_id", externalEventId)] *)
Definition select_event (userId eid : string) (events : list AppointmentEventRow.t)
    : list AppointmentEventRow.t :=
  filter (λ e, e.(AppointmentEventRow.user_id) = userId
               ∧ e.(AppointmentEventRow.external_event_id) = Some eid) events.

(** [.insert(row).select("id").single()] on appointment_events. *)
Definition insert_event (e : AppointmentEventRow.t) (db : Store) : Store :=
  {| booking_settings := db.(booking_settings);
     review_settings := db.(review_settings);
     appointment_events := db.(appointment_events) ++ [e];
     review_jobs := db.(review_jobs);
     next_event_id := Pos.succ db.(next_event_id);
     next_job_id := db.(next_job_id) |}.

(** [.insert(row)] on review_jobs. *)
Definition insert_job (j : ReviewJobRow.t) (db : Store) : Store :=
  {| booking_settings := db.(booking_settings);
     review_settings := db.(review_settings);
     appointment_events := db.(appointment_events);
     review_jobs := db.(review_jobs) ++ [j];
     next_event_id := db.(next_event_id);
     next_job_id := Pos.succ db.(next_job_id) |}.

Definition token_status (tokenErr : string) : Z :=
  if bool_decide (tokenErr = "Unauthorized.") then 401 else 400.

Section Handler.

(** [JSON.parse]; [None] when it throws. *)
Variable JSON_parse : string → option json.
(** [Date.parse]; [None] stands for NaN. *)
Variable Date_parse : string → option Z.
(** The message of the store client when [maybeSingle] finds several rows,
    and the message of the TypeError raised by reading a property of
    null. *)
Variable several_rows_message : string.
Variable null_property_message : string.

(** [asDateIsoOrNull] *)
Definition asDateIsoOrNull (x : option json) : option Z :=
  match asString x with
  | Some s => Date_parse s
  | None => None
  end.

(** Steps 3 to 6 of [POST], once the salon and its settings are known.
    Reading a property of null throws; the handler answers 500 with the
    message of the exception. *)
Definition ingest (userId : string) (settings : ReviewSettingsRow.t) (rawObj : json)
    (now : Z) (db : Store) : Response * Store :=
  if is_null rawObj then (JsonError null_property_message 500, db) else
  let eid := externalEventId rawObj in
  let customerName :=
    asString (prop "customer_name" rawObj) ?? asString (prop "customerName" rawObj)
    ?? asString (prop "name" rawObj) in
  let customerEmail :=
    asString (prop "customer_email" rawObj) ?? asString (prop "customerEmail" rawObj)
    ?? asString (prop "email" rawObj) in
  let customerPhone :=
    asString (prop "customer_phone" rawObj) ?? asString (prop "customerPhone" rawObj)
    ?? asString (prop "phone" rawObj) in
  let appointmentEnd :=
    asDateIsoOrNull (prop "appointment_end" rawObj)
    ?? asDateIsoOrNull (prop "appointmentEnd" rawObj)
    ?? asDateIsoOrNull (prop "end" rawObj)
    ?? asDateIsoOrNull (prop "endTime" rawObj) in
  (* 4) dedup if externalEventId exists *)
  match match eid with
        | Some x => maybeSingle (select_event userId x db.(appointment_events))
        | None => NoRow
        end with
  | ManyRows => (JsonError several_rows_message 500, db)
  | OneRow _ => (Deduped, db)
  | NoRow =>
  (* 5) insert appointment event *)
  let insertedEvent :=
    {| AppointmentEventRow.id := db.(next_event_id);
       AppointmentEventRow.user_id := userId;
       AppointmentEventRow.external_event_id := eid;
       AppointmentEventRow.customer_name := customerName;
       AppointmentEventRow.customer_email := customerEmail;
       AppointmentEventRow.customer_phone := customerPhone;
       AppointmentEventRow.appointment_end := appointmentEnd;
       AppointmentEventRow.raw := rawObj |} in
  let db := insert_event insertedEvent db in
  (* 6) build review job *)
  let delayMinutes := clamp_minutes settings.(ReviewSettingsRow.send_delay_minutes) in
  let scheduledFor := now + delayMinutes * 60 * 1000 in
  let message :=
    substituteTemplate settings.(ReviewSettingsRow.template)
      settings.(ReviewSettingsRow.review_url) in
  let channel := settings.(ReviewSettingsRow.channel) in
  let job toEmail toPhone :=
    {| ReviewJobRow.id := db.(next_job_id);
       ReviewJobRow.user_id := userId;
       ReviewJobRow.appointment_event_id := insertedEvent.(AppointmentEventRow.id);
       ReviewJobRow.channel := channel;
       ReviewJobRow.to_email := toEmail;
       ReviewJobRow.to_phone := toPhone;
       ReviewJobRow.message := message;
       ReviewJobRow.scheduled_for := scheduledFor;
       ReviewJobRow.status := queued;
       ReviewJobRow.sent_at := None;
       ReviewJobRow.error := None |} in
  match channel with
  | email =>
      match customerEmail with
      | None =>
          (NotQueued "missing_customer_email" insertedEvent.(AppointmentEventRow.id), db)
      | Some _ =>
          (Queued scheduledFor channel insertedEvent.(AppointmentEventRow.id),
           insert_job (job customerEmail None) db)
      end
  | sms =>
      match customerPhone with
      | None =>
          (NotQueued "missing_customer_phone" insertedEvent.(AppointmentEventRow.id), db)
      | Some _ =>
          (Queued scheduledFor channel insertedEvent.(AppointmentEventRow.id),
           insert_job (job None customerPhone) db)
      end
  end
  end.

(** The row that step 5 inserts, and the row that step 6 builds, spelled
    out for the statements about [ingest]. *)
Definition event_of (userId : string) (rawObj : json) (db : Store)
    : AppointmentEventRow.t :=
  {| AppointmentEventRow.id := db.(next_event_id);
     AppointmentEventRow.user_id := userId;
     AppointmentEventRow.external_event_id := externalEventId rawObj;
     AppointmentEventRow.customer_name :=
       asString (prop "customer_name" rawObj) ?? asString (prop "customerName" rawObj)
       ?? asString (prop "name" rawObj);
     AppointmentEventRow.customer_email :=
       asString (prop "customer_email" rawObj) ?? asString (prop "customerEmail" rawObj)
       ?? asString (prop "email" rawObj);
     AppointmentEventRow.customer_phone :=
       asString (prop "customer_phone" rawObj) ?? asString (prop "customerPhone" rawObj)
       ?? asString (prop "phone" rawObj);
     AppointmentEventRow.appointment_end :=
       asDateIsoOrNull (prop "appointment_end" rawObj)
       ?? asDateIsoOrNull (prop "appointmentEnd" rawObj)
       ?? asDateIsoOrNull (prop "end" rawObj)
       ?? asDateIsoOrNull (prop "endTime" rawObj);
     AppointmentEventRow.raw := rawObj |}.

Definition job_of (userId : string) (settings : ReviewSettingsRow.t) (now : Z)
    (db : Store) (toEmail toPhone : option string) : ReviewJobRow.t :=
  {| ReviewJobRow.id := db.(next_job_id);
     ReviewJobRow.user_id := userId;
     ReviewJobRow.appointment_event_id := db.(next_event_id);
     ReviewJobRow.channel := settings.(ReviewSettingsRow.channel);
     ReviewJobRow.to_email := toEmail;
     ReviewJobRow.to_phone := toPhone;
     ReviewJobRow.message :=
       substituteTemplate settings.(ReviewSettingsRow.template)
         settings.(ReviewSettingsRow.review_url);
     ReviewJobRow.scheduled_for :=
       now + clamp_minutes settings.(ReviewSettingsRow.send_delay_minutes) * 60 * 1000;
     ReviewJobRow.status := queued;
     ReviewJobRow.sent_at := None;
     ReviewJobRow.error := None |}.

(** [POST].  [tokenErr] is the answer of [requireWebhookToken], [slug] the
    route parameter, [rawText] the request body, [now] the clock. *)
Definition POST (tokenErr : option string) (slug rawText : string) (now : Z)
    (db : Store) : Response * Store :=
  match tokenErr with
  | Some e => (JsonError e (token_status e), db)
  | None =>
  if bool_decide (slug = "") then (JsonError "Missing slug in URL." 400, db) else
  if bool_decide (String.length (Js.trim rawText) = 0%nat)
  then (JsonError "Body is empty (expected JSON)." 400, db) else
  match JSON_parse rawText with
  | None =>
      (JsonError ("Body must be valid JSON. First 200 chars: " +:+ Js.slice0 200 rawText)
         400, db)
  | Some rawObj =>
  (* 1) resolve salon by slug *)
  match maybeSingle (filter (λ b, b.(BookingSettingsRow.slug) = slug)
                       db.(booking_settings)) with
  | ManyRows => (JsonError several_rows_message 500, db)
  | NoRow => (JsonError "Unknown booking slug." 404, db)
  | OneRow booking =>
  let userId := booking.(BookingSettingsRow.user_id) in
  (* 2) load review settings *)
  match maybeSingle (filter (λ r, r.(ReviewSettingsRow.user_id) = userId)
                       db.(review_settings)) with
  | ManyRows => (JsonError several_rows_message 500, db)
  | NoRow => (JsonError "Review settings not configured for this salon." 409, db)
  | OneRow settings => ingest userId settings rawObj now db
  end end end end.

(** A sequence of webhook calls, of any callers, leading from one store to
    another. *)
Inductive calls : Store → Store → Prop :=
| calls_refl db : calls db db
| calls_step db tokenErr slug rawText now response db' db'' :
    POST tokenErr slug rawText now db = (response, db') →
    calls db' db'' →
    calls db db''.

End Handler.

End Webhook.

(** ** PlanGenerator: the plan route *)

Module PlanRoute.

Inductive Response :=
| JsonError (message : string) (status : Z)
| PlanJson (plan : json) (model : string) (generatedAt : Z) (extractedFrom : string).

(** What [fetch] delivers: the [ok] flag, the status and the body text. *)
Record Upstream := { ok : bool; status : Z; rawText : string }.

(** [requireEnv(name)]: the trimmed value, or the message of the error. *)
Definition requireEnv (name : string) (v : option string) : string + string :=
  match v with
  | Some v =>
      if bool_decide (String.length (Js.trim v) = 0%nat)
      then inr ("Missing environment variable: " +:+ name)
      else inl (Js.trim v)
  | None => inr ("Missing environment variable: " +:+ name)
  end.

(** [isObject] *)
Definition isObject (x : json) : bool :=
  truthy x && typeof_object x && negb (bool_decide (is_Some (as_array (Some x)))).

(** [looksLikePlan], the light check of the basic shape. *)
Definition looksLikePlan (x : json) : bool :=
  isObject x
  && bool_decide (is_Some (as_str (prop "horizon_start_date" x)))
  && bool_decide (is_Some (as_str (prop "horizon_end_date" x)))
  && bool_decide (is_Some (as_array (prop "days" x))).

(** The first answer of [f] along a list: a loop that returns from inside. *)
Fixpoint first_some {A B} (f : A → option B) (l : list A) : option B :=
  match l with
  | [] => None
  | x :: l => f x ?? first_some f l
  end.

Section Handler.

(** [JSON.parse]; [None] when it throws. *)
Variable JSON_parse : string → option json.

(** [if (typeof v === "string") try { obj = JSON.parse(v);
    if (looksLikePlan(obj)) return { plan: obj, debugHint } } catch {}] *)
Definition parsed_plan (v : option json) (debugHint : string) : option (json * string) :=
  match v with
  | Some (JStr text) =>
      match JSON_parse text with
      | Some obj => if looksLikePlan obj then Some (obj, debugHint) else None
      | None => None
      end
  | _ => None
  end.

(** The body of the loop over [content]. *)
Definition from_content (c : json) : option (json * string) :=
  match prop "json" c with
  | Some maybeJson =>
      if looksLikePlan maybeJson then Some (maybeJson, "from output.content.json")
      else None
  | None => None
  end
  ?? parsed_plan (prop "text" c) "from output.content.text"
  ?? parsed_plan (prop "value" c) "from output.content.value"
  ?? parsed_plan (prop "output_text" c) "from output.content.output_text"
  ?? parsed_plan (prop "content" c) "from output.content.content".

(** The body of the loop over [output]. *)
Definition from_item (item : json) : option (json * string) :=
  match prop "content" item with
  | Some (JArr content) => first_some from_content content
  | _ => None
  end.

Definition extractPlanFromResponsesPayload (payload : json) : option json * string :=
  match
    parsed_plan (prop "output_text" payload) "from payload.output_text"
    ?? match prop "output" payload with
       | Some (JArr output) => first_some from_item output
       | _ => None
       end
    ?? (if looksLikePlan payload then Some (payload, "from payload root") else None)
  with
  | Some (plan, debugHint) => (Some plan, debugHint)
  | None => (None, "no plan found in known fields")
  end.

(** [GET], from the answer of the upstream service on: [upstream] is the
    response of [fetch], or the message of the exception it raised. *)
Definition GET (userId : option string) (OPENAI_API_KEY OPENAI_MODEL : option string)
    (upstream : Upstream + string) (now : Z) : Response :=
  match authenticated userId with
  | None => JsonError "Unauthorized" 401
  | Some _ =>
  match requireEnv "OPENAI_API_KEY" OPENAI_API_KEY with
  | inr msg => JsonError msg 500
  | inl _ =>
  match requireEnv "OPENAI_MODEL" OPENAI_MODEL with
  | inr msg => JsonError msg 500
  | inl model =>
  match upstream with
  | inr msg => JsonError msg 502
  | inl resp =>
  let parsed := JSON_parse resp.(rawText) in
  if negb resp.(ok) then
    let upstream_message :=
      match parsed with
      | Some p =>
          if truthy p
          then match prop "error" p with
               | Some err =>
                   if truthy err
                   then match as_str (prop "message" err) with
                        | Some m => if bool_decide (m = "") then None else Some m
                        | None => None
                        end
                   else None
               | None => None
               end
          else None
      | None => None
      end in
    JsonError (default ("OpenAI request failed (HTTP " +:+ pretty resp.(status) +:+ ").")
                 upstream_message) 502
  else
  match parsed with
  | None => JsonError "OpenAI returned non-JSON response. Check server logs." 502
  | Some p =>
  if negb (truthy p)
  then JsonError "OpenAI returned non-JSON response. Check server logs." 502 else
  match extractPlanFromResponsesPayload p with
  | (None, _) =>
      JsonError
        "OpenAI returned an unexpected format. Check server logs for the raw response."
        502
  | (Some plan, debugHint) => PlanJson plan model now debugHint
  end end end end end end.

End Handler.

End PlanRoute.

(** ** PlanStore: the plan-store route *)

Module PlanStore.

Inductive Response :=
| JsonError (message : string) (status : Z)
| Stored (generatedAt : Z)
| NoPlan
| PlanJson (plan : json) (model : option string) (generatedAt : Z).

(** [GET]: the newest plan of the user, or [{ plan: null }]. *)
Definition GET (userId : option string) (plans : list PlanRow.t) : Response :=
  match authenticated userId with
  | None => JsonError "Unauthorized" 401
  | Some userId =>
  match DispatchReady.latest_plan userId plans with
  | None => NoPlan
  | Some row =>
      PlanJson row.(PlanRow.plan_json) row.(PlanRow.model) row.(PlanRow.generated_at)
  end end.

Section Handlers.

(** [Date.parse]; [None] stands for NaN. *)
Variable Date_parse : string → option Z.

(** [isIsoDate] *)
Definition isIsoDate (value : string) : bool :=
  match Date_parse value with Some _ => true | None => false end.

(** [b.meta?.k] *)
Definition meta (k : string) (b : json) : option json :=
  prop "meta" b ≫= prop k.

(** [typeof x === "string" && x.trim().length > 0 ? x.trim() : null] *)
Definition model_of (b : json) : option string :=
  match as_str (meta "model" b) with
  | Some s => if bool_decide (String.length (Js.trim s) = 0%nat)
              then None else Some (Js.trim s)
  | None => None
  end.

(** The instant of [meta.generatedAt] when it is a string that is not blank
    and parses as a date; the clock reading otherwise. *)
Definition generatedAt_of (b : json) (now : Z) : Z :=
  match as_str (meta "generatedAt" b) with
  | Some s =>
      if bool_decide (String.length (Js.trim s) = 0%nat) then now
      else if isIsoDate s then default now (Date_parse s) else now
  | None => now
  end.

(** [POST].  [body] is [None] when [req.json()] throws; [now] is the clock
    reading of [new Date()]. *)
Definition POST (userId : option string) (body : option json) (now : Z)
    (plans : list PlanRow.t) : Response * list PlanRow.t :=
  match authenticated userId with
  | None => (JsonError "Unauthorized" 401, plans)
  | Some userId =>
  match body with
  | None => (JsonError "Body must be valid JSON." 400, plans)
  | Some b =>
  if negb (is_object b) then (JsonError "Invalid JSON body." 400, plans) else
  match prop "plan" b with
  | None => (JsonError "Invalid plan format." 400, plans)
  | Some plan =>
  if negb (isValidPlan plan) then (JsonError "Invalid plan format." 400, plans) else
  let model := model_of b in
  let generatedAt := generatedAt_of b now in
  (Stored generatedAt,
   plans ++ [ {| PlanRow.user_id := userId; PlanRow.plan_json := plan;
                 PlanRow.model := model; PlanRow.generated_at := generatedAt |} ])
  end end end.

End Handlers.

(** The tables that a sequence of [POST] calls builds from the empty
    table. *)
Inductive written : list PlanRow.t → Prop :=
| written_nil : written []
| written_POST Date_parse userId body now plans response plans' :
    written plans →
    POST Date_parse userId body now plans = (response, plans') →
    written plans'.

End PlanStore.

(** ** Sample data *)

Definition sample_post (cap media : string) (req : bool) : PlanPost :=
  {| source := scheduled; platform := instagram; format := post;
     suggested_time_local := "09:00"; caption := cap; hashtags := ["salon"];
     media_instructions := media; approval_required := req;
     approval_reason := "" |}.

(** Eighty characters. *)
Definition eighty : string :=
  "0123456789012345678901234567890123456789012345678901234567890123456789012345678@".

(** A plan as the document that the store holds. *)
Definition json_of_post (p : PlanPost) : json :=
  JObj [("source", JStr (Source_str p.(source)));
        ("platform", JStr (Platform_str p.(platform)));
        ("format", JStr (Format_str p.(format)));
        ("suggested_time_local", JStr p.(suggested_time_local));
        ("caption", JStr p.(caption));
        ("hashtags", JArr (map JStr p.(hashtags)));
        ("media_instructions", JStr p.(media_instructions));
        ("approval_required", JBool p.(approval_required));
        ("approval_reason", JStr p.(approval_reason))].

Definition json_of_day (d : PlanDay) : json :=
  JObj [("date", JStr d.(date)); ("posts", JArr (map json_of_post d.(posts)))].

Definition json_of_plan (p : Plan) : json :=
  JObj [("horizon_start_date", JStr p.(horizon_start_date));
        ("horizon_end_date", JStr p.(horizon_end_date));
        ("days", JArr (map json_of_day p.(days)))].

Definition sample_plan : Plan :=
  {| horizon_start_date := "2025-01-06";
     horizon_end_date := "2025-01-12";
     days :=
       [ {| date := "2025-01-07";
            posts := [sample_post "Winter sale: 20% off" "promo banner" true] |};
         {| date := "2025-01-06";
            posts := [sample_post "New year glow" "photo 1" false;
                      sample_post "Loyalty card launch" "photo 2" true;
                      sample_post "Meet the team" "photo 3" false] |} ] |}.

Definition sample_plans : list PlanRow.t :=
  [ {| PlanRow.user_id := "user_1"; PlanRow.plan_json := JNull;
       PlanRow.model := None; PlanRow.generated_at := 500 |};
    {| PlanRow.user_id := "user_1"; PlanRow.plan_json := json_of_plan sample_plan;
       PlanRow.model := Some "model-a"; PlanRow.generated_at := 1000 |} ].

Definition key_sale : string :=
  makePostKey "2025-01-07" (sample_post "Winter sale: 20% off" "promo banner" true) 0.
Definition key_glow : string :=
  makePostKey "2025-01-06" (sample_post "New year glow" "photo 1" false) 0.
Definition key_loyalty : string :=
  makePostKey "2025-01-06" (sample_post "Loyalty card launch" "photo 2" true) 1.
Definition key_team : string :=
  makePostKey "2025-01-06" (sample_post "Meet the team" "photo 3" false) 2.

Definition dispatch_row (u k : string) (r : bool) : DispatchRow.t :=
  {| DispatchRow.user_id := u; DispatchRow.post_key := k;
     DispatchRow.ready := r; DispatchRow.updated_at := 2000 |}.

Definition approval_row (u k : string) (st : ApprovalStatus) : ApprovalRow.t :=
  {| ApprovalRow.user_id := u; ApprovalRow.post_key := k;
     ApprovalRow.status := st;
     ApprovalRow.reject_reason := match st with rejected => Some "too pushy" | _ => None end;
     ApprovalRow.decided_at := match st with pending => None | _ => Some 1500 end;
     ApprovalRow.updated_at := 1500 |}.

(** All four posts are marked ready except "Meet the team"; the sale is
    rejected, the loyalty post approved. *)
Definition sample_dispatch : list DispatchRow.t :=
  [ dispatch_row "user_1" key_sale true; dispatch_row "user_1" key_glow true;
    dispatch_row "user_1" key_loyalty true; dispatch_row "user_1" key_team false;
    dispatch_row "user_2" key_team true ].

Definition sample_approvals : list ApprovalRow.t :=
  [ approval_row "user_1" key_sale rejected;
    approval_row "user_1" key_loyalty approved;
    approval_row "user_2" key_sale approved ].

(** Comparison of strings by code unit. *)
Definition code_unit_compare (a b : string) : Z :=
  match String.compare a b with Lt => -1 | Eq => 0 | Gt => 1 end.

Definition item_of_sample (d : string) (idx : nat) (p : PlanPost) : Item.t :=
  {| Item.postKey := makePostKey d p idx; Item.date := d;
     Item.timeLocal := p.(suggested_time_local);
     Item.platform := p.(platform); Item.format := p.(format);
     Item.source := p.(source); Item.caption := p.(caption);
     Item.hashtags := "#salon";
     Item.mediaInstructions := p.(media_instructions);
     Item.approvalRequired := p.(approval_required);
     Item.approvalReason := p.(approval_reason);
     Item.dispatchUpdatedAtIso := Some 2000 |}.

Definition sample_items : list Item.t :=
  [ item_of_sample "2025-01-06" 0 (sample_post "New year glow" "photo 1" false);
    item_of_sample "2025-01-06" 1 (sample_post "Loyalty card launch" "photo 2" true) ].

Definition sample_meta : DispatchReady.Meta :=
  {| DispatchReady.reason := None; DispatchReady.model := Some "model-a";
     DispatchReady.planGeneratedAt := Some 1000;
     DispatchReady.dispatchReadyCount := Some 3%nat;
     DispatchReady.returnedCount := Some 2%nat |}.

(** A post whose caption has a line break in its first 80 characters. *)
Definition post_two_lines : PlanPost :=
  sample_post ("Fresh cuts" +:+ String "010" "Book now") "photo 4" true.

Definition key_two_lines : string := makePostKey "2025-01-08" post_two_lines 0.

(** Request bodies of the approval and dispatch endpoints. *)
Definition approval_body (key status : string) (reason decidedAt : option string) : json :=
  JObj ([("postKey", JStr key); ("status", JStr status)]
        ++ from_option (λ r, [("rejectReason", JStr r)]) [] reason
        ++ from_option (λ t, [("decidedAtIso", JStr t)]) [] decidedAt).

Definition dispatch_body (key : string) (ready : bool) : json :=
  JObj [("postKey", JStr key); ("ready", JBool ready)].

(** A date parser that knows one instant. *)
Definition sample_Date_parse (s : string) : option Z :=
  if bool_decide (s = "2025-01-05T10:00:00.000Z") then Some 1736071200000 else None.

(** The approvals table after a rejection with a reason. *)
Definition table_after_reject : list ApprovalRow.t :=
  (PlanApprovals.POST sample_Date_parse (Some "user_1")
     (Some (approval_body key_sale "rejected" (Some "  too   pushy ")
              (Some "2025-01-05T10:00:00.000Z")))
     5000 []).2.

(** Review-settings bodies and review jobs. *)
Definition settings_body (delay : option json) : json :=
  JObj ([("reviewUrl", JStr " https://g.page/r/salon/review ");
         ("channel", JStr "email");
         ("template", JStr "Thanks for visiting!  Leave a review: {review_url}")]
        ++ from_option (λ d, [("sendDelayMinutes", d)]) [] delay).

Definition any_url (s : string) : bool := true.

Definition sample_job (id : positive) (at_ : Z) (st : JobStatus) : ReviewJobRow.t :=
  {| ReviewJobRow.id := id; ReviewJobRow.user_id := "user_1";
     ReviewJobRow.appointment_event_id := id; ReviewJobRow.channel := email;
     ReviewJobRow.to_email := Some "client@example.com"; ReviewJobRow.to_phone := None;
     ReviewJobRow.message := "Thanks!"; ReviewJobRow.scheduled_for := at_;
     ReviewJobRow.status := st; ReviewJobRow.sent_at := None;
     ReviewJobRow.error := None |}.

(** A salon with its review settings, and three webhook bodies.  The
    parser maps each body text to the document it stands for. *)
Definition sample_store : Webhook.Store :=
  {| Webhook.booking_settings :=
       [ {| BookingSettingsRow.user_id := "user_1"; BookingSettingsRow.slug := "glow-salon" |} ];
     Webhook.review_settings :=
       [ {| ReviewSettingsRow.user_id := "user_1";
            ReviewSettingsRow.review_url := "https://g.page/r/salon/review";
            ReviewSettingsRow.send_delay_minutes := 120;
            ReviewSettingsRow.channel := email;
            ReviewSettingsRow.template := "Thanks! Review us: {review_url} (it helps)";
            ReviewSettingsRow.updated_at := 0 |} ];
     Webhook.appointment_events := [];
     Webhook.review_jobs := [];
     Webhook.next_event_id := 1;
     Webhook.next_job_id := 1 |}.

Definition body_evt_1_no_email : string := "booking evt_1, no email".
Definition body_evt_1_email : string := "booking evt_1, with email".
Definition body_walk_in : string := "walk-in, with email".

Definition sample_JSON_parse (s : string) : option json :=
  if bool_decide (s = body_evt_1_no_email)
  then Some (JObj [("id", JStr "evt_1"); ("customerName", JStr "Ada")])
  else if bool_decide (s = body_evt_1_email)
  then Some (JObj [("eventId", JStr " evt_1 "); ("email", JStr "ada@example.com")])
  else if bool_decide (s = body_walk_in)
  then Some (JObj [("email", JStr "bob@example.com")])
  else None.

Definition sample_POST : option string → string → string → Z → Webhook.Store
    → Webhook.Response * Webhook.Store :=
  Webhook.POST sample_JSON_parse sample_Date_parse "several rows" "null has no properties".

(** The store after a first call for evt_1 that lacks the e-mail address. *)
Definition store_after_skip : Webhook.Store :=
  (sample_POST None "glow-salon" body_evt_1_no_email 1000 sample_store).2.





(** A plan-store body, and the plans table after it is stored twice. *)
Definition store_body (generatedAt : string) : json :=
  JObj [("plan", json_of_plan sample_plan);
        ("meta", JObj [("model", JStr " model-a "); ("generatedAt", JStr generatedAt)])].

Definition plans_after_store : list PlanRow.t :=
  (PlanStore.POST sample_Date_parse (Some "user_1")
     (Some (store_body "2025-01-05T10:00:00.000Z")) 900
     (PlanStore.POST sample_Date_parse (Some "user_1")
        (Some (store_body "yesterday")) 800 []).2).2.

(* ================================================================== *)
(** * Part II: properties                                               *)
(* ================================================================== *)

Example makePostKey_example :
  makePostKey "2025-01-06"
    {| source := scheduled; platform := instagram; format := reel;
       suggested_time_local := "09:30"; caption := "Hello"; hashtags := [];
       media_instructions := "clip 1"; approval_required := false;
       approval_reason := "" |} 2
  = "2025-01-06|2|instagram|reel|09:30|Hello|clip 1".
Proof. vm_compute. reflexivity. Qed.

(** ** Strings *)

Lemma append_cons c s t : String c s +:+ t = String c (s +:+ t).
Proof. reflexivity. Qed.

Lemma append_length s t :
  String.length (s +:+ t) = (String.length s + String.length t)%nat.
Proof. induction s as [|c s IH]; simpl; [done | by f_equal]. Qed.

Lemma no_bar_cons c s :
  Js.no_bar (String c s) = true ↔ c ≠ "|"%char ∧ Js.no_bar s = true.
Proof.
  cbn. unfold Js.is_char.
  rewrite andb_true_iff, negb_true_iff, bool_decide_eq_false. done.
Qed.

(** Two strings that split at their first bar split the same way. *)
Lemma split_at_bar a a' r r' :
  Js.no_bar a = true → Js.no_bar a' = true →
  a +:+ String "|" r = a' +:+ String "|" r' → a = a' ∧ r = r'.
Proof.
  revert a'. induction a as [|c a IH]; intros [|c' a'] Ha Ha' E.
  - by injection E as ->.
  - injection E as <- _. apply no_bar_cons in Ha' as [? _]. done.
  - injection E as -> _. apply no_bar_cons in Ha as [? _]. done.
  - injection E as -> E.
    apply no_bar_cons in Ha as [_ Ha]. apply no_bar_cons in Ha' as [_ Ha'].
    destruct (IH a' Ha Ha' E) as [-> ->]. done.
Qed.

(** Prefixes of the same length are determined by the whole. *)
Lemma append_inv_length a a' r r' :
  String.length a = String.length a' → a +:+ r = a' +:+ r' → a = a' ∧ r = r'.
Proof.
  revert a'. induction a as [|c a IH]; intros [|c' a'] L E; try discriminate L.
  - done.
  - injection L as L. injection E as -> E.
    destruct (IH a' L E) as [-> ->]. done.
Qed.

Lemma append_inv_tail a a' r : a +:+ r = a' +:+ r → a = a'.
Proof.
  intros E. apply (append_inv_length a a' r r); [|done].
  apply (f_equal String.length) in E. rewrite !append_length in E. lia.
Qed.

Lemma no_bar_app s t :
  Js.no_bar s = true → Js.no_bar t = true → Js.no_bar (s +:+ t) = true.
Proof.
  induction s as [|c s IH]; [done|]. intros [? ?]%no_bar_cons ?.
  change (Js.no_bar (String c (s +:+ t)) = true). apply no_bar_cons; auto.
Qed.

Lemma pretty_N_char_no_bar x : pretty_N_char x ≠ "|"%char.
Proof. unfold pretty_N_char. repeat case_match; done. Qed.

Lemma no_bar_pretty_N_go x s :
  Js.no_bar s = true → Js.no_bar (pretty_N_go x s) = true.
Proof.
  revert s. induction (N.lt_wf_0 x) as [x _ IH]; intros s Hs.
  destruct (decide (x = 0)%N) as [->|Hx]; [by rewrite pretty_N_go_0|].
  rewrite pretty_N_go_step by lia. apply IH.
  - apply N.div_lt; lia.
  - apply no_bar_cons. split; [apply pretty_N_char_no_bar | done].
Qed.

(** The decimal rendering of an index has no bar, and determines it. *)
Lemma no_bar_String_of_index n : Js.no_bar (Js.String_of_index n) = true.
Proof.
  unfold Js.String_of_index, pretty, pretty_nat, pretty, pretty_N.
  case_decide; [done|]. by apply no_bar_pretty_N_go.
Qed.

Lemma String_of_index_inj n m :
  Js.String_of_index n = Js.String_of_index m → n = m.
Proof. apply pretty_nat_inj. Qed.

Lemma Platform_str_no_bar x : Js.no_bar (Platform_str x) = true.
Proof. by destruct x. Qed.

Lemma Format_str_no_bar x : Js.no_bar (Format_str x) = true.
Proof. by destruct x. Qed.

Lemma Platform_str_inj x y : Platform_str x = Platform_str y → x = y.
Proof. by destruct x, y. Qed.

Lemma Format_str_inj x y : Format_str x = Format_str y → x = y.
Proof. by destruct x, y. Qed.

Lemma match_seq_no_bar classes s :
  Forall (λ cl : ascii → bool, cl "|"%char = false) classes →
  Js.match_seq classes s = true → Js.no_bar s = true.
Proof.
  intros Hcl. revert s. induction Hcl as [|cl classes Hc _ IH]; intros [|c s]; try done.
  cbn [Js.match_seq]. intros [Hcc Hs]%andb_true_iff. apply no_bar_cons. split; [|auto].
  intros ->. congruence.
Qed.

(** Validated dates and times carry no bar. *)
Lemma isYyyyMmDd_no_bar s : isYyyyMmDd s = true → Js.no_bar s = true.
Proof. apply match_seq_no_bar. repeat constructor. Qed.

Lemma isHhMm_no_bar s : isHhMm s = true → Js.no_bar s = true.
Proof.
  unfold isHhMm. intros [H|H]%orb_true_iff; revert H;
    apply match_seq_no_bar; repeat constructor.
Qed.

(** ** PlanKeyDeriver *)

(** The key, field by field. *)
Lemma makePostKey_fields d p i :
  makePostKey d p i =
  d +:+ String "|" (Js.String_of_index i +:+ String "|" (Platform_str p.(platform)
    +:+ String "|" (Format_str p.(format) +:+ String "|" (p.(suggested_time_local)
    +:+ String "|" (Js.slice0 80 p.(caption)
    +:+ String "|" (Js.slice0 80 p.(media_instructions))))))).
Proof. reflexivity. Qed.

Lemma makePostKey_inv d d' i i' p p' :
  Js.no_bar d = true → Js.no_bar d' = true →
  Js.no_bar p.(suggested_time_local) = true →
  Js.no_bar p'.(suggested_time_local) = true →
  makePostKey d p i = makePostKey d' p' i' →
  d = d' ∧ i = i' ∧ p.(platform) = p'.(platform) ∧ p.(format) = p'.(format)
  ∧ p.(suggested_time_local) = p'.(suggested_time_local)
  ∧ Js.slice0 80 p.(caption) +:+ String "|" (Js.slice0 80 p.(media_instructions))
    = Js.slice0 80 p'.(caption) +:+ String "|" (Js.slice0 80 p'.(media_instructions)).
Proof.
  intros Hd Hd' Ht Ht'. rewrite !makePostKey_fields. intros E.
  apply split_at_bar in E as [-> E]; [|done..].
  apply split_at_bar in E as [Ei E]; [|apply no_bar_String_of_index..].
  apply split_at_bar in E as [Ep E]; [|apply Platform_str_no_bar..].
  apply split_at_bar in E as [Ef E]; [|apply Format_str_no_bar..].
  apply split_at_bar in E as [Et E]; [|done..].
  apply String_of_index_inj in Ei. apply Platform_str_inj in Ep.
  apply Format_str_inj in Ef. done.
Qed.

(** C3 (as amended).  The key is a function of the date, the index, the
    platform, the format, the suggested time and the first 80 characters
    of the caption and of the media instructions: posts that agree on
    these have the same key, whatever follows character 80.  Conversely,
    for dates and times without the bar (every validated date and time),
    posts with the same key have the same date, index, platform, format
    and time; their caption prefixes are equal exactly when their media
    prefixes are; and when the caption prefixes contain no bar, both
    prefixes are equal. *)
Theorem makePostKey_identity d d' i i' p p' :
  Js.no_bar d = true → Js.no_bar d' = true →
  Js.no_bar p.(suggested_time_local) = true →
  Js.no_bar p'.(suggested_time_local) = true →
  (d = d' ∧ i = i' ∧ p.(platform) = p'.(platform) ∧ p.(format) = p'.(format)
   ∧ p.(suggested_time_local) = p'.(suggested_time_local)
   ∧ Js.slice0 80 p.(caption) = Js.slice0 80 p'.(caption)
   ∧ Js.slice0 80 p.(media_instructions) = Js.slice0 80 p'.(media_instructions)
   → makePostKey d p i = makePostKey d' p' i')
  ∧ (makePostKey d p i = makePostKey d' p' i' →
     d = d' ∧ i = i' ∧ p.(platform) = p'.(platform) ∧ p.(format) = p'.(format)
     ∧ p.(suggested_time_local) = p'.(suggested_time_local)
     ∧ (Js.slice0 80 p.(caption) = Js.slice0 80 p'.(caption)
        ↔ Js.slice0 80 p.(media_instructions) = Js.slice0 80 p'.(media_instructions))
     ∧ (Js.no_bar (Js.slice0 80 p.(caption)) = true →
        Js.no_bar (Js.slice0 80 p'.(caption)) = true →
        Js.slice0 80 p.(caption) = Js.slice0 80 p'.(caption)
        ∧ Js.slice0 80 p.(media_instructions) = Js.slice0 80 p'.(media_instructions))).
Proof.
  intros Hd Hd' Ht Ht'. split.
  - intros (-> & -> & Ep & Ef & Et & Ec & Em).
    rewrite !makePostKey_fields. by rewrite Ep, Ef, Et, Ec, Em.
  - intros E. destruct (makePostKey_inv _ _ _ _ _ _ Hd Hd' Ht Ht' E)
      as (-> & -> & Ep & Ef & Et & Ecm).
    repeat split; try done.
    + intros Ec. rewrite Ec in Ecm. apply String.app_inj in Ecm. by injection Ecm.
    + intros Em. rewrite Em in Ecm. by apply append_inv_tail in Ecm.
    + by apply split_at_bar in Ecm as [? ?].
    + by apply split_at_bar in Ecm as [? ?].
Qed.

(** Two posts that differ only after character 80 of the caption share a
    key. *)
Lemma makePostKey_identity_witness :
  Js.no_bar "2025-01-06" = true ∧ Js.no_bar "09:00" = true
  ∧ makePostKey "2025-01-06" (sample_post (eighty +:+ "A") "clip" false) 0
    = makePostKey "2025-01-06" (sample_post (eighty +:+ "B") "clip" false) 0.
Proof.
  split; [reflexivity|]. split; [reflexivity|].
  apply (makePostKey_identity "2025-01-06" "2025-01-06" 0 0
           (sample_post (eighty +:+ "A") "clip" false)
           (sample_post (eighty +:+ "B") "clip" false));
    try reflexivity.
  repeat split; reflexivity.
Defined.

(** A difference at character 79 of the caption changes the key. *)
Example makePostKey_differs_at_79 :
  makePostKey "2025-01-06" (sample_post (Js.slice0 78 eighty +:+ "A") "clip" false) 0
  ≠ makePostKey "2025-01-06" (sample_post (Js.slice0 78 eighty +:+ "B") "clip" false) 0.
Proof. vm_compute. discriminate. Qed.

(** C3 as stated fails: the join does not escape the bar, so two posts
    whose captions differ within their first 80 characters can share a
    key. *)
Lemma makePostKey_collision :
  Js.slice0 80 (sample_post "a|b" "c" false).(caption)
    ≠ Js.slice0 80 (sample_post "a" "b|c" false).(caption)
  ∧ makePostKey "2025-01-06" (sample_post "a|b" "c" false) 0
    = makePostKey "2025-01-06" (sample_post "a" "b|c" false) 0.
Proof. split; [discriminate | reflexivity]. Qed.

Example eighty_length : String.length eighty = 80%nat.
Proof. reflexivity. Qed.

(** ** PlanValidator *)

Lemma is_str_as_str lit v : is_str lit v = true → as_str v = Some lit.
Proof. destruct v as [[]|]; try done. cbn. by intros ->%bool_decide_eq_true. Qed.

Lemma str_with_as_str shape v :
  str_with shape v = true → ∃ s, as_str v = Some s ∧ shape s = true.
Proof. destruct v as [[]|]; try done. cbn. eauto. Qed.

Lemma forallb_mapM {A B} (f : A → bool) (g : A → option B) l :
  (∀ x, f x = true → is_Some (g x)) → forallb f l = true → is_Some (mapM g l).
Proof.
  intros Hfg Hl. apply mapM_is_Some, Forall_forall. intros x Hx.
  apply Hfg. rewrite forallb_forall in Hl. by apply Hl, list_elem_of_In.
Qed.

Lemma isValidPost_asPost j : isValidPost j = true → is_Some (asPost j).
Proof.
  unfold isValidPost, asPost, asSource, asPlatform, asFormat.
  rewrite !andb_true_iff, !orb_true_iff, !bool_decide_eq_true.
  intros (((((((((_ & Hs) & Hp) & Hf) & Ht) & [c ->]) & Htags) & [m ->]) & [r ->]) & [a ->]).
  destruct (as_array (prop "hashtags" j)) as [tags|]; [|done].
  destruct (forallb_mapM _ (λ t, as_str (Some t)) tags (λ x H, proj1 (bool_decide_eq_true _) H) Htags)
    as [ts Hts].
  apply str_with_as_str in Ht as (t & -> & _).
  assert (∃ x, (if is_str "priority" (prop "source" j) then Some priority
                else if is_str "scheduled" (prop "source" j) then Some scheduled
                else None) = Some x) as [? ->].
  { destruct Hs as [-> | ->]; [eauto|]. case_match; eauto. }
  assert (∃ x, (if is_str "instagram" (prop "platform" j) then Some instagram
                else if is_str "facebook" (prop "platform" j) then Some facebook
                else None) = Some x) as [? ->].
  { destruct Hp as [-> | ->]; [eauto|]. case_match; eauto. }
  assert (∃ x, (if is_str "post" (prop "format" j) then Some post
                else if is_str "reel" (prop "format" j) then Some reel
                else if is_str "story" (prop "format" j) then Some story
                else None) = Some x) as [? ->].
  { destruct Hf as [[-> | ->] | ->]; [eauto|..]; repeat case_match; eauto. }
  cbn -[mapM as_str]. rewrite Hts. cbn. eauto.
Qed.

Lemma isValidDay_asDay j : isValidDay j = true → is_Some (asDay j).
Proof.
  unfold isValidDay, asDay. rewrite !andb_true_iff.
  intros ((_ & Hd) & Hp).
  apply str_with_as_str in Hd as (d & -> & _).
  destruct (as_array (prop "posts" j)) as [ps|]; [|done].
  destruct (forallb_mapM _ _ ps isValidPost_asPost Hp) as [l Hl].
  cbn -[mapM]. rewrite Hl. cbn. eauto.
Qed.

(** A document that [isValidPlan] accepts reads as a [Plan]. *)
Lemma isValidPlan_asPlan j : isValidPlan j = true → is_Some (asPlan j).
Proof.
  unfold isValidPlan, asPlan. rewrite !andb_true_iff.
  intros (((_ & Hs) & He) & Hd).
  apply str_with_as_str in Hs as (s & -> & _).
  apply str_with_as_str in He as (e & -> & _).
  destruct (as_array (prop "days" j)) as [ds|]; [|done].
  destruct (forallb_mapM _ _ ds isValidDay_asDay Hd) as [l Hl].
  cbn -[mapM]. rewrite Hl. cbn. eauto.
Qed.

(** ** DispatchReadinessResolver *)

Lemma dispatchReadyKeys_from acc rows k :
  k ∈ foldl (λ (acc : gset string) row,
               if bool_decide (row.(DispatchRow.post_key) = "") then acc
               else {[ row.(DispatchRow.post_key) ]} ∪ acc) acc rows →
  k ∈ acc ∨ ∃ row, row ∈ rows ∧ row.(DispatchRow.post_key) = k.
Proof.
  revert acc. induction rows as [|r rows IH]; intros acc; cbn; [auto|].
  intros [H | (row & ? & ?)]%IH.
  - case_bool_decide; [auto|].
    apply elem_of_union in H as [->%elem_of_singleton | ?]; [|auto].
    right. exists r. split; [left | done].
  - right. exists row. split; [by right | done].
Qed.

(** A key of the ready set is the key of a selected dispatch row. *)
Lemma elem_of_dispatchReadyKeys rows k :
  k ∈ DispatchReady.dispatchReadyKeys rows →
  ∃ row, row ∈ rows ∧ row.(DispatchRow.post_key) = k.
Proof.
  intros [H | H]%dispatchReadyKeys_from; [|done]. by apply not_elem_of_empty in H.
Qed.

Lemma approvals_of_from (acc : gmap string ApprovalRow.t) rows k a :
  foldl (λ (acc : gmap string ApprovalRow.t) row,
           if bool_decide (row.(ApprovalRow.post_key) = "") then acc
           else <[ row.(ApprovalRow.post_key) := row ]> acc) acc rows !! k = Some a →
  acc !! k = Some a ∨ (a ∈ rows ∧ a.(ApprovalRow.post_key) = k).
Proof.
  revert acc. induction rows as [|r rows IH]; intros acc; cbn; [auto|].
  intros [H | [? ?]]%IH.
  - case_bool_decide; [auto|].
    destruct (decide (r.(ApprovalRow.post_key) = k)) as [<-|Hne].
    + rewrite lookup_insert_eq in H. injection H as <-. right. split; [left | done].
    + rewrite lookup_insert_ne in H by done. auto.
  - right. split; [by right | done].
Qed.

(** The record found under a key is a selected approval row with that key. *)
Lemma approvals_of_lookup rows k a :
  DispatchReady.approvals_of rows !! k = Some a →
  a ∈ rows ∧ a.(ApprovalRow.post_key) = k.
Proof. intros [H | H]%approvals_of_from; [|done]. by rewrite lookup_empty in H. Qed.

Lemma sort_insert_Permutation cmp x l :
  DispatchReady.sort_insert cmp x l ≡ₚ x :: l.
Proof.
  induction l as [|y l IH]; cbn; [done|]. case_match; [done|].
  rewrite IH. apply Permutation_swap.
Qed.

(** Sorting neither adds nor drops an item. *)
Lemma sort_items_Permutation cmp l : DispatchReady.sort_items cmp l ≡ₚ l.
Proof.
  induction l as [|x l IH]; cbn; [done|].
  by rewrite sort_insert_Permutation, IH.
Qed.

(** What the loop body requires before it pushes an item. *)
Lemma item_of_Some readyKeys approvals updatedAt day idx p it :
  DispatchReady.item_of readyKeys approvals updatedAt day idx p = Some it →
  it.(Item.postKey) = makePostKey day.(date) p idx
  ∧ it.(Item.approvalRequired) = p.(approval_required)
  ∧ makePostKey day.(date) p idx ∈ readyKeys
  ∧ (p.(approval_required) = true →
     ∃ a, approvals !! makePostKey day.(date) p idx = Some a
          ∧ a.(ApprovalRow.status) = approved).
Proof.
  unfold DispatchReady.item_of. cbv zeta.
  case_bool_decide as Hin; [|done]. cbn [negb].
  destruct (approval_required p) eqn:Hreq; cbn [andb].
  - destruct (approvals !! makePostKey (date day) p idx) as [a|] eqn:Ha; [|done].
    case_bool_decide as Hst; [|done]. cbn [negb].
    intros [= <-]. cbn. eauto 10.
  - intros [= <-]. cbn. repeat split; done.
Qed.

Lemma elem_of_items_of_plan readyKeys approvals updatedAt plan it :
  it ∈ DispatchReady.items_of_plan readyKeys approvals updatedAt plan →
  ∃ day idx p, day ∈ plan.(days) ∧ day.(posts) !! idx = Some p
    ∧ DispatchReady.item_of readyKeys approvals updatedAt day idx p = Some it.
Proof.
  unfold DispatchReady.items_of_plan.
  intros (day & Hit & Hday)%list_elem_of_bind.
  apply list_elem_of_omap in Hit as (o & Ho & Hsome).
  apply elem_of_lookup_imap in Ho as (idx & p & -> & Hp).
  exists day, idx, p. done.
Qed.

(** Every item of a response comes from a post of the user's latest plan
    that passed both gates of the loop body. *)
Lemma GET_item_origin cmp userId plans plan_dispatch plan_post_approvals items meta it :
  DispatchReady.GET cmp userId plans plan_dispatch plan_post_approvals
    = DispatchReady.Json items meta →
  it ∈ items →
  ∃ u planRow plan day idx p,
    authenticated userId = Some u
    ∧ DispatchReady.latest_plan u plans = Some planRow
    ∧ isValidPlan planRow.(PlanRow.plan_json) = true
    ∧ asPlan planRow.(PlanRow.plan_json) = Some plan
    ∧ day ∈ plan.(days) ∧ day.(posts) !! idx = Some p
    ∧ DispatchReady.item_of
        (DispatchReady.dispatchReadyKeys (DispatchReady.select_ready u plan_dispatch))
        (DispatchReady.approvals_of (DispatchReady.select_approvals u plan_post_approvals))
        (DispatchReady.dispatchUpdatedAt (DispatchReady.select_ready u plan_dispatch))
        day idx p = Some it.
Proof.
  unfold DispatchReady.GET.
  destruct (authenticated userId) as [u|]; [|done].
  destruct (DispatchReady.latest_plan u plans) as [planRow|] eqn:Hlatest.
  2:{ intros [= <- _] Hit. by apply elem_of_nil in Hit. }
  destruct (isValidPlan (PlanRow.plan_json planRow)) eqn:Hvalid; [|done]. cbn [negb].
  destruct (asPlan (PlanRow.plan_json planRow)) as [plan|] eqn:Hplan; [|done].
  cbv zeta. case_bool_decide.
  { intros [= <- _] Hit. by apply elem_of_nil in Hit. }
  intros [= <- _] Hit. rewrite sort_items_Permutation in Hit.
  apply elem_of_items_of_plan in Hit as (day & idx & p & ? & ? & ?).
  exists u, planRow, plan, day, idx, p. done.
Qed.

(** C1.  Whatever the stored plans, the dispatch flags and the approval
    records, every item that the resolver returns is a post of the user's
    latest plan, and when that post requires approval the approvals table
    holds, for this user and the post's derived key, a record whose status
    is approved. *)
Theorem resolver_approval_gate cmp userId plans plan_dispatch plan_post_approvals
    items meta it :
  DispatchReady.GET cmp userId plans plan_dispatch plan_post_approvals
    = DispatchReady.Json items meta →
  it ∈ items →
  ∃ u planRow plan day idx p,
    authenticated userId = Some u
    ∧ DispatchReady.latest_plan u plans = Some planRow
    ∧ asPlan planRow.(PlanRow.plan_json) = Some plan
    ∧ day ∈ plan.(days) ∧ day.(posts) !! idx = Some p
    ∧ it.(Item.postKey) = makePostKey day.(date) p idx
    ∧ it.(Item.approvalRequired) = p.(approval_required)
    ∧ (p.(approval_required) = true →
       ∃ row, row ∈ plan_post_approvals
         ∧ row.(ApprovalRow.user_id) = u
         ∧ row.(ApprovalRow.post_key) = makePostKey day.(date) p idx
         ∧ row.(ApprovalRow.status) = approved).
Proof.
  intros HGET Hit.
  destruct (GET_item_origin _ _ _ _ _ _ _ _ HGET Hit)
    as (u & planRow & plan & day & idx & p & Hu & Hl & _ & Hp & Hday & Hidx & Hitem).
  apply item_of_Some in Hitem as (Hk & Hr & _ & Happr).
  exists u, planRow, plan, day, idx, p. repeat split; try done.
  intros Hreq. destruct (Happr Hreq) as (a & Ha & Hst).
  apply approvals_of_lookup in Ha as [Hin Hkey].
  apply list_elem_of_filter in Hin as [Huid Hin].
  exists a. done.
Qed.

(** C2.  Whatever the stored plans, the dispatch flags and the approval
    records: every returned item carries the key of a dispatch row of the
    user with ready = true; hence a key that no such row carries (absent,
    or present with ready = false) is the key of no returned item; and
    when the user has no row with ready = true, the list is empty. *)
Theorem resolver_dispatch_gate cmp userId plans plan_dispatch plan_post_approvals
    items meta :
  DispatchReady.GET cmp userId plans plan_dispatch plan_post_approvals
    = DispatchReady.Json items meta →
  ∃ u, authenticated userId = Some u
  ∧ (∀ it, it ∈ items →
       ∃ row, row ∈ plan_dispatch
         ∧ row.(DispatchRow.user_id) = u
         ∧ row.(DispatchRow.post_key) = it.(Item.postKey)
         ∧ row.(DispatchRow.ready) = true)
  ∧ (∀ key,
       (∀ row, row ∈ plan_dispatch → row.(DispatchRow.user_id) = u →
               row.(DispatchRow.post_key) = key → row.(DispatchRow.ready) = false) →
       ∀ it, it ∈ items → it.(Item.postKey) ≠ key)
  ∧ ((∀ row, row ∈ plan_dispatch → row.(DispatchRow.user_id) = u →
             row.(DispatchRow.ready) = false) →
     items = []).
Proof.
  intros HGET.
  assert (∃ u, authenticated userId = Some u) as [u Hu].
  { unfold DispatchReady.GET in HGET. destruct (authenticated userId); [eauto | done]. }
  assert (∀ it, it ∈ items →
            ∃ row, row ∈ plan_dispatch ∧ row.(DispatchRow.user_id) = u
              ∧ row.(DispatchRow.post_key) = it.(Item.postKey)
              ∧ row.(DispatchRow.ready) = true) as Hready.
  { intros it Hit.
    destruct (GET_item_origin _ _ _ _ _ _ _ _ HGET Hit)
      as (u' & planRow & plan & day & idx & p & Hu' & _ & _ & _ & _ & _ & Hitem).
    assert (u' = u) as -> by congruence.
    apply item_of_Some in Hitem as (Hk & _ & Hin & _).
    apply elem_of_dispatchReadyKeys in Hin as (row & Hrow & Hkey).
    apply list_elem_of_filter in Hrow as [[Huid Hrdy] Hrow].
    exists row. rewrite Hk. done. }
  exists u. split; [done|]. split; [done|]. split.
  - intros key Hkey it Hit Heq.
    destruct (Hready it Hit) as (row & Hrow & Huid & Hk & Hrdy).
    rewrite (Hkey row Hrow Huid) in Hrdy by congruence. done.
  - intros Hnone. destruct items as [|it items]; [done|].
    destruct (Hready it) as (row & Hrow & Huid & _ & Hrdy); [left|].
    rewrite (Hnone row Hrow Huid) in Hrdy. done.
Qed.

Example GET_sample :
  DispatchReady.GET code_unit_compare (Some "user_1") sample_plans sample_dispatch
    sample_approvals
  = DispatchReady.Json sample_items sample_meta.
Proof. vm_compute. reflexivity. Qed.

(** The approved loyalty post of the sample plan is returned, and the
    approvals table holds its approved record. *)
Lemma resolver_approval_gate_witness :
  DispatchReady.GET code_unit_compare (Some "user_1") sample_plans sample_dispatch
    sample_approvals = DispatchReady.Json sample_items sample_meta
  ∧ item_of_sample "2025-01-06" 1 (sample_post "Loyalty card launch" "photo 2" true)
      ∈ sample_items
  ∧ ∃ u planRow plan day idx p,
      authenticated (Some "user_1") = Some u
      ∧ DispatchReady.latest_plan u sample_plans = Some planRow
      ∧ asPlan planRow.(PlanRow.plan_json) = Some plan
      ∧ day ∈ plan.(days) ∧ day.(posts) !! idx = Some p
      ∧ key_loyalty = makePostKey day.(date) p idx
      ∧ true = p.(approval_required)
      ∧ (p.(approval_required) = true →
         ∃ row, row ∈ sample_approvals
           ∧ row.(ApprovalRow.user_id) = u
           ∧ row.(ApprovalRow.post_key) = makePostKey day.(date) p idx
           ∧ row.(ApprovalRow.status) = approved).
Proof.
  split; [vm_compute; reflexivity|].
  split; [apply list_elem_of_further, list_elem_of_here|].
  apply (resolver_approval_gate code_unit_compare (Some "user_1") sample_plans
           sample_dispatch sample_approvals sample_items sample_meta
           (item_of_sample "2025-01-06" 1
              (sample_post "Loyalty card launch" "photo 2" true))).
  - vm_compute; reflexivity.
  - apply list_elem_of_further, list_elem_of_here.
Defined.

(** On the sample tables every returned item is backed by a ready row, the
    unmarked post is not returned, and a user without ready rows gets
    nothing. *)
Lemma resolver_dispatch_gate_witness :
  DispatchReady.GET code_unit_compare (Some "user_1") sample_plans sample_dispatch
    sample_approvals = DispatchReady.Json sample_items sample_meta
  ∧ ∃ u, authenticated (Some "user_1") = Some u
    ∧ (∀ it, it ∈ sample_items →
         ∃ row, row ∈ sample_dispatch
           ∧ row.(DispatchRow.user_id) = u
           ∧ row.(DispatchRow.post_key) = it.(Item.postKey)
           ∧ row.(DispatchRow.ready) = true)
    ∧ (∀ key,
         (∀ row, row ∈ sample_dispatch → row.(DispatchRow.user_id) = u →
                 row.(DispatchRow.post_key) = key → row.(DispatchRow.ready) = false) →
         ∀ it, it ∈ sample_items → it.(Item.postKey) ≠ key)
    ∧ ((∀ row, row ∈ sample_dispatch → row.(DispatchRow.user_id) = u →
               row.(DispatchRow.ready) = false) →
       sample_items = []).
Proof.
  split; [vm_compute; reflexivity|].
  apply (resolver_dispatch_gate code_unit_compare (Some "user_1") sample_plans
           sample_dispatch sample_approvals sample_items sample_meta).
  vm_compute; reflexivity.
Defined.

(** ** normalizeSpaces *)

Example normalizeSpaces_example :
  normalizeSpaces ("  a " +:+ String "010" (String "009" "b|c  d ")) = "a b|c d".
Proof. reflexivity. Qed.

Lemma starts_ws_trimStart s : Js.starts_ws (Js.trimStart s) = false.
Proof.
  induction s as [|c s IH]; [done|]. cbn.
  destruct (Js.is_space c) eqn:Hc; [done|]. cbn. done.
Qed.

Lemma ends_ws_trimEnd s : Js.ends_ws (Js.trimEnd s) = false.
Proof.
  induction s as [|c s IH]; [done|]. cbn [Js.trimEnd].
  destruct (Js.trimEnd s) as [|d r].
  - destruct (Js.is_space c) eqn:Hc; [done|]. cbn. done.
  - exact IH.
Qed.

Lemma starts_ws_trimEnd s : Js.starts_ws s = false → Js.starts_ws (Js.trimEnd s) = false.
Proof.
  destruct s as [|c s]; [done|]. cbn [Js.trimEnd Js.starts_ws]. intros Hc.
  destruct (Js.trimEnd s); rewrite ?Hc; done.
Qed.

Lemma ends_ws_cons c r :
  Js.ends_ws (String c r) = false →
  Js.ends_ws r = false ∧ (Js.is_space c = true → r ≠ "").
Proof. destruct r; cbn; [|done]. intros ->. done. Qed.

Lemma tidy_replace_ws_runs t :
  Js.ends_ws t = false →
  Js.tidy_from false (Js.replace_ws_runs false t) = true
  ∧ (t ≠ "" → Js.tidy_from true (Js.replace_ws_runs true t) = true).
Proof.
  induction t as [|c r IH]; [done|].
  intros [Hr Hne]%ends_ws_cons. destruct (IH Hr) as [IHP IHQ].
  cbn [Js.replace_ws_runs]. destruct (Js.is_space c) eqn:Hc.
  - specialize (IHQ (Hne eq_refl)). split; [|done]. cbn. by rewrite IHQ.
  - cbn [Js.tidy_from]. rewrite Hc. done.
Qed.

(** A normalized string is tidy. *)
Lemma tidy_normalizeSpaces s : Js.tidy (normalizeSpaces s) = true.
Proof.
  unfold normalizeSpaces, Js.trim.
  pose proof (ends_ws_trimEnd (Js.trimStart s)) as He.
  pose proof (starts_ws_trimEnd _ (starts_ws_trimStart s)) as Hs.
  destruct (Js.trimEnd (Js.trimStart s)) as [|c r]; [done|].
  cbn in Hs. cbn [Js.replace_ws_runs]. rewrite Hs.
  cbn [Js.tidy Js.tidy_from]. rewrite Hs.
  apply ends_ws_cons in He as [Hr _]. by apply tidy_replace_ws_runs.
Qed.

Lemma tidy_from_ends_ws a s : Js.ends_ws s = true → Js.tidy_from a s = false.
Proof.
  revert a. induction s as [|c r IH]; [done|]. intros a. cbn [Js.ends_ws Js.tidy_from].
  destruct r as [|d r].
  - intros ->. cbn. by rewrite !andb_false_r.
  - intros H. rewrite !(IH _ H). destruct (Js.is_space c); [by rewrite andb_false_r | done].
Qed.

Lemma tidy_from_adjacent_ws a s : Js.adjacent_ws s = true → Js.tidy_from a s = false.
Proof.
  revert a. induction s as [|c r IH]; [done|]. intros a. cbn [Js.adjacent_ws Js.tidy_from].
  intros [[Hc Hr]%andb_true_iff | H]%orb_true_iff.
  - rewrite Hc. destruct r as [|d r]; [done|]. cbn in Hr. cbn [Js.tidy_from].
    rewrite Hr. cbn. by rewrite andb_false_r.
  - rewrite !(IH _ H). destruct (Js.is_space c); [by rewrite andb_false_r | done].
Qed.

Lemma tidy_from_other_ws a s : Js.other_ws s = true → Js.tidy_from a s = false.
Proof.
  revert a. induction s as [|c r IH]; [done|]. intros a. cbn [Js.other_ws Js.tidy_from].
  intros [[Hc Hn]%andb_true_iff | H]%orb_true_iff.
  - rewrite Hc. apply negb_true_iff in Hn. rewrite Hn. by rewrite andb_false_r.
  - rewrite !(IH _ H). destruct (Js.is_space c); [by rewrite andb_false_r | done].
Qed.

(** White space at either end, twice in a row, or other than the space:
    the string is not tidy, and normalization changes it. *)
Lemma irregular_not_tidy s :
  Js.starts_ws s = true ∨ Js.ends_ws s = true
  ∨ Js.adjacent_ws s = true ∨ Js.other_ws s = true →
  Js.tidy s = false.
Proof.
  destruct s as [|c r]; [intros [?|[?|[?|?]]]; done|].
  change (Js.tidy (String c r)) with (Js.tidy_from true (String c r)).
  intros [H|[H|[H|H]]].
  - cbn in H. cbn. by rewrite H.
  - by apply tidy_from_ends_ws.
  - by apply tidy_from_adjacent_ws.
  - by apply tidy_from_other_ws.
Qed.

Lemma normalizeSpaces_ne_untidy s x : Js.tidy s = false → normalizeSpaces x ≠ s.
Proof. intros Hs <-. by rewrite tidy_normalizeSpaces in Hs. Qed.

Lemma trimStart_nonspace a c r :
  Js.is_space c = false →
  ∃ c' r', Js.trimStart (a +:+ String c r) = String c' r' ∧ Js.is_space c' = false.
Proof.
  intros Hc. induction a as [|x a IH].
  - exists c, r. change ("" +:+ String c r) with (String c r).
    cbn [Js.trimStart]. by rewrite Hc.
  - change (String x a +:+ String c r) with (String x (a +:+ String c r)).
    cbn [Js.trimStart]. destruct (Js.is_space x) eqn:Hx; [done|]. eauto.
Qed.

(** A string with a character that is not white space does not normalize
    to the empty string. *)
Lemma normalizeSpaces_nonempty a c r :
  Js.is_space c = false → String.length (normalizeSpaces (a +:+ String c r)) ≠ 0%nat.
Proof.
  intros Hc. unfold normalizeSpaces, Js.trim.
  destruct (trimStart_nonspace a c r Hc) as (c' & r' & -> & Hc').
  cbn [Js.trimEnd]. destruct (Js.trimEnd r'); rewrite ?Hc'; cbn; rewrite Hc'; done.
Qed.

Lemma makePostKey_normalizes_nonempty d p idx :
  String.length (normalizeSpaces (makePostKey d p idx)) ≠ 0%nat.
Proof. rewrite makePostKey_fields. by apply normalizeSpaces_nonempty. Qed.

(** ** DispatchRegistry and ApprovalRegistry: the keys they store *)

Lemma Dispatch_upsert_elem u k r now table row :
  row ∈ Dispatch.upsert u k r now table →
  row ∈ table ∨ row.(DispatchRow.post_key) = k.
Proof.
  induction table as [|x table IH]; cbn.
  - intros ->%list_elem_of_singleton. by right.
  - case_bool_decide.
    + intros [->|?]%elem_of_cons; [by right | left; by right].
    + intros [->|[?|?]%IH]%elem_of_cons; [left; left | left; by right | by right].
Qed.

Lemma Dispatch_POST_ok u b key ready now table :
  u ≠ "" → is_object b = true →
  prop "postKey" b = Some (JStr key) → prop "ready" b = Some (JBool ready) →
  String.length (normalizeSpaces key) ≠ 0%nat →
  Dispatch.POST (Some u) (Some b) now table
  = (Dispatch.Ok, Dispatch.upsert u (normalizeSpaces key) ready now table).
Proof.
  intros Hu Hb Hk Hr Hlen. unfold Dispatch.POST, authenticated.
  rewrite bool_decide_eq_false_2 by done. rewrite Hb, Hk, Hr. cbn.
  by rewrite bool_decide_eq_false_2.
Qed.

Lemma Dispatch_POST_elem userId body now table response table' row :
  Dispatch.POST userId body now table = (response, table') →
  row ∈ table' → row ∈ table ∨ ∃ x, row.(DispatchRow.post_key) = normalizeSpaces x.
Proof.
  unfold Dispatch.POST. intros H Hrow.
  repeat (case_match; try (injection H as <- <-; by left)).
  injection H as <- <-. apply Dispatch_upsert_elem in Hrow as [?|?]; eauto.
Qed.

(** Every key stored through the dispatch endpoint is tidy. *)
Lemma Dispatch_written_tidy table row :
  Dispatch.written table → row ∈ table → Js.tidy row.(DispatchRow.post_key) = true.
Proof.
  intros Hw. revert row. induction Hw as [|userId body now table response table' _ IH HPOST].
  - intros row H. by apply elem_of_nil in H.
  - intros row [?|[x ->]]%(Dispatch_POST_elem _ _ _ _ _ _ _ HPOST); [auto|].
    apply tidy_normalizeSpaces.
Qed.

Lemma PlanApprovals_upsert_elem new table row :
  row ∈ PlanApprovals.upsert new table → row ∈ table ∨ row = new.
Proof.
  induction table as [|x table IH]; cbn.
  - intros ->%list_elem_of_singleton. by right.
  - case_bool_decide.
    + intros [->|?]%elem_of_cons; [by right | left; by right].
    + intros [->|[?|?]%IH]%elem_of_cons; [left; left | left; by right | by right].
Qed.

Lemma PlanApprovals_POST_inv Date_parse userId body now table table' :
  PlanApprovals.POST Date_parse userId body now table = (PlanApprovals.Ok, table') →
  ∃ u b rawKey st,
    authenticated userId = Some u ∧ body = Some b
    ∧ prop "postKey" b = Some (JStr rawKey)
    ∧ PlanApprovals.isStatus (prop "status" b) = Some st
    ∧ table' = PlanApprovals.upsert
        {| ApprovalRow.user_id := u;
           ApprovalRow.post_key := normalizeSpaces rawKey;
           ApprovalRow.status := st;
           ApprovalRow.reject_reason :=
             match st with
             | rejected =>
                 match prop "rejectReason" b with
                 | Some (JStr s) => Some (normalizeSpaces s)
                 | _ => None
                 end
             | _ => None
             end;
           ApprovalRow.decided_at :=
             match st with
             | pending => None
             | _ => Some (default now
                      (PlanApprovals.safeIsoOrNull Date_parse (prop "decidedAtIso" b)))
             end;
           ApprovalRow.updated_at := now |} table.
Proof.
  unfold PlanApprovals.POST.
  destruct (authenticated userId) as [u|]; [|done].
  destruct body as [b|]; [|done].
  destruct (is_object b); [|done]. cbn [negb].
  destruct (prop "postKey" b) as [[| | |rawKey| |]|] eqn:Hk; try done. cbn [as_str].
  case_bool_decide; [done|].
  destruct (PlanApprovals.isStatus (prop "status" b)) as [st|] eqn:Hst; [|done].
  intros [= <-]. exists u, b, rawKey, st. done.
Qed.

Lemma PlanApprovals_POST_elem Date_parse userId body now table response table' row :
  PlanApprovals.POST Date_parse userId body now table = (response, table') →
  row ∈ table' → row ∈ table ∨ ∃ x, row.(ApprovalRow.post_key) = normalizeSpaces x.
Proof.
  intros H Hrow. destruct response.
  - left. unfold PlanApprovals.POST in H.
    repeat case_match; by simplify_eq.
  - apply PlanApprovals_POST_inv in H as (u & b & rawKey & st & _ & _ & _ & _ & ->).
    apply PlanApprovals_upsert_elem in Hrow as [?| ->]; eauto.
Qed.

(** Every key stored through the approvals endpoint is tidy. *)
Lemma PlanApprovals_written_tidy table row :
  PlanApprovals.written table → row ∈ table → Js.tidy row.(ApprovalRow.post_key) = true.
Proof.
  intros Hw. revert row.
  induction Hw as [|Date_parse userId body now table response table' _ IH HPOST].
  - intros row H. by apply elem_of_nil in H.
  - intros row [?|[x ->]]%(PlanApprovals_POST_elem _ _ _ _ _ _ _ _ HPOST); [auto|].
    apply tidy_normalizeSpaces.
Qed.

Lemma PlanApprovals_POST_ok Date_parse u b key st now table :
  u ≠ "" → is_object b = true →
  prop "postKey" b = Some (JStr key) →
  PlanApprovals.isStatus (prop "status" b) = Some st →
  String.length (normalizeSpaces key) ≠ 0%nat →
  ∃ row,
    PlanApprovals.POST Date_parse (Some u) (Some b) now table
    = (PlanApprovals.Ok, PlanApprovals.upsert row table)
    ∧ row.(ApprovalRow.user_id) = u
    ∧ row.(ApprovalRow.post_key) = normalizeSpaces key
    ∧ row.(ApprovalRow.status) = st.
Proof.
  intros Hu Hb Hk Hst Hlen. unfold PlanApprovals.POST, authenticated.
  rewrite bool_decide_eq_false_2 by done. rewrite Hb, Hk, Hst. cbn.
  rewrite bool_decide_eq_false_2 by done. eexists. split; [reflexivity|]. done.
Qed.

(** C5.  Let key be the derived key of a post, with white space at its
    start or end, twice in a row, or other than the plain space (such as a
    line feed in the caption prefix).  Then normalizeSpaces changes it; the
    dispatch and the approval endpoints, called with this key, store their
    record under the changed string; no table written through these
    endpoints yields a ready key or an approval record that the resolver's
    lookup of the derived key finds; and the resolver returns no item with
    this key when the dispatch table was written through the endpoint. *)
Theorem normalized_keys_miss_resolver d p idx :
  Js.starts_ws (makePostKey d p idx) = true ∨ Js.ends_ws (makePostKey d p idx) = true
  ∨ Js.adjacent_ws (makePostKey d p idx) = true
  ∨ Js.other_ws (makePostKey d p idx) = true →
  normalizeSpaces (makePostKey d p idx) ≠ makePostKey d p idx
  ∧ (∀ u b ready now table,
       u ≠ "" → is_object b = true →
       prop "postKey" b = Some (JStr (makePostKey d p idx)) →
       prop "ready" b = Some (JBool ready) →
       Dispatch.POST (Some u) (Some b) now table
       = (Dispatch.Ok,
          Dispatch.upsert u (normalizeSpaces (makePostKey d p idx)) ready now table))
  ∧ (∀ Date_parse u b st now table,
       u ≠ "" → is_object b = true →
       prop "postKey" b = Some (JStr (makePostKey d p idx)) →
       PlanApprovals.isStatus (prop "status" b) = Some st →
       ∃ row,
         PlanApprovals.POST Date_parse (Some u) (Some b) now table
         = (PlanApprovals.Ok, PlanApprovals.upsert row table)
         ∧ row.(ApprovalRow.user_id) = u
         ∧ row.(ApprovalRow.post_key) = normalizeSpaces (makePostKey d p idx)
         ∧ row.(ApprovalRow.status) = st)
  ∧ (∀ u table, Dispatch.written table →
       makePostKey d p idx
         ∉ DispatchReady.dispatchReadyKeys (DispatchReady.select_ready u table))
  ∧ (∀ u table, PlanApprovals.written table →
       DispatchReady.approvals_of (DispatchReady.select_approvals u table)
         !! makePostKey d p idx = None)
  ∧ (∀ cmp userId plans plan_dispatch plan_post_approvals items meta,
       Dispatch.written plan_dispatch →
       DispatchReady.GET cmp userId plans plan_dispatch plan_post_approvals
         = DispatchReady.Json items meta →
       ∀ it, it ∈ items → it.(Item.postKey) ≠ makePostKey d p idx).
Proof.
  intros Hirr%irregular_not_tidy.
  assert (∀ u table, Dispatch.written table →
            makePostKey d p idx
              ∉ DispatchReady.dispatchReadyKeys (DispatchReady.select_ready u table))
    as Hmiss.
  { intros u table Hw (row & Hrow & Hkey)%elem_of_dispatchReadyKeys.
    apply list_elem_of_filter in Hrow as [_ Hrow].
    apply (Dispatch_written_tidy _ _ Hw) in Hrow. congruence. }
  split; [by apply normalizeSpaces_ne_untidy|].
  split.
  { intros u b ready now table Hu Hb Hk Hr.
    apply Dispatch_POST_ok; try done. apply makePostKey_normalizes_nonempty. }
  split.
  { intros Date_parse u b st now table Hu Hb Hk Hst.
    apply PlanApprovals_POST_ok; try done. apply makePostKey_normalizes_nonempty. }
  split; [done|]. split.
  { intros u table Hw.
    destruct (DispatchReady.approvals_of _ !! _) as [a|] eqn:Ha; [|done].
    apply approvals_of_lookup in Ha as [Hin Hkey].
    apply list_elem_of_filter in Hin as [_ Hin].
    apply (PlanApprovals_written_tidy _ _ Hw) in Hin. congruence. }
  intros cmp userId plans plan_dispatch plan_post_approvals items meta Hw HGET it Hit Heq.
  destruct (GET_item_origin _ _ _ _ _ _ _ _ HGET Hit)
    as (u & planRow & plan & day & i & q & _ & _ & _ & _ & _ & _ & Hitem).
  apply item_of_Some in Hitem as (Hk & _ & Hin & _).
  rewrite <- Hk, Heq in Hin. by apply (Hmiss u plan_dispatch Hw).
Qed.

(** The derived key with a line feed is stored under another string. *)
Lemma normalized_keys_miss_resolver_witness :
  Js.other_ws key_two_lines = true
  ∧ normalizeSpaces key_two_lines ≠ key_two_lines
  ∧ Dispatch.POST (Some "user_1") (Some (dispatch_body key_two_lines true)) 3000 []
    = (Dispatch.Ok,
       Dispatch.upsert "user_1" (normalizeSpaces key_two_lines) true 3000 []).
Proof.
  assert (Js.other_ws key_two_lines = true) as H by reflexivity.
  split; [exact H|].
  destruct (normalized_keys_miss_resolver "2025-01-08" post_two_lines 0)
    as (Hne & Hd & _).
  { right; right; right. exact H. }
  split; [exact Hne|].
  apply Hd; [discriminate | reflexivity..].
Defined.

(** End to end: the post is marked ready and approved through the
    endpoints under its derived key, and the resolver still returns
    nothing. *)
Example two_lines_never_dispatched :
  let plan := {| horizon_start_date := "2025-01-08"; horizon_end_date := "2025-01-14";
                 days := [ {| date := "2025-01-08"; posts := [post_two_lines] |} ] |} in
  let plans := [ {| PlanRow.user_id := "user_1"; PlanRow.plan_json := json_of_plan plan;
                    PlanRow.model := None; PlanRow.generated_at := 100 |} ] in
  let dispatch :=
    (Dispatch.POST (Some "user_1") (Some (dispatch_body key_two_lines true)) 200 []).2 in
  let approvals :=
    (PlanApprovals.POST sample_Date_parse (Some "user_1")
       (Some (approval_body key_two_lines "approved" None None)) 300 []).2 in
  (∃ row, dispatch = [row] ∧ row.(DispatchRow.ready) = true)
  ∧ (∃ row, approvals = [row] ∧ row.(ApprovalRow.status) = approved)
  ∧ ∃ meta, DispatchReady.GET code_unit_compare (Some "user_1") plans dispatch approvals
            = DispatchReady.Json [] meta.
Proof. vm_compute. eauto 10. Qed.

(** ** ApprovalRegistry *)

Lemma PlanApprovals_upsert_stored row table :
  PlanApprovals.stored row.(ApprovalRow.user_id) row.(ApprovalRow.post_key)
    (PlanApprovals.upsert row table) = Some row.
Proof.
  unfold PlanApprovals.stored. induction table as [|x table IH]; cbn.
  - by rewrite decide_True.
  - case_bool_decide as Hx.
    + rewrite filter_cons. by rewrite decide_True.
    + rewrite filter_cons. rewrite decide_False by done. done.
Qed.

Lemma PlanApprovals_upsert_keys row table :
  PlanApprovals.key_of <$> PlanApprovals.upsert row table
  = if bool_decide (PlanApprovals.key_of row ∈ PlanApprovals.key_of <$> table)
    then PlanApprovals.key_of <$> table
    else (PlanApprovals.key_of <$> table) ++ [PlanApprovals.key_of row].
Proof.
  induction table as [|x table IH]; [done|]. cbn [PlanApprovals.upsert].
  destruct (decide (ApprovalRow.user_id x = ApprovalRow.user_id row
                    ∧ ApprovalRow.post_key x = ApprovalRow.post_key row))
    as [[Hu Hk]|Hx].
  - rewrite (bool_decide_eq_true_2 (_ ∧ _)) by done.
    assert (PlanApprovals.key_of x = PlanApprovals.key_of row) as E.
    { unfold PlanApprovals.key_of. by rewrite Hu, Hk. }
    rewrite bool_decide_eq_true_2; [by rewrite !fmap_cons, E|].
    rewrite fmap_cons, E. left.
  - rewrite (bool_decide_eq_false_2 (_ ∧ _)) by done.
    rewrite !fmap_cons, IH.
    assert (PlanApprovals.key_of row ≠ PlanApprovals.key_of x) as Hne.
    { unfold PlanApprovals.key_of. intros [= ? ?]. by destruct Hx. }
    destruct (decide (PlanApprovals.key_of row ∈ PlanApprovals.key_of <$> table))
      as [Hin|Hin].
    + rewrite !bool_decide_eq_true_2; [done | by right | done].
    + rewrite !bool_decide_eq_false_2; [done | | done].
      by intros [?|?]%elem_of_cons.
Qed.

(** The upsert keeps the keys unique. *)
Lemma PlanApprovals_upsert_NoDup row table :
  NoDup (PlanApprovals.key_of <$> table) →
  NoDup (PlanApprovals.key_of <$> PlanApprovals.upsert row table).
Proof.
  intros Hnd. rewrite PlanApprovals_upsert_keys. case_bool_decide; [done|].
  apply NoDup_app. split; [done|]. split; [|apply NoDup_singleton].
  intros k Hk ->%list_elem_of_singleton. done.
Qed.

(** C6.  When an approval set call succeeds, the table is the old one with
    one row upserted; that row is the stored record of the user and the
    (normalized) key whatever the table held before, it carries the
    submitted status, its decided_at is null when the status is pending,
    and its reject_reason is null unless the status is rejected.  The
    upsert keeps one row per user and key. *)
Theorem approval_set_record Date_parse userId body now table table' :
  PlanApprovals.POST Date_parse userId body now table = (PlanApprovals.Ok, table') →
  ∃ u b rawKey st row,
    authenticated userId = Some u ∧ body = Some b
    ∧ prop "postKey" b = Some (JStr rawKey)
    ∧ PlanApprovals.isStatus (prop "status" b) = Some st
    ∧ table' = PlanApprovals.upsert row table
    ∧ PlanApprovals.stored u (normalizeSpaces rawKey) table' = Some row
    ∧ row.(ApprovalRow.user_id) = u
    ∧ row.(ApprovalRow.post_key) = normalizeSpaces rawKey
    ∧ row.(ApprovalRow.status) = st
    ∧ (st = pending → row.(ApprovalRow.decided_at) = None)
    ∧ (st ≠ rejected → row.(ApprovalRow.reject_reason) = None)
    ∧ (NoDup (PlanApprovals.key_of <$> table) →
       NoDup (PlanApprovals.key_of <$> table')).
Proof.
  intros (u & b & rawKey & st & Hu & Hb & Hk & Hst & ->)%PlanApprovals_POST_inv.
  eexists u, b, rawKey, st, _. repeat split; try done.
  - apply (PlanApprovals_upsert_stored
             {| ApprovalRow.user_id := u;
                ApprovalRow.post_key := normalizeSpaces rawKey |}).
  - by intros ->.
  - by destruct st.
  - apply PlanApprovals_upsert_NoDup.
Qed.

(** A rejected record with a reason and a decision time is set back to
    pending: the stored record has neither. *)
Lemma approval_set_record_witness :
  PlanApprovals.stored "user_1" key_sale table_after_reject
  = Some {| ApprovalRow.user_id := "user_1"; ApprovalRow.post_key := key_sale;
            ApprovalRow.status := rejected;
            ApprovalRow.reject_reason := Some "too pushy";
            ApprovalRow.decided_at := Some 1736071200000;
            ApprovalRow.updated_at := 5000 |}
  ∧ PlanApprovals.POST sample_Date_parse (Some "user_1")
      (Some (approval_body key_sale "pending" (Some "still unsure")
               (Some "2025-01-05T10:00:00.000Z"))) 6000 table_after_reject
    = (PlanApprovals.Ok,
       [ {| ApprovalRow.user_id := "user_1"; ApprovalRow.post_key := key_sale;
            ApprovalRow.status := pending; ApprovalRow.reject_reason := None;
            ApprovalRow.decided_at := None; ApprovalRow.updated_at := 6000 |} ])
  ∧ ∃ u b rawKey st row,
      authenticated (Some "user_1") = Some u
      ∧ Some (approval_body key_sale "pending" (Some "still unsure")
                (Some "2025-01-05T10:00:00.000Z")) = Some b
      ∧ prop "postKey" b = Some (JStr rawKey)
      ∧ PlanApprovals.isStatus (prop "status" b) = Some st
      ∧ [ {| ApprovalRow.user_id := "user_1"; ApprovalRow.post_key := key_sale;
             ApprovalRow.status := pending; ApprovalRow.reject_reason := None;
             ApprovalRow.decided_at := None; ApprovalRow.updated_at := 6000 |} ]
        = PlanApprovals.upsert row table_after_reject
      ∧ PlanApprovals.stored u (normalizeSpaces rawKey)
          [ {| ApprovalRow.user_id := "user_1"; ApprovalRow.post_key := key_sale;
               ApprovalRow.status := pending; ApprovalRow.reject_reason := None;
               ApprovalRow.decided_at := None; ApprovalRow.updated_at := 6000 |} ]
        = Some row
      ∧ row.(ApprovalRow.user_id) = u
      ∧ row.(ApprovalRow.post_key) = normalizeSpaces rawKey
      ∧ row.(ApprovalRow.status) = st
      ∧ (st = pending → row.(ApprovalRow.decided_at) = None)
      ∧ (st ≠ rejected → row.(ApprovalRow.reject_reason) = None)
      ∧ (NoDup (PlanApprovals.key_of <$> table_after_reject) →
         NoDup (PlanApprovals.key_of <$>
           [ {| ApprovalRow.user_id := "user_1"; ApprovalRow.post_key := key_sale;
                ApprovalRow.status := pending; ApprovalRow.reject_reason := None;
                ApprovalRow.decided_at := None; ApprovalRow.updated_at := 6000 |} ])).
Proof.
  split; [vm_compute; reflexivity|].
  split; [vm_compute; reflexivity|].
  apply (approval_set_record sample_Date_parse (Some "user_1") _ 6000 table_after_reject).
  vm_compute; reflexivity.
Defined.

(** ** Review settings: the send delay *)

Lemma clamp_minutes_range z : 0 ≤ clamp_minutes z ≤ 10080.
Proof. unfold clamp_minutes. lia. Qed.

Lemma ReviewSettings_upsert_stored row table :
  ReviewSettings.stored row.(ReviewSettingsRow.user_id) (ReviewSettings.upsert row table)
  = Some row.
Proof.
  unfold ReviewSettings.stored. induction table as [|x table IH]; cbn.
  - by rewrite decide_True.
  - case_bool_decide as Hx; rewrite filter_cons.
    + by rewrite decide_True.
    + by rewrite decide_False.
Qed.

(** C9.  When a review-settings save succeeds, the stored row of the user
    holds a delay between 0 and 10080; for a finite number it is the floor
    of the number, raised to 0 or lowered to 10080 when the floor is out of
    range; for anything else (absent, a string, NaN, an infinity) it is
    120. *)
Theorem sendDelayMinutes_stored isValidHttpUrl userId body now table table' :
  ReviewSettings.POST isValidHttpUrl userId body now table
    = (ReviewSettings.Ok, table') →
  ∃ u b row,
    authenticated userId = Some u ∧ body = Some b
    ∧ table' = ReviewSettings.upsert row table
    ∧ ReviewSettings.stored u table' = Some row
    ∧ 0 ≤ row.(ReviewSettingsRow.send_delay_minutes) ≤ 10080
    ∧ (∀ q, prop "sendDelayMinutes" b = Some (JNum (Finite q)) →
         row.(ReviewSettingsRow.send_delay_minutes) = Z.max 0 (Z.min 10080 (Qfloor q))
         ∧ (0 ≤ Qfloor q ≤ 10080 →
            row.(ReviewSettingsRow.send_delay_minutes) = Qfloor q)
         ∧ (Qfloor q < 0 → row.(ReviewSettingsRow.send_delay_minutes) = 0)
         ∧ (10080 < Qfloor q → row.(ReviewSettingsRow.send_delay_minutes) = 10080))
    ∧ ((∀ q, prop "sendDelayMinutes" b ≠ Some (JNum (Finite q))) →
       row.(ReviewSettingsRow.send_delay_minutes) = 120).
Proof.
  unfold ReviewSettings.POST.
  destruct (authenticated userId) as [u|]; [|done].
  destruct body as [b|]; [|done].
  destruct (is_object b); [|done]. cbn [negb]. cbv zeta.
  destruct (_ || _); [done|]. case_bool_decide; [done|].
  intros [= <-]. eexists u, b, _. split; [done|]. split; [done|]. split; [done|].
  split.
  { apply (ReviewSettings_upsert_stored {| ReviewSettingsRow.user_id := u |}). }
  cbn [ReviewSettingsRow.send_delay_minutes]. unfold ReviewSettings.sendDelayMinutes.
  split; [|split].
  - destruct (prop "sendDelayMinutes" b) as [[| |[]| | |]|];
      first [apply clamp_minutes_range | lia].
  - intros q ->. unfold clamp_minutes. lia.
  - intros Hne. destruct (prop "sendDelayMinutes" b) as [[| |[]| | |]|]; try done.
    by destruct (Hne q).
Qed.

(** A delay of -5 is stored as 0. *)
Lemma sendDelayMinutes_stored_witness :
  ReviewSettings.POST any_url (Some "user_1")
    (Some (settings_body (Some (JNum (Finite (inject_Z (-5))))))) 7000 []
  = (ReviewSettings.Ok,
     [ {| ReviewSettingsRow.user_id := "user_1";
          ReviewSettingsRow.review_url := "https://g.page/r/salon/review";
          ReviewSettingsRow.send_delay_minutes := 0;
          ReviewSettingsRow.channel := email;
          ReviewSettingsRow.template := "Thanks for visiting! Leave a review: {review_url}";
          ReviewSettingsRow.updated_at := 7000 |} ])
  ∧ ∃ u b row,
      authenticated (Some "user_1") = Some u
      ∧ Some (settings_body (Some (JNum (Finite (inject_Z (-5)))))) = Some b
      ∧ [ {| ReviewSettingsRow.user_id := "user_1";
             ReviewSettingsRow.review_url := "https://g.page/r/salon/review";
             ReviewSettingsRow.send_delay_minutes := 0;
             ReviewSettingsRow.channel := email;
             ReviewSettingsRow.template := "Thanks for visiting! Leave a review: {review_url}";
             ReviewSettingsRow.updated_at := 7000 |} ]
        = ReviewSettings.upsert row []
      ∧ row.(ReviewSettingsRow.send_delay_minutes) = 0.
Proof.
  split; [vm_compute; reflexivity|].
  destruct (sendDelayMinutes_stored any_url (Some "user_1")
              (Some (settings_body (Some (JNum (Finite (inject_Z (-5)))))))
              7000 []
              [ {| ReviewSettingsRow.user_id := "user_1";
                   ReviewSettingsRow.review_url := "https://g.page/r/salon/review";
                   ReviewSettingsRow.send_delay_minutes := 0;
                   ReviewSettingsRow.channel := email;
                   ReviewSettingsRow.template :=
                     "Thanks for visiting! Leave a review: {review_url}";
                   ReviewSettingsRow.updated_at := 7000 |} ])
    as (u & b & row & Hu & Hb & Ht & _ & _ & Hq & _); [vm_compute; reflexivity|].
  exists u, b, row. split; [exact Hu|]. split; [exact Hb|]. split; [exact Ht|].
  injection Hb as <-.
  destruct (Hq (inject_Z (-5)) eq_refl) as (_ & _ & Hneg & _).
  apply Hneg. reflexivity.
Defined.

(** The delays of the design document's example. *)
Example sendDelayMinutes_examples :
  ReviewSettings.sendDelayMinutes (Some (JNum (Finite (inject_Z (-5))))) = 0
  ∧ ReviewSettings.sendDelayMinutes (Some (JNum (Finite (inject_Z 999999)))) = 10080
  ∧ ReviewSettings.sendDelayMinutes (Some (JNum (Finite (181 # 2)))) = 90
  ∧ ReviewSettings.sendDelayMinutes (Some (JStr "abc")) = 120
  ∧ ReviewSettings.sendDelayMinutes (Some (JNum NaN)) = 120
  ∧ ReviewSettings.sendDelayMinutes (Some (JNum (Infinity false))) = 120
  ∧ ReviewSettings.sendDelayMinutes None = 120.
Proof. repeat split; reflexivity. Qed.

(** ** ReviewJobQueue: due selection *)

Global Instance earlier_first_trans : Transitive ReviewJobs.earlier_first.
Proof. intros a b c. unfold ReviewJobs.earlier_first. lia. Qed.

Global Instance earlier_first_total : Total ReviewJobs.earlier_first.
Proof. intros a b. unfold ReviewJobs.earlier_first. lia. Qed.

(** C7.  [fetchDueJobs] at time [now] returns only jobs of the table that
    are queued and scheduled at or before [now]; it returns them in
    ascending order of scheduled_for; it returns as many as there are due
    jobs, up to the limit; when the due jobs fit the limit it returns
    exactly them; and a due job that is left out is scheduled no earlier
    than every returned job. *)
Theorem fetchDueJobs_spec now limit review_jobs :
  (∀ j, j ∈ ReviewJobs.fetchDueJobs now limit review_jobs →
        j ∈ review_jobs ∧ j.(ReviewJobRow.status) = queued
        ∧ j.(ReviewJobRow.scheduled_for) ≤ now)
  ∧ StronglySorted (λ a b, a.(ReviewJobRow.scheduled_for) ≤ b.(ReviewJobRow.scheduled_for))
      (ReviewJobs.fetchDueJobs now limit review_jobs)
  ∧ length (ReviewJobs.fetchDueJobs now limit review_jobs)
    = (limit `min` length (filter (ReviewJobs.due now) review_jobs))%nat
  ∧ ((length (filter (ReviewJobs.due now) review_jobs) ≤ limit)%nat →
     ReviewJobs.fetchDueJobs now limit review_jobs
       ≡ₚ filter (ReviewJobs.due now) review_jobs)
  ∧ (∀ j, j ∈ review_jobs → ReviewJobs.due now j →
          j ∉ ReviewJobs.fetchDueJobs now limit review_jobs →
          ∀ j', j' ∈ ReviewJobs.fetchDueJobs now limit review_jobs →
                j'.(ReviewJobRow.scheduled_for) ≤ j.(ReviewJobRow.scheduled_for)).
Proof.
  unfold ReviewJobs.fetchDueJobs.
  set (dues := filter (ReviewJobs.due now) review_jobs).
  set (sorted := merge_sort ReviewJobs.earlier_first dues).
  assert (sorted ≡ₚ dues) as Hperm by apply merge_sort_Permutation.
  assert (StronglySorted ReviewJobs.earlier_first sorted) as Hsorted
    by (apply StronglySorted_merge_sort; apply _).
  rewrite <- (take_drop limit sorted) in Hsorted.
  split; [|split; [|split; [|split]]].
  - intros j Hj. apply subseteq_take in Hj. rewrite Hperm in Hj.
    apply list_elem_of_filter in Hj as [[? ?] ?]. done.
  - by apply StronglySorted_app_1_l in Hsorted.
  - rewrite length_take. by rewrite Hperm.
  - intros Hle. rewrite take_ge; [done|]. by rewrite Hperm.
  - intros j Hj Hdue Hout j' Hj'.
    assert (j ∈ sorted) as Hin.
    { rewrite Hperm. by apply list_elem_of_filter. }
    rewrite <- (take_drop limit sorted) in Hin.
    apply elem_of_app in Hin as [?|Hin]; [done|].
    exact (StronglySorted_app_1_elem_of _ _ _ _ _ Hsorted Hj' Hin).
Qed.

(** The example of the design document: at time T, with jobs at T - 10
    minutes (queued), T + 5 minutes (queued) and T - 1 hour (sent), only
    the first is due. *)
Example fetchDueJobs_example :
  let T := 1736071200000 in
  ReviewJobs.fetchDueJobs T 25
    [ sample_job 1 (T - 600000) queued; sample_job 2 (T + 300000) queued;
      sample_job 3 (T - 3600000) sent ]
  = [ sample_job 1 (T - 600000) queued ].
Proof. vm_compute. reflexivity. Qed.

Example fetchDueJobs_order_and_limit :
  map ReviewJobRow.id
    (ReviewJobs.fetchDueJobs 100 2
       [ sample_job 1 90 queued; sample_job 2 100 queued; sample_job 3 10 queued;
         sample_job 4 101 queued; sample_job 5 5 failed ])
  = [3; 1]%positive.
Proof. vm_compute. reflexivity. Qed.

(** ** The appointment webhook *)

Section Webhook_properties.

Variable JSON_parse : string → option json.
Variable Date_parse : string → option Z.
Variable several_rows_message null_property_message : string.

Local Abbreviation POST :=
  (Webhook.POST JSON_parse Date_parse several_rows_message null_property_message).
Local Abbreviation ingest :=
  (Webhook.ingest Date_parse several_rows_message null_property_message).
Local Abbreviation calls :=
  (Webhook.calls JSON_parse Date_parse several_rows_message null_property_message).

Lemma maybeSingle_OneRow {A} (rows : list A) row :
  Webhook.maybeSingle rows = Webhook.OneRow row ↔ rows = [row].
Proof. destruct rows as [|? [|? ?]]; cbn; split; intros H; by simplify_eq. Qed.

Lemma maybeSingle_NoRow {A} (rows : list A) :
  Webhook.maybeSingle rows = Webhook.NoRow ↔ rows = [].
Proof. destruct rows as [|? [|? ?]]; cbn; split; intros H; by simplify_eq. Qed.

(** What one run of steps 3 to 6 does to the store. *)
Lemma ingest_cases userId settings rawObj now db r db' :
  ingest userId settings rawObj now db = (r, db') →
  (∃ m s, r = Webhook.JsonError m s ∧ db' = db)
  ∨ (r = Webhook.Deduped ∧ db' = db
     ∧ ∃ eid row, Webhook.externalEventId rawObj = Some eid
         ∧ Webhook.select_event userId eid db.(Webhook.appointment_events) = [row])
  ∨ (∃ e, match Webhook.externalEventId rawObj with
          | Some eid =>
              Webhook.select_event userId eid db.(Webhook.appointment_events) = []
          | None => True
          end
      ∧ e = Webhook.event_of Date_parse userId rawObj db
      ∧ e.(AppointmentEventRow.id) = db.(Webhook.next_event_id)
      ∧ e.(AppointmentEventRow.user_id) = userId
      ∧ e.(AppointmentEventRow.external_event_id) = Webhook.externalEventId rawObj
      ∧ ((∃ reason, r = Webhook.NotQueued reason e.(AppointmentEventRow.id)
            ∧ (reason = "missing_customer_email" ∨ reason = "missing_customer_phone")
            ∧ db' = Webhook.insert_event e db)
         ∨ (∃ j sched ch, r = Webhook.Queued sched ch e.(AppointmentEventRow.id)
              ∧ db' = Webhook.insert_job j (Webhook.insert_event e db)
              ∧ j.(ReviewJobRow.appointment_event_id) = e.(AppointmentEventRow.id)
              ∧ (∃ toEmail toPhone,
                   j = Webhook.job_of userId settings now db toEmail toPhone
                   ∧ match settings.(ReviewSettingsRow.channel) with
                     | email => toEmail = e.(AppointmentEventRow.customer_email)
                                ∧ is_Some toEmail ∧ toPhone = None
                     | sms => toPhone = e.(AppointmentEventRow.customer_phone)
                              ∧ is_Some toPhone ∧ toEmail = None
                     end)
              ∧ sched = j.(ReviewJobRow.scheduled_for)
              ∧ ch = settings.(ReviewSettingsRow.channel)))).
Proof.
  unfold Webhook.ingest. destruct (is_null rawObj); [intros [= <- <-]; left; eauto|].
  cbv zeta.
  assert (∀ r db',
    match ReviewSettingsRow.channel settings with
    | email =>
        match Webhook.asString (prop "customer_email" rawObj)
              ?? Webhook.asString (prop "customerEmail" rawObj)
              ?? Webhook.asString (prop "email" rawObj) with
        | Some _ =>
            (Webhook.Queued
               (now + clamp_minutes (ReviewSettingsRow.send_delay_minutes settings)
                      * 60 * 1000)
               (ReviewSettingsRow.channel settings) (Webhook.next_event_id db),
             Webhook.insert_job
               (Webhook.job_of userId settings now db
                  (Webhook.asString (prop "customer_email" rawObj)
                   ?? Webhook.asString (prop "customerEmail" rawObj)
                   ?? Webhook.asString (prop "email" rawObj)) None)
               (Webhook.insert_event (Webhook.event_of Date_parse userId rawObj db) db))
        | None =>
            (Webhook.NotQueued "missing_customer_email" (Webhook.next_event_id db),
             Webhook.insert_event (Webhook.event_of Date_parse userId rawObj db) db)
        end
    | sms =>
        match Webhook.asString (prop "customer_phone" rawObj)
              ?? Webhook.asString (prop "customerPhone" rawObj)
              ?? Webhook.asString (prop "phone" rawObj) with
        | Some _ =>
            (Webhook.Queued
               (now + clamp_minutes (ReviewSettingsRow.send_delay_minutes settings)
                      * 60 * 1000)
               (ReviewSettingsRow.channel settings) (Webhook.next_event_id db),
             Webhook.insert_job
               (Webhook.job_of userId settings now db None
                  (Webhook.asString (prop "customer_phone" rawObj)
                   ?? Webhook.asString (prop "customerPhone" rawObj)
                   ?? Webhook.asString (prop "phone" rawObj)))
               (Webhook.insert_event (Webhook.event_of Date_parse userId rawObj db) db))
        | None =>
            (Webhook.NotQueued "missing_customer_phone" (Webhook.next_event_id db),
             Webhook.insert_event (Webhook.event_of Date_parse userId rawObj db) db)
        end
    end = (r, db') →
    (∃ reason, r = Webhook.NotQueued reason (Webhook.next_event_id db)
       ∧ (reason = "missing_customer_email" ∨ reason = "missing_customer_phone")
       ∧ db' = Webhook.insert_event (Webhook.event_of Date_parse userId rawObj db) db)
    ∨ (∃ j sched ch, r = Webhook.Queued sched ch (Webhook.next_event_id db)
         ∧ db' = Webhook.insert_job j
                   (Webhook.insert_event (Webhook.event_of Date_parse userId rawObj db) db)
         ∧ j.(ReviewJobRow.appointment_event_id) = Webhook.next_event_id db
         ∧ (∃ toEmail toPhone,
              j = Webhook.job_of userId settings now db toEmail toPhone
              ∧ match settings.(ReviewSettingsRow.channel) with
                | email =>
                    toEmail = (Webhook.event_of Date_parse userId rawObj db)
                                .(AppointmentEventRow.customer_email)
                    ∧ is_Some toEmail ∧ toPhone = None
                | sms =>
                    toPhone = (Webhook.event_of Date_parse userId rawObj db)
                                .(AppointmentEventRow.customer_phone)
                    ∧ is_Some toPhone ∧ toEmail = None
                end)
         ∧ sched = j.(ReviewJobRow.scheduled_for)
         ∧ ch = settings.(ReviewSettingsRow.channel))) as Hbuild.
  { intros r0 db0. destruct (ReviewSettingsRow.channel settings) eqn:Hch.
    - destruct (_ ?? _) as [to|] eqn:Hto; intros [= <- <-].
      + right. eexists _, _, _. split; [reflexivity|]. split; [reflexivity|].
        split; [reflexivity|]. split; [|split; [reflexivity | done]].
        eexists _, _. split; [reflexivity|]. cbn. rewrite Hto. eauto.
      + left. eauto.
    - destruct (_ ?? _) as [to|] eqn:Hto; intros [= <- <-].
      + right. eexists _, _, _. split; [reflexivity|]. split; [reflexivity|].
        split; [reflexivity|]. split; [|split; [reflexivity | done]].
        eexists _, _. split; [reflexivity|]. cbn. rewrite Hto. eauto.
      + left. eauto. }
  destruct (Webhook.externalEventId rawObj) as [eid|] eqn:Heid.
  - destruct (Webhook.maybeSingle _) as [|row|] eqn:Hsel.
    + apply maybeSingle_NoRow in Hsel. intros H. right. right.
      exists (Webhook.event_of Date_parse userId rawObj db).
      split; [exact Hsel|]. split; [done|]. split; [done|]. split; [done|].
      split; [exact Heid|]. apply Hbuild. rewrite <- H.
      unfold Webhook.job_of, Webhook.event_of. rewrite Heid. reflexivity.
    + apply maybeSingle_OneRow in Hsel. intros [= <- <-]. right. left. eauto 10.
    + intros [= <- <-]. left. eauto.
  - intros H. right. right.
    exists (Webhook.event_of Date_parse userId rawObj db).
    split; [done|]. split; [done|]. split; [done|]. split; [done|].
    split; [exact Heid|]. apply Hbuild. rewrite <- H.
    unfold Webhook.job_of, Webhook.event_of. rewrite Heid. reflexivity.
Qed.

(** A call either answers an error and leaves the store alone, or has
    resolved the salon and its settings and run steps 3 to 6. *)
Lemma POST_cases tokenErr slug rawText now db r db' :
  POST tokenErr slug rawText now db = (r, db') →
  (∃ m s, r = Webhook.JsonError m s ∧ db' = db)
  ∨ (∃ rawObj booking settings,
       JSON_parse rawText = Some rawObj
       ∧ filter (λ b, b.(BookingSettingsRow.slug) = slug) db.(Webhook.booking_settings)
         = [booking]
       ∧ filter (λ s, s.(ReviewSettingsRow.user_id) = booking.(BookingSettingsRow.user_id))
           db.(Webhook.review_settings) = [settings]
       ∧ ingest booking.(BookingSettingsRow.user_id) settings rawObj now db = (r, db')).
Proof.
  unfold Webhook.POST.
  destruct tokenErr; [intros [= <- <-]; left; eauto|].
  case_bool_decide; [intros [= <- <-]; left; eauto|].
  case_bool_decide; [intros [= <- <-]; left; eauto|].
  destruct (JSON_parse rawText) as [rawObj|]; [|intros [= <- <-]; left; eauto].
  destruct (Webhook.maybeSingle _) as [|booking|] eqn:Hb;
    [intros [= <- <-]; left; eauto| |intros [= <- <-]; left; eauto].
  cbv zeta.
  destruct (Webhook.maybeSingle _) as [|settings|] eqn:Hs in |- *;
    [intros [= <- <-]; left; eauto| |intros [= <- <-]; left; eauto].
  apply maybeSingle_OneRow in Hb, Hs. intros Hin. right. eauto 10.
Qed.

(** A call with a valid token, a known slug, a parsed body and configured
    settings runs steps 3 to 6. *)
Lemma POST_resolved slug rawText now db rawObj booking settings :
  slug ≠ "" → String.length (Js.trim rawText) ≠ 0%nat →
  JSON_parse rawText = Some rawObj →
  filter (λ b, b.(BookingSettingsRow.slug) = slug) db.(Webhook.booking_settings)
    = [booking] →
  filter (λ s, s.(ReviewSettingsRow.user_id) = booking.(BookingSettingsRow.user_id))
    db.(Webhook.review_settings) = [settings] →
  POST None slug rawText now db
  = ingest booking.(BookingSettingsRow.user_id) settings rawObj now db.
Proof.
  intros Hslug Hraw Hparse Hb Hs. unfold Webhook.POST.
  rewrite !bool_decide_eq_false_2 by done. rewrite Hparse, Hb. cbn.
  rewrite Hs. done.
Qed.

Lemma POST_nonerror_inputs slug rawText now db r db' :
  POST None slug rawText now db = (r, db') →
  (∀ m s, r ≠ Webhook.JsonError m s) →
  slug ≠ "" ∧ String.length (Js.trim rawText) ≠ 0%nat.
Proof.
  unfold Webhook.POST. intros H Hne.
  case_bool_decide; [injection H as <- _; by edestruct Hne|].
  case_bool_decide; [injection H as <- _; by edestruct Hne|]. done.
Qed.

Lemma externalEventId_not_null rawObj eid :
  Webhook.externalEventId rawObj = Some eid → is_null rawObj = false.
Proof. by destruct rawObj. Qed.

(** Steps 3 to 6 stop at the dedup check when the event is stored. *)
Lemma ingest_deduped userId settings rawObj now db eid row :
  Webhook.externalEventId rawObj = Some eid →
  Webhook.select_event userId eid db.(Webhook.appointment_events) = [row] →
  ingest userId settings rawObj now db = (Webhook.Deduped, db).
Proof.
  intros Heid Hsel. unfold Webhook.ingest.
  rewrite (externalEventId_not_null _ _ Heid). cbv zeta. rewrite Heid, Hsel. done.
Qed.

Lemma select_event_snoc userId eid events e :
  e.(AppointmentEventRow.user_id) = userId →
  e.(AppointmentEventRow.external_event_id) = Some eid →
  Webhook.select_event userId eid (events ++ [e])
  = Webhook.select_event userId eid events ++ [e].
Proof.
  intros Hu He. unfold Webhook.select_event. rewrite filter_app. f_equal.
  rewrite filter_cons, filter_nil. by rewrite decide_True.
Qed.

(** Same external id, same user: one stored event, and the second call is
    answered from it. *)
Lemma webhook_same_id_deduped slug rawText1 rawText2 now1 now2 db r1 db1 o1 o2 eid :
  JSON_parse rawText1 = Some o1 → Webhook.externalEventId o1 = Some eid →
  JSON_parse rawText2 = Some o2 → Webhook.externalEventId o2 = Some eid →
  String.length (Js.trim rawText2) ≠ 0%nat →
  POST None slug rawText1 now1 db = (r1, db1) →
  (∀ m s, r1 ≠ Webhook.JsonError m s) →
  ∃ booking e,
    filter (λ b, b.(BookingSettingsRow.slug) = slug) db.(Webhook.booking_settings)
      = [booking]
    ∧ POST None slug rawText2 now2 db1 = (Webhook.Deduped, db1)
    ∧ Webhook.select_event booking.(BookingSettingsRow.user_id) eid
        db1.(Webhook.appointment_events) = [e]
    ∧ ((r1 = Webhook.Deduped ∧ db1 = db)
       ∨ (Webhook.select_event booking.(BookingSettingsRow.user_id) eid
            db.(Webhook.appointment_events) = []
          ∧ db1.(Webhook.appointment_events) = db.(Webhook.appointment_events) ++ [e]
          ∧ (db1.(Webhook.review_jobs) = db.(Webhook.review_jobs)
             ∨ ∃ j, db1.(Webhook.review_jobs) = db.(Webhook.review_jobs) ++ [j]
                 ∧ j.(ReviewJobRow.appointment_event_id) = e.(AppointmentEventRow.id)))).
Proof.
  intros Hp1 He1 Hp2 He2 Hraw2 HPOST Hne.
  destruct (POST_nonerror_inputs _ _ _ _ _ _ HPOST Hne) as [Hslug _].
  destruct (POST_cases _ _ _ _ _ _ _ HPOST)
    as [(m & s & -> & _) | (rawObj & booking & settings & Hp & Hb & Hs & Hin)];
    [by edestruct Hne|].
  assert (rawObj = o1) as -> by congruence.
  exists booking.
  destruct (ingest_cases _ _ _ _ _ _ _ Hin)
    as [(m & s & -> & _) | [(-> & -> & eid' & row & He' & Hsel)
        | (e & Hfresh & Hdef & Hid & Hu & Hext & Hout)]]; [by edestruct Hne| |].
  - assert (eid' = eid) as -> by congruence. exists row.
    split; [done|]. split; [|split; [done | by left]].
    rewrite (POST_resolved slug rawText2 now2 db o2 booking settings) by done.
    by eapply ingest_deduped.
  - rewrite He1 in Hfresh, Hext. exists e. split; [done|].
    assert (Webhook.appointment_events db1 = Webhook.appointment_events db ++ [e]
            ∧ Webhook.booking_settings db1 = Webhook.booking_settings db
            ∧ Webhook.review_settings db1 = Webhook.review_settings db
            ∧ (Webhook.review_jobs db1 = Webhook.review_jobs db
               ∨ ∃ j, Webhook.review_jobs db1 = Webhook.review_jobs db ++ [j]
                   ∧ j.(ReviewJobRow.appointment_event_id) = e.(AppointmentEventRow.id)))
      as (Hev & Hbs & Hrs & Hjobs).
    { destruct Hout as [(reason & _ & _ & ->) | (j & sched & ch & _ & -> & Hj & _)];
        cbn; eauto 10. }
    assert (Webhook.select_event (BookingSettingsRow.user_id booking) eid
              (Webhook.appointment_events db1) = [e]) as Hsel1.
    { rewrite Hev, select_event_snoc by done. by rewrite Hfresh. }
    split; [|split; [done | right; done]].
    rewrite (POST_resolved slug rawText2 now2 db1 o2 booking settings);
      [by eapply ingest_deduped | done | done | done | by rewrite Hbs | by rewrite Hrs].
Qed.

(** No external id: the call inserts an event and is not deduplicated. *)
Lemma webhook_no_id_inserts slug rawText now db r db' o :
  JSON_parse rawText = Some o → Webhook.externalEventId o = None →
  POST None slug rawText now db = (r, db') →
  (∀ m s, r ≠ Webhook.JsonError m s) →
  r ≠ Webhook.Deduped
  ∧ ∃ e, db'.(Webhook.appointment_events) = db.(Webhook.appointment_events) ++ [e]
      ∧ e.(AppointmentEventRow.id) = db.(Webhook.next_event_id)
      ∧ e.(AppointmentEventRow.external_event_id) = None.
Proof.
  intros Hp He HPOST Hne.
  destruct (POST_cases _ _ _ _ _ _ _ HPOST)
    as [(m & s & -> & _) | (rawObj & booking & settings & Hp' & Hb & Hs & Hin)];
    [by edestruct Hne|].
  assert (rawObj = o) as -> by congruence.
  destruct (ingest_cases _ _ _ _ _ _ _ Hin)
    as [(m & s & -> & _) | [(-> & -> & eid' & row & He' & Hsel)
        | (e & Hfresh & Hdef & Hid & Hu & Hext & Hout)]]; [by edestruct Hne|congruence|].
  rewrite He in Hext.
  destruct Hout as [(reason & -> & _ & ->) | (j & sched & ch & -> & -> & Hj & _)];
    (split; [done|]); exists e; done.
Qed.

(** C8.  Two webhook calls for the same salon whose payloads carry the
    same external event id, the first of which is not answered with an
    error: the second is answered [deduped] and leaves the store as it is;
    the store then holds exactly one event of that user and id; and the
    two calls together have inserted either nothing (the event was stored
    before) or that one event and at most one review job, which refers to
    it.  A call whose payload yields no external event id, when it is not
    answered with an error, is not answered [deduped] and has inserted a
    new event. *)
Theorem webhook_dedup :
  (∀ slug rawText1 rawText2 now1 now2 db r1 db1 o1 o2 eid,
     JSON_parse rawText1 = Some o1 → Webhook.externalEventId o1 = Some eid →
     JSON_parse rawText2 = Some o2 → Webhook.externalEventId o2 = Some eid →
     String.length (Js.trim rawText2) ≠ 0%nat →
     POST None slug rawText1 now1 db = (r1, db1) →
     (∀ m s, r1 ≠ Webhook.JsonError m s) →
     ∃ booking e,
       filter (λ b, b.(BookingSettingsRow.slug) = slug) db.(Webhook.booking_settings)
         = [booking]
       ∧ POST None slug rawText2 now2 db1 = (Webhook.Deduped, db1)
       ∧ Webhook.select_event booking.(BookingSettingsRow.user_id) eid
           db1.(Webhook.appointment_events) = [e]
       ∧ ((r1 = Webhook.Deduped ∧ db1 = db)
          ∨ (Webhook.select_event booking.(BookingSettingsRow.user_id) eid
               db.(Webhook.appointment_events) = []
             ∧ db1.(Webhook.appointment_events)
               = db.(Webhook.appointment_events) ++ [e]
             ∧ (db1.(Webhook.review_jobs) = db.(Webhook.review_jobs)
                ∨ ∃ j, db1.(Webhook.review_jobs) = db.(Webhook.review_jobs) ++ [j]
                    ∧ j.(ReviewJobRow.appointment_event_id)
                      = e.(AppointmentEventRow.id)))))
  ∧ (∀ slug rawText now db r db' o,
       JSON_parse rawText = Some o → Webhook.externalEventId o = None →
       POST None slug rawText now db = (r, db') →
       (∀ m s, r ≠ Webhook.JsonError m s) →
       r ≠ Webhook.Deduped
       ∧ ∃ e, db'.(Webhook.appointment_events)
              = db.(Webhook.appointment_events) ++ [e]
           ∧ e.(AppointmentEventRow.id) = db.(Webhook.next_event_id)
           ∧ e.(AppointmentEventRow.external_event_id) = None).
Proof.
  split.
  - exact webhook_same_id_deduped.
  - exact webhook_no_id_inserts.
Qed.

(** A call adds only jobs that refer to the event it inserts, whose id is
    the next one of the store; ids only grow. *)
Lemma POST_jobs_step tokenErr slug rawText now db r db' :
  POST tokenErr slug rawText now db = (r, db') →
  (db.(Webhook.next_event_id) ≤ db'.(Webhook.next_event_id))%positive
  ∧ ∀ j, j ∈ db'.(Webhook.review_jobs) →
         j ∈ db.(Webhook.review_jobs)
         ∨ j.(ReviewJobRow.appointment_event_id) = db.(Webhook.next_event_id).
Proof.
  intros HPOST.
  destruct (POST_cases _ _ _ _ _ _ _ HPOST)
    as [(m & s & -> & ->) | (rawObj & booking & settings & Hp' & Hb & Hs & Hin)];
    [split; [lia | auto]|].
  destruct (ingest_cases _ _ _ _ _ _ _ Hin)
    as [(m & s & -> & ->) | [(-> & -> & _)
        | (e & Hfresh & Hdef & Hid & Hu & Hext & Hout)]]; [split; [lia | auto]..|].
  destruct Hout as [(reason & -> & _ & ->) | (j & sched & ch & -> & -> & Hj & _)]; cbn.
  - split; [lia | auto].
  - split; [lia|]. intros j' [?| ->%list_elem_of_singleton]%elem_of_app; [auto|].
    right. congruence.
Qed.

Lemma calls_no_job ev db db2 :
  calls db db2 →
  (ev < db.(Webhook.next_event_id))%positive →
  (∀ j, j ∈ db.(Webhook.review_jobs) → j.(ReviewJobRow.appointment_event_id) ≠ ev) →
  ∀ j, j ∈ db2.(Webhook.review_jobs) → j.(ReviewJobRow.appointment_event_id) ≠ ev.
Proof.
  induction 1 as [db | db tokenErr slug rawText now response db' db'' HPOST _ IH];
    [done|].
  intros Hlt Hjobs. destruct (POST_jobs_step _ _ _ _ _ _ _ HPOST) as [Hnext Hstep].
  apply IH; [lia|]. intros j [?| ->]%Hstep; [auto | lia].
Qed.

(** C10.  A call that skips the review job because the recipient of the
    selected channel is missing has inserted the appointment event and has
    left it in the store, without a job.  When its payload carries an
    external event id, every later call for the same salon with that id is
    answered [deduped] and changes nothing, whatever else its payload
    holds; and no sequence of later webhook calls creates a review job for
    the event.  (The jobs of the store refer to stored events, whose ids
    are below the next id.) *)
Theorem webhook_skip_is_final slug rawText1 now1 db reason ev db1 o1 eid :
  JSON_parse rawText1 = Some o1 → Webhook.externalEventId o1 = Some eid →
  (∀ j, j ∈ db.(Webhook.review_jobs) →
        (j.(ReviewJobRow.appointment_event_id) < db.(Webhook.next_event_id))%positive) →
  POST None slug rawText1 now1 db = (Webhook.NotQueued reason ev, db1) →
  (reason = "missing_customer_email" ∨ reason = "missing_customer_phone")
  ∧ (∃ e, db1.(Webhook.appointment_events) = db.(Webhook.appointment_events) ++ [e]
       ∧ e.(AppointmentEventRow.id) = ev
       ∧ e.(AppointmentEventRow.external_event_id) = Some eid)
  ∧ db1.(Webhook.review_jobs) = db.(Webhook.review_jobs)
  ∧ (∀ rawText2 o2 now2,
       JSON_parse rawText2 = Some o2 → Webhook.externalEventId o2 = Some eid →
       String.length (Js.trim rawText2) ≠ 0%nat →
       POST None slug rawText2 now2 db1 = (Webhook.Deduped, db1))
  ∧ (∀ db2, calls db1 db2 →
       ∀ j, j ∈ db2.(Webhook.review_jobs) → j.(ReviewJobRow.appointment_event_id) ≠ ev).
Proof.
  intros Hp1 He1 Hrefs HPOST.
  destruct (POST_cases _ _ _ _ _ _ _ HPOST)
    as [(m & s & ? & _) | (rawObj & booking & settings & Hp' & Hb & Hs & Hin)]; [done|].
  assert (rawObj = o1) as -> by congruence.
  destruct (ingest_cases _ _ _ _ _ _ _ Hin)
    as [(m & s & ? & _) | [(? & _) | (e & Hfresh & Hdef & Hid & Hu & Hext & Hout)]];
    [done..|].
  destruct Hout as [(reason' & [= -> ->] & Hreason & ->) | (j & sched & ch & ? & _)];
    [|done].
  split; [done|]. split; [exists e; cbn; by rewrite Hext, He1|]. split; [done|]. split.
  - intros rawText2 o2 now2 Hp2 He2 Hraw2.
    destruct (webhook_same_id_deduped slug rawText1 rawText2 now1 now2 db _ _ o1 o2 eid
                Hp1 He1 Hp2 He2 Hraw2 HPOST) as (? & ? & _ & ? & _); done.
  - intros db2 Hcalls. apply (calls_no_job _ _ _ Hcalls); cbn; [lia|].
    intros j Hj. specialize (Hrefs j Hj). lia.
Qed.

End Webhook_properties.

Example substituteTemplate_example :
  Webhook.substituteTemplate "Hi! {review_url} or {review_url}{review" "URL"
  = "Hi! URL or URL{review".
Proof. vm_compute. reflexivity. Qed.

(** The same event twice: one event, one job, the second call deduped. *)
Example webhook_twice_same_id :
  let first := sample_POST None "glow-salon" body_evt_1_email 1000 sample_store in
  let second := sample_POST None "glow-salon" body_evt_1_email 2000 first.2 in
  first.1 = Webhook.Queued 7201000 email 1
  ∧ second = (Webhook.Deduped, first.2)
  ∧ length first.2.(Webhook.appointment_events) = 1%nat
  ∧ length first.2.(Webhook.review_jobs) = 1%nat.
Proof. vm_compute. repeat split; reflexivity. Qed.

(** No external id: every call inserts. *)
Example webhook_twice_no_id :
  let first := sample_POST None "glow-salon" body_walk_in 1000 sample_store in
  let second := sample_POST None "glow-salon" body_walk_in 2000 first.2 in
  first.1 = Webhook.Queued 7201000 email 1
  ∧ second.1 = Webhook.Queued 7202000 email 2
  ∧ length second.2.(Webhook.appointment_events) = 2%nat
  ∧ length second.2.(Webhook.review_jobs) = 2%nat.
Proof. vm_compute. repeat split; reflexivity. Qed.

(** The first call for evt_1 lacks the e-mail address; the retry supplies
    it and is deduplicated; the event stays without a job. *)
Lemma webhook_skip_is_final_witness :
  sample_JSON_parse body_evt_1_no_email
    = Some (JObj [("id", JStr "evt_1"); ("customerName", JStr "Ada")])
  ∧ Webhook.externalEventId (JObj [("id", JStr "evt_1"); ("customerName", JStr "Ada")])
    = Some "evt_1"
  ∧ sample_POST None "glow-salon" body_evt_1_no_email 1000 sample_store
    = (Webhook.NotQueued "missing_customer_email" 1, store_after_skip)
  ∧ length store_after_skip.(Webhook.appointment_events) = 1%nat
  ∧ store_after_skip.(Webhook.review_jobs) = []
  ∧ sample_POST None "glow-salon" body_evt_1_email 2000 store_after_skip
    = (Webhook.Deduped, store_after_skip).
Proof.
  split; [reflexivity|]. split; [reflexivity|]. split; [vm_compute; reflexivity|].
  split; [reflexivity|].
  destruct (webhook_skip_is_final sample_JSON_parse sample_Date_parse
              "several rows" "null has no properties"
              "glow-salon" body_evt_1_no_email 1000 sample_store
              "missing_customer_email" 1 store_after_skip
              (JObj [("id", JStr "evt_1"); ("customerName", JStr "Ada")]) "evt_1")
    as (_ & _ & Hjobs & Hretry & _).
  - reflexivity.
  - reflexivity.
  - intros j Hj. by apply elem_of_nil in Hj.
  - vm_compute; reflexivity.
  - split; [exact Hjobs|].
    apply (Hretry body_evt_1_email
             (JObj [("eventId", JStr " evt_1 "); ("email", JStr "ada@example.com")]));
      [reflexivity | reflexivity | vm_compute; discriminate].
Defined.

(** ** PlanGenerator *)

Section PlanRoute_properties.

Variable JSON_parse : string → option json.







End PlanRoute_properties.



(* ================================================================== *)
(** * Part III: further properties of the handlers                      *)
(* ================================================================== *)

(** ** White space: [trim] and [normalizeSpaces] *)

Lemma trimStart_id s : Js.starts_ws s = false → Js.trimStart s = s.
Proof. destruct s as [|c r]; [done|]. cbn. by intros ->. Qed.

Lemma trimEnd_id s : Js.ends_ws s = false → Js.trimEnd s = s.
Proof.
  induction s as [|c r IH]; [done|]. intros [Hr Hne]%ends_ws_cons.
  cbn [Js.trimEnd]. rewrite (IH Hr). destruct r as [|d r]; [|done].
  destruct (Js.is_space c); [by destruct Hne | done].
Qed.

Lemma starts_ws_trim s : Js.starts_ws (Js.trim s) = false.
Proof. apply starts_ws_trimEnd, starts_ws_trimStart. Qed.

Lemma ends_ws_trim s : Js.ends_ws (Js.trim s) = false.
Proof. apply ends_ws_trimEnd. Qed.

Lemma trim_id s : Js.starts_ws s = false → Js.ends_ws s = false → Js.trim s = s.
Proof. intros Hs He. unfold Js.trim. rewrite (trimStart_id _ Hs). by apply trimEnd_id. Qed.

Lemma trim_trim s : Js.trim (Js.trim s) = Js.trim s.
Proof. apply trim_id; [apply starts_ws_trim | apply ends_ws_trim]. Qed.

Lemma tidy_from_not_ends_ws a s : Js.tidy_from a s = true → Js.ends_ws s = false.
Proof.
  intros H. destruct (Js.ends_ws s) eqn:E; [|done].
  by rewrite (tidy_from_ends_ws a s E) in H.
Qed.

Lemma replace_ws_runs_tidy a b s :
  Js.tidy_from a s = true → (b = true → a = true) → Js.replace_ws_runs b s = s.
Proof.
  revert a b. induction s as [|c r IH]; [done|]. intros a b. cbn.
  destruct (Js.is_space c) eqn:Hc.
  - intros [[Ha Hsp]%andb_true_iff Hr]%andb_true_iff Hb.
    apply negb_true_iff in Ha. subst a.
    destruct b; [by specialize (Hb eq_refl)|].
    unfold Js.is_char in Hsp. apply bool_decide_eq_true in Hsp as ->.
    f_equal. by apply (IH true true).
  - intros Hr _. f_equal. by apply (IH false false).
Qed.

(** A tidy string is left as it is. *)
Lemma normalizeSpaces_tidy s : Js.tidy s = true → normalizeSpaces s = s.
Proof.
  destruct s as [|c r]; [done|]. intros Ht.
  change (Js.tidy_from true (String c r) = true) in Ht.
  assert (Js.starts_ws (String c r) = false) as Hs.
  { cbn in *. destruct (Js.is_space c); done. }
  unfold normalizeSpaces.
  rewrite trim_id; [|done|by eapply tidy_from_not_ends_ws].
  by apply (replace_ws_runs_tidy true false).
Qed.

Lemma tidy_from_regular a s :
  Js.ends_ws s = false → Js.adjacent_ws s = false → Js.other_ws s = false →
  (a = true → Js.starts_ws s = false ∧ s ≠ "") →
  Js.tidy_from a s = true.
Proof.
  revert a. induction s as [|c r IH]; intros a He Hadj Hoth Ha.
  - destruct a; [by destruct (Ha eq_refl) | done].
  - apply ends_ws_cons in He as [Her Hne].
    cbn in Hadj, Hoth. apply orb_false_iff in Hadj as [Hadj1 Hadj], Hoth as [Hoth1 Hoth].
    cbn [Js.tidy_from]. destruct (Js.is_space c) eqn:Hc.
    + cbn in Hadj1, Hoth1. apply negb_false_iff in Hoth1.
      destruct a; [destruct (Ha eq_refl) as [Hs _]; cbn in Hs; congruence|].
      rewrite Hoth1. cbn. apply IH; auto.
    + apply IH; auto. done.
Qed.

(** X1.  The strings that [normalizeSpaces] leaves unchanged are exactly
    those without white space at the start, at the end, twice in a row, or
    other than the plain space; and normalizing twice is normalizing
    once. *)
Theorem normalizeSpaces_fixed_points s :
  (normalizeSpaces s = s ↔
   Js.starts_ws s = false ∧ Js.ends_ws s = false
   ∧ Js.adjacent_ws s = false ∧ Js.other_ws s = false)
  ∧ normalizeSpaces (normalizeSpaces s) = normalizeSpaces s.
Proof.
  split; [|apply normalizeSpaces_tidy, tidy_normalizeSpaces]. split.
  - intros Hfix.
    destruct (Js.starts_ws s) eqn:H1; [|destruct (Js.ends_ws s) eqn:H2;
      [|destruct (Js.adjacent_ws s) eqn:H3; [|destruct (Js.other_ws s) eqn:H4; [|done]]]];
      exfalso; apply (normalizeSpaces_ne_untidy s s); try done;
      apply irregular_not_tidy; auto.
  - intros (H1 & H2 & H3 & H4). apply normalizeSpaces_tidy.
    destruct s as [|c r]; [done|].
    change (Js.tidy_from true (String c r) = true). by apply tidy_from_regular.
Qed.

(** ** The webhook's field extraction *)

Lemma length_zero_empty s : String.length s = 0%nat ↔ s = "".
Proof. destruct s; cbn; split; intros; by simplify_eq. Qed.

(** X2.  Whatever [asString] extracts is the trimmed text of a string
    property; it is not empty, has no white space at either end, and is
    extracted unchanged when read again.  A property that is missing, not a
    string, or blank yields nothing. *)
Theorem asString_trimmed x :
  match Webhook.asString x with
  | Some s =>
      ∃ raw, x = Some (JStr raw) ∧ s = Js.trim raw ∧ s ≠ ""
        ∧ Js.starts_ws s = false ∧ Js.ends_ws s = false
        ∧ Webhook.asString (Some (JStr s)) = Some s
  | None => ∀ raw, x = Some (JStr raw) → Js.trim raw = ""
  end.
Proof.
  unfold Webhook.asString. destruct x as [[| | |raw| |]|]; try done.
  case_bool_decide as Hlen.
  - intros raw' [= <-]. by apply length_zero_empty.
  - exists raw. rewrite trim_trim. rewrite bool_decide_eq_false_2 by done.
    repeat split; try done.
    + intros E. by rewrite E in Hlen.
    + apply starts_ws_trim.
    + apply ends_ws_trim.
Qed.

(** The external event id is the first of the four properties that holds a
    string with a character other than white space. *)
Example externalEventId_priority :
  Webhook.externalEventId
    (JObj [("bookingId", JStr "b-7"); ("id", JStr "  evt_9 ");
           ("eventId", JNum (Finite 3)); ("external_event_id", JStr "   ")])
  = Some "evt_9".
Proof. reflexivity. Qed.

(** ** The latest plan *)

Global Instance newer_first_trans : Transitive DispatchReady.newer_first.
Proof. intros a b c. unfold DispatchReady.newer_first. lia. Qed.

Global Instance newer_first_total : Total DispatchReady.newer_first.
Proof. intros a b. unfold DispatchReady.newer_first. lia. Qed.

(** X3.  The plan that the resolver reads is a stored plan of the user
    with the greatest generated_at among the user's plans; there is none
    exactly when the user has no stored plan. *)
Theorem latest_plan_newest userId plans :
  match DispatchReady.latest_plan userId plans with
  | Some row =>
      row ∈ plans ∧ row.(PlanRow.user_id) = userId
      ∧ ∀ other, other ∈ plans → other.(PlanRow.user_id) = userId →
                 other.(PlanRow.generated_at) ≤ row.(PlanRow.generated_at)
  | None => ∀ row, row ∈ plans → row.(PlanRow.user_id) ≠ userId
  end.
Proof.
  unfold DispatchReady.latest_plan.
  set (mine := filter (λ r, PlanRow.user_id r = userId) plans).
  pose proof (merge_sort_Permutation DispatchReady.newer_first mine) as Hperm.
  pose proof (StronglySorted_merge_sort DispatchReady.newer_first mine) as Hsorted.
  destruct (merge_sort DispatchReady.newer_first mine) as [|row rest]; cbn.
  - intros row Hrow Hu. apply Permutation_nil_l in Hperm.
    assert (row ∈ mine) as Hin by by apply list_elem_of_filter.
    rewrite <- Hperm in Hin. by apply elem_of_nil in Hin.
  - assert (row ∈ mine) as Hin by (rewrite <- Hperm; left).
    apply list_elem_of_filter in Hin as [Hu Hin]. split; [done|]. split; [done|].
    intros other Ho Hou.
    assert (other ∈ row :: rest) as [->|Hrest]%elem_of_cons.
    { rewrite Hperm. by apply list_elem_of_filter. }
    + lia.
    + apply StronglySorted_inv in Hsorted as [_ Hall].
      rewrite Forall_forall in Hall. by apply (Hall other).
Qed.

Example latest_plan_sample :
  PlanRow.generated_at <$> DispatchReady.latest_plan "user_1" sample_plans = Some 1000
  ∧ DispatchReady.latest_plan "user_9" sample_plans = None.
Proof. split; vm_compute; reflexivity. Qed.

(** ** The resolver returns what passes both gates *)

Lemma makePostKey_nonempty d p idx : makePostKey d p idx ≠ "".
Proof.
  rewrite makePostKey_fields. destruct d; [done|]. done.
Qed.

Lemma dispatchReadyKeys_mono rows (acc : gset string) k :
  k ∈ acc →
  k ∈ foldl (λ (acc : gset string) row,
               if bool_decide (row.(DispatchRow.post_key) = "") then acc
               else {[ row.(DispatchRow.post_key) ]} ∪ acc) acc rows.
Proof.
  revert acc. induction rows as [|r rows IH]; intros acc Hk; [done|]. cbn.
  apply IH. case_bool_decide; [done|]. set_solver.
Qed.

Lemma dispatchReadyKeys_intro_from rows (acc : gset string) row :
  row ∈ rows → row.(DispatchRow.post_key) ≠ "" →
  row.(DispatchRow.post_key)
    ∈ foldl (λ (acc : gset string) row,
               if bool_decide (row.(DispatchRow.post_key) = "") then acc
               else {[ row.(DispatchRow.post_key) ]} ∪ acc) acc rows.
Proof.
  revert acc. induction rows as [|r rows IH]; intros acc Hin Hne.
  - by apply elem_of_nil in Hin.
  - cbn. apply elem_of_cons in Hin as [<-|Hin]; [|by apply IH].
    apply dispatchReadyKeys_mono. rewrite bool_decide_eq_false_2 by done. set_solver.
Qed.

(** The key of every selected row that has one is in the ready set. *)
Lemma dispatchReadyKeys_intro rows row :
  row ∈ rows → row.(DispatchRow.post_key) ≠ "" →
  row.(DispatchRow.post_key) ∈ DispatchReady.dispatchReadyKeys rows.
Proof. apply dispatchReadyKeys_intro_from. Qed.

Lemma approvals_of_unique_from rows (acc : gmap string ApprovalRow.t) row :
  row.(ApprovalRow.post_key) ≠ "" →
  (∀ other, other ∈ rows →
            other.(ApprovalRow.post_key) = row.(ApprovalRow.post_key) → other = row) →
  row ∈ rows ∨ acc !! row.(ApprovalRow.post_key) = Some row →
  foldl (λ (acc : gmap string ApprovalRow.t) r,
           if bool_decide (r.(ApprovalRow.post_key) = "") then acc
           else <[ r.(ApprovalRow.post_key) := r ]> acc) acc rows
    !! row.(ApprovalRow.post_key) = Some row.
Proof.
  intros Hne. revert acc. induction rows as [|r rows IH]; intros acc Huniq Hin.
  - destruct Hin as [Hin|?]; [by apply elem_of_nil in Hin | done].
  - cbn. apply IH.
    + intros other Ho. apply Huniq. by right.
    + destruct (decide (r.(ApprovalRow.post_key) = row.(ApprovalRow.post_key)))
        as [Hk|Hk].
      * assert (r = row) as -> by (apply Huniq; [left | done]).
        right. rewrite bool_decide_eq_false_2 by done. apply lookup_insert_eq.
      * destruct Hin as [[->|Hin]%elem_of_cons | Hacc]; [done | by left |].
        right. case_bool_decide; [done|]. by rewrite lookup_insert_ne.
Qed.

(** The only selected record of a key is the one the lookup finds. *)
Lemma approvals_of_unique rows row :
  row ∈ rows → row.(ApprovalRow.post_key) ≠ "" →
  (∀ other, other ∈ rows →
            other.(ApprovalRow.post_key) = row.(ApprovalRow.post_key) → other = row) →
  DispatchReady.approvals_of rows !! row.(ApprovalRow.post_key) = Some row.
Proof. intros Hin Hne Huniq. apply approvals_of_unique_from; auto. Qed.

Lemma items_of_plan_intro readyKeys approvals updatedAt plan day idx p it :
  day ∈ plan.(days) → day.(posts) !! idx = Some p →
  DispatchReady.item_of readyKeys approvals updatedAt day idx p = Some it →
  it ∈ DispatchReady.items_of_plan readyKeys approvals updatedAt plan.
Proof.
  intros Hday Hp Hit. unfold DispatchReady.items_of_plan.
  apply list_elem_of_bind. exists day. split; [|done].
  apply list_elem_of_omap. exists (Some it). split; [|done].
  rewrite <- Hit. by apply elem_of_lookup_imap_2.
Qed.

(** X4.  The converse of the two gates.  A post of the user's latest
    (valid) plan is returned when a dispatch row of the user carries its
    derived key with ready = true and, if the post requires approval, the
    user's only approval record for that key has the status approved.  The
    returned item carries the post's key, date, time, caption and flag, and
    the meta data counts the returned items. *)
Theorem resolver_returns_ready_posts cmp userId u plans plan_dispatch plan_post_approvals
    planRow plan day idx p :
  authenticated userId = Some u →
  DispatchReady.latest_plan u plans = Some planRow →
  isValidPlan planRow.(PlanRow.plan_json) = true →
  asPlan planRow.(PlanRow.plan_json) = Some plan →
  day ∈ plan.(days) → day.(posts) !! idx = Some p →
  (∃ row, row ∈ plan_dispatch ∧ row.(DispatchRow.user_id) = u
      ∧ row.(DispatchRow.post_key) = makePostKey day.(date) p idx
      ∧ row.(DispatchRow.ready) = true) →
  (p.(approval_required) = true →
   ∃ row, row ∈ plan_post_approvals ∧ row.(ApprovalRow.user_id) = u
     ∧ row.(ApprovalRow.post_key) = makePostKey day.(date) p idx
     ∧ row.(ApprovalRow.status) = approved
     ∧ ∀ other, other ∈ plan_post_approvals → other.(ApprovalRow.user_id) = u →
                other.(ApprovalRow.post_key) = makePostKey day.(date) p idx →
                other = row) →
  ∃ items meta it,
    DispatchReady.GET cmp userId plans plan_dispatch plan_post_approvals
      = DispatchReady.Json items meta
    ∧ it ∈ items
    ∧ it.(Item.postKey) = makePostKey day.(date) p idx
    ∧ it.(Item.date) = day.(date)
    ∧ it.(Item.timeLocal) = p.(suggested_time_local)
    ∧ it.(Item.caption) = p.(caption)
    ∧ it.(Item.approvalRequired) = p.(approval_required)
    ∧ meta.(DispatchReady.returnedCount) = Some (length items).
Proof.
  intros Hu Hlatest Hvalid Hplan Hday Hp (drow & Hdin & Hdu & Hdk & Hdr) Happr.
  set (key := makePostKey (date day) p idx) in *.
  set (ready := DispatchReady.dispatchReadyKeys
                  (DispatchReady.select_ready u plan_dispatch)).
  set (approvals := DispatchReady.approvals_of
                      (DispatchReady.select_approvals u plan_post_approvals)).
  set (updatedAt := DispatchReady.dispatchUpdatedAt
                      (DispatchReady.select_ready u plan_dispatch)).
  assert (key ∈ ready) as Hready.
  { unfold ready. rewrite <- Hdk. apply dispatchReadyKeys_intro.
    - by apply list_elem_of_filter.
    - rewrite Hdk. apply makePostKey_nonempty. }
  assert (∃ it, DispatchReady.item_of ready approvals updatedAt day idx p = Some it
                ∧ it.(Item.postKey) = key ∧ it.(Item.date) = day.(date)
                ∧ it.(Item.timeLocal) = p.(suggested_time_local)
                ∧ it.(Item.caption) = p.(caption)
                ∧ it.(Item.approvalRequired) = p.(approval_required))
    as (it & Hit & Hfields).
  { unfold DispatchReady.item_of. cbv zeta. fold key.
    rewrite (bool_decide_eq_true_2 _ Hready). cbn [negb].
    destruct (approval_required p) eqn:Hreq; cbn [andb].
    - destruct (Happr eq_refl) as (arow & Hain & Hau & Hak & Hast & Huniq).
      assert (approvals !! key = Some arow) as ->.
      { unfold approvals. rewrite <- Hak. apply approvals_of_unique.
        - by apply list_elem_of_filter.
        - rewrite Hak. apply makePostKey_nonempty.
        - intros other [Hou Hoin]%list_elem_of_filter Hok.
          apply Huniq; [done | done | by rewrite Hok]. }
      rewrite (bool_decide_eq_true_2 _ Hast). cbn [negb]. eexists. split; [done|].
      done.
    - eexists. split; [done|]. done. }
  unfold DispatchReady.GET. rewrite Hu, Hlatest, Hvalid, Hplan. cbn [negb]. cbv zeta.
  fold ready approvals updatedAt.
  rewrite bool_decide_eq_false_2.
  2:{ intros Hsize. apply size_empty_inv in Hsize. rewrite Hsize in Hready.
      by apply not_elem_of_empty in Hready. }
  eexists _, _, it. split; [reflexivity|]. split.
  - rewrite sort_items_Permutation. by eapply items_of_plan_intro.
  - destruct Hfields as (? & ? & ? & ? & ?). repeat split; done.
Qed.

(** The approved loyalty post of the sample plan is returned. *)
Lemma resolver_returns_ready_posts_witness :
  ∃ items meta it,
    DispatchReady.GET code_unit_compare (Some "user_1") sample_plans sample_dispatch
      sample_approvals = DispatchReady.Json items meta
    ∧ it ∈ items
    ∧ it.(Item.postKey) = key_loyalty
    ∧ it.(Item.date) = "2025-01-06"
    ∧ it.(Item.timeLocal) = "09:00"
    ∧ it.(Item.caption) = "Loyalty card launch"
    ∧ it.(Item.approvalRequired) = true
    ∧ meta.(DispatchReady.returnedCount) = Some (length items).
Proof.
  apply (resolver_returns_ready_posts code_unit_compare (Some "user_1") "user_1"
           sample_plans sample_dispatch sample_approvals
           {| PlanRow.user_id := "user_1"; PlanRow.plan_json := json_of_plan sample_plan;
              PlanRow.model := Some "model-a"; PlanRow.generated_at := 1000 |}
           sample_plan
           {| date := "2025-01-06";
              posts := [sample_post "New year glow" "photo 1" false;
                        sample_post "Loyalty card launch" "photo 2" true;
                        sample_post "Meet the team" "photo 3" false] |}
           1 (sample_post "Loyalty card launch" "photo 2" true)).
  - reflexivity.
  - vm_compute; reflexivity.
  - vm_compute; reflexivity.
  - vm_compute; reflexivity.
  - apply list_elem_of_further, list_elem_of_here.
  - reflexivity.
  - exists (dispatch_row "user_1" key_loyalty true).
    split; [do 2 apply list_elem_of_further; apply list_elem_of_here|].
    repeat split; reflexivity.
  - intros _. exists (approval_row "user_1" key_loyalty approved).
    split; [apply list_elem_of_further, list_elem_of_here|].
    split; [reflexivity|]. split; [reflexivity|]. split; [reflexivity|].
    intros other Hin Hu Hk.
    apply elem_of_cons in Hin as [->|Hin]; [vm_compute in Hk; discriminate Hk|].
    apply elem_of_cons in Hin as [->|Hin]; [reflexivity|].
    apply elem_of_cons in Hin as [->|Hin]; [vm_compute in Hu; discriminate Hu|].
    by apply elem_of_nil in Hin.
Defined.

(** ** The order of the returned items *)

Lemma sort_insert_Sorted cmp x l :
  (∀ a b, cmp a b ≤ 0 ∨ cmp b a ≤ 0) →
  Sorted (λ a b, cmp (DispatchReady.sort_key a) (DispatchReady.sort_key b) ≤ 0) l →
  Sorted (λ a b, cmp (DispatchReady.sort_key a) (DispatchReady.sort_key b) ≤ 0)
    (DispatchReady.sort_insert cmp x l).
Proof.
  intros Htotal. induction 1 as [|y l Hl IH Hhd]; cbn.
  - repeat constructor.
  - destruct (Z.leb_spec (cmp (DispatchReady.sort_key x) (DispatchReady.sort_key y)) 0)
      as [Hle|Hgt].
    + constructor; [by constructor|]. by constructor.
    + constructor; [done|].
      destruct Hhd as [|z l Hyz]; cbn.
      * constructor. destruct (Htotal (DispatchReady.sort_key x) (DispatchReady.sort_key y));
          [lia | done].
      * case_match; constructor; [|done].
        destruct (Htotal (DispatchReady.sort_key x) (DispatchReady.sort_key y));
          [lia | done].
Qed.

Lemma sort_items_Sorted cmp l :
  (∀ a b, cmp a b ≤ 0 ∨ cmp b a ≤ 0) →
  Sorted (λ a b, cmp (DispatchReady.sort_key a) (DispatchReady.sort_key b) ≤ 0)
    (DispatchReady.sort_items cmp l).
Proof.
  intros Htotal. induction l as [|x l IH]; cbn; [constructor|].
  by apply sort_insert_Sorted.
Qed.

(** X5.  When [localeCompare] is total (of two strings, one is not after
    the other), the items of every answer are in ascending order of the
    text "date time": each item is not after its successor. *)
Theorem resolver_items_sorted cmp userId plans plan_dispatch plan_post_approvals
    items meta :
  (∀ a b, cmp a b ≤ 0 ∨ cmp b a ≤ 0) →
  DispatchReady.GET cmp userId plans plan_dispatch plan_post_approvals
    = DispatchReady.Json items meta →
  Sorted (λ a b, cmp (a.(Item.date) +:+ " " +:+ a.(Item.timeLocal))
                     (b.(Item.date) +:+ " " +:+ b.(Item.timeLocal)) ≤ 0) items.
Proof.
  intros Htotal. unfold DispatchReady.GET.
  destruct (authenticated userId) as [u|]; [|done].
  destruct (DispatchReady.latest_plan u plans) as [planRow|];
    [|intros [= <- _]; constructor].
  destruct (isValidPlan _); [|done]. cbn [negb].
  destruct (asPlan _) as [plan|]; [|done]. cbv zeta.
  case_bool_decide; [intros [= <- _]; constructor|].
  intros [= <- _]. by apply (sort_items_Sorted cmp).
Qed.

Lemma code_unit_compare_total a b :
  code_unit_compare a b ≤ 0 ∨ code_unit_compare b a ≤ 0.
Proof.
  unfold code_unit_compare. rewrite (String.compare_antisym a b).
  destruct (String.compare b a); cbn; lia.
Qed.

Lemma resolver_items_sorted_witness :
  DispatchReady.GET code_unit_compare (Some "user_1") sample_plans sample_dispatch
    sample_approvals = DispatchReady.Json sample_items sample_meta
  ∧ Sorted (λ a b, code_unit_compare (a.(Item.date) +:+ " " +:+ a.(Item.timeLocal))
                     (b.(Item.date) +:+ " " +:+ b.(Item.timeLocal)) ≤ 0) sample_items.
Proof.
  split; [vm_compute; reflexivity|].
  apply (resolver_items_sorted code_unit_compare (Some "user_1") sample_plans
           sample_dispatch sample_approvals sample_items sample_meta).
  - exact code_unit_compare_total.
  - vm_compute; reflexivity.
Defined.

(** ** What a validated plan is *)

Lemma prop_Some_is_object k j v : prop k j = Some v → is_object j = true.
Proof. by destruct j. Qed.

Lemma asSource_valid v x :
  asSource v = Some x → is_str "priority" v || is_str "scheduled" v = true.
Proof. unfold asSource. repeat case_match; try done; intros _; by rewrite ?orb_true_r. Qed.

Lemma asPlatform_valid v x :
  asPlatform v = Some x → is_str "instagram" v || is_str "facebook" v = true.
Proof. unfold asPlatform. repeat case_match; try done; intros _; by rewrite ?orb_true_r. Qed.

Lemma asFormat_valid v x :
  asFormat v = Some x →
  is_str "post" v || is_str "reel" v || is_str "story" v = true.
Proof. unfold asFormat. repeat case_match; try done; intros _; by rewrite ?orb_true_r. Qed.

Lemma as_str_Some v s : as_str v = Some s → v = Some (JStr s).
Proof. destruct v as [[]|]; cbn; intros; by simplify_eq. Qed.

Lemma as_array_Some v l : as_array v = Some l → v = Some (JArr l).
Proof. destruct v as [[]|]; cbn; intros; by simplify_eq. Qed.

Lemma mapM_forallb {A B} (f : A → option B) (g : B → bool) (h : A → bool) l k :
  (∀ x y, f x = Some y → g y = true → h x = true) →
  mapM f l = Some k → forallb g k = true → forallb h l = true.
Proof.
  intros Hfgh Hm. apply mapM_Some in Hm.
  induction Hm as [|x y l k Hxy _ IH]; [done|]. cbn.
  intros [Hy Hk]%andb_true_iff. apply andb_true_iff. eauto.
Qed.

Lemma forallb_mapM_shape {A B} (f : A → option B) (g : B → bool) (h : A → bool) l :
  (∀ x, h x = true → ∃ y, f x = Some y ∧ g y = true) →
  forallb h l = true → ∃ k, mapM f l = Some k ∧ forallb g k = true.
Proof.
  intros Hh. induction l as [|x l IH]; cbn; [by exists []|].
  intros [(y & Hy & Hg)%Hh (k & Hk & Hgk)%IH]%andb_true_iff.
  exists (y :: k). rewrite Hy. cbn. rewrite Hk. cbn. by rewrite Hg, Hgk.
Qed.

Lemma isValidPost_iff j :
  isValidPost j = true ↔ ∃ p, asPost j = Some p ∧ shaped_post p = true.
Proof.
  split.
  - intros Hvalid. destruct (isValidPost_asPost j Hvalid) as [p Hp]. exists p.
    split; [done|]. unfold isValidPost in Hvalid.
    rewrite !andb_true_iff in Hvalid.
    destruct Hvalid as (((((((((_ & _) & _) & _) & Ht) & _) & _) & _) & _) & _).
    apply str_with_as_str in Ht as (t & Ht & Hshape).
    unfold asPost in Hp. rewrite Ht in Hp. unfold shaped_post.
    repeat (match type of Hp with
            | (?m ≫= _) = Some _ => destruct m; [cbn in Hp | done]
            end).
    by injection Hp as <-.
  - intros (p & Hp & Hshape). unfold asPost in Hp.
    destruct (asSource _) as [src|] eqn:Hsrc; [|done].
    destruct (asPlatform _) as [plat|] eqn:Hplat; [|done].
    destruct (asFormat _) as [fmt|] eqn:Hfmt; [|done].
    destruct (as_str (prop "suggested_time_local" j)) as [t|] eqn:Ht; [|done].
    destruct (as_str (prop "caption" j)) as [c|] eqn:Hc; [|done].
    destruct (as_array (prop "hashtags" j)) as [tags|] eqn:Htags; [|done].
    cbn -[mapM as_str] in Hp.
    destruct (mapM _ tags) as [ts|] eqn:Hts; [|done].
    destruct (as_str (prop "media_instructions" j)) as [m|] eqn:Hm; [|done].
    destruct (as_bool (prop "approval_required" j)) as [r|] eqn:Hr; [|done].
    destruct (as_str (prop "approval_reason" j)) as [a|] eqn:Ha; [|done].
    cbn in Hp. injection Hp as <-. unfold shaped_post in Hshape.
    cbn [suggested_time_local] in Hshape.
    unfold isValidPost.
    rewrite (asSource_valid _ _ Hsrc), (asPlatform_valid _ _ Hplat),
      (asFormat_valid _ _ Hfmt).
    apply as_str_Some in Ht. rewrite (prop_Some_is_object _ _ _ Ht), Ht.
    cbn [str_with andb]. rewrite Hshape. cbn [andb].
    rewrite !bool_decide_eq_true_2 by eauto. cbn [andb]. rewrite Htags, !andb_true_r.
    apply (mapM_forallb (λ t, as_str (Some t)) (λ _, true) _ tags ts);
      [| done | by apply forallb_forall].
    intros x y Hx _. apply bool_decide_eq_true. eauto.
Qed.

Lemma isValidDay_iff j :
  isValidDay j = true ↔ ∃ d, asDay j = Some d ∧ shaped_day d = true.
Proof.
  unfold isValidDay, asDay, shaped_day. split.
  - rewrite !andb_true_iff. intros ((_ & Hd) & Hp).
    apply str_with_as_str in Hd as (d & -> & Hshape).
    destruct (as_array (prop "posts" j)) as [ps|]; [|done].
    destruct (forallb_mapM_shape asPost shaped_post isValidPost ps
                (λ x, proj1 (isValidPost_iff x)) Hp) as (k & Hk & Hgk).
    exists {| date := d; posts := k |}. split.
    { cbn -[mapM]. by rewrite Hk. }
    cbn [date posts]. by rewrite Hshape, Hgk.
  - intros (d & Hd & Hshape).
    destruct (as_str (prop "date" j)) as [t|] eqn:Ht; [|done].
    destruct (as_array (prop "posts" j)) as [ps|] eqn:Hps; [|done].
    cbn -[mapM] in Hd. destruct (mapM asPost ps) as [k|] eqn:Hk; [|done].
    cbn in Hd. injection Hd as <-. cbn [date posts] in Hshape.
    apply andb_true_iff in Hshape as [Hdate Hposts].
    apply as_str_Some in Ht. rewrite (prop_Some_is_object _ _ _ Ht), Ht.
    cbn [str_with andb]. rewrite Hdate. cbn [andb].
    apply (mapM_forallb asPost shaped_post _ ps k); [|done..].
    intros x y Hx Hy. apply isValidPost_iff. eauto.
Qed.

(** X6.  [isValidPlan] accepts a document exactly when it reads as a typed
    plan whose horizon dates and day dates have the shape dddd-dd-dd and
    whose suggested times are 24-hour HH:MM: all the other requirements
    are those of the types (closed enumerations, strings, a list of string
    hashtags, a boolean flag). *)
Theorem isValidPlan_iff j :
  isValidPlan j = true ↔ ∃ p, asPlan j = Some p ∧ shaped_plan p = true.
Proof.
  unfold isValidPlan, asPlan, shaped_plan. split.
  - rewrite !andb_true_iff. intros (((_ & Hs) & He) & Hd).
    apply str_with_as_str in Hs as (s & -> & Hss).
    apply str_with_as_str in He as (e & -> & Hse).
    destruct (as_array (prop "days" j)) as [ds|]; [|done].
    destruct (forallb_mapM_shape asDay shaped_day isValidDay ds
                (λ x, proj1 (isValidDay_iff x)) Hd) as (k & Hk & Hgk).
    exists {| horizon_start_date := s; horizon_end_date := e; days := k |}. split.
    { cbn -[mapM]. by rewrite Hk. }
    cbn [horizon_start_date horizon_end_date days]. by rewrite Hss, Hse, Hgk.
  - intros (p & Hp & Hshape).
    destruct (as_str (prop "horizon_start_date" j)) as [s|] eqn:Hs; [|done].
    destruct (as_str (prop "horizon_end_date" j)) as [e|] eqn:He; [|done].
    destruct (as_array (prop "days" j)) as [ds|] eqn:Hds; [|done].
    cbn -[mapM] in Hp. destruct (mapM asDay ds) as [k|] eqn:Hk; [|done].
    cbn in Hp. injection Hp as <-.
    cbn [horizon_start_date horizon_end_date days] in Hshape.
    rewrite !andb_true_iff in Hshape. destruct Hshape as ((Hss & Hse) & Hdays).
    apply as_str_Some in Hs, He.
    rewrite (prop_Some_is_object _ _ _ Hs), Hs, He.
    cbn [str_with andb]. rewrite Hss, Hse. cbn [andb].
    apply (mapM_forallb asDay shaped_day _ ds k); [|done..].
    intros x y Hx Hy. apply isValidDay_iff. eauto.
Qed.

(** ** Consuming the due review jobs *)

Lemma mark_sent_map now id jobs :
  ReviewJobs.mark_sent now id jobs
  = map (λ j, if bool_decide (j.(ReviewJobRow.id) = id) then as_sent now j else j) jobs.
Proof. reflexivity. Qed.

Lemma foldl_mark_sent now (ids0 : list positive) fetched jobs :
  foldl (λ table j, ReviewJobs.mark_sent now j.(ReviewJobRow.id) table)
    (map (λ j, if bool_decide (j.(ReviewJobRow.id) ∈ ids0) then as_sent now j else j) jobs)
    fetched
  = map (λ j, if bool_decide (j.(ReviewJobRow.id) ∈ ids0 ++ map ReviewJobRow.id fetched)
              then as_sent now j else j) jobs.
Proof.
  revert ids0. induction fetched as [|x fetched IH]; intros ids0; cbn [foldl map].
  - by rewrite app_nil_r.
  - rewrite mark_sent_map, map_map.
    rewrite (map_ext _ (λ j, if bool_decide (j.(ReviewJobRow.id)
                                              ∈ (ids0 ++ [x.(ReviewJobRow.id)]))
                             then as_sent now j else j)).
    + rewrite IH. by rewrite <- app_assoc.
    + intros j. destruct (decide (ReviewJobRow.id j ∈ ids0)) as [Hin|Hin].
      * rewrite (bool_decide_eq_true_2 _ Hin).
        rewrite (bool_decide_eq_true_2 (_ ∈ ids0 ++ _)) by (apply elem_of_app; auto).
        by case_bool_decide.
      * rewrite (bool_decide_eq_false_2 _ Hin).
        destruct (decide (ReviewJobRow.id j = ReviewJobRow.id x)) as [Heq|Hne].
        -- rewrite (bool_decide_eq_true_2 _ Heq).
           rewrite bool_decide_eq_true_2; [done|].
           apply elem_of_app. right. rewrite Heq. left.
        -- rewrite (bool_decide_eq_false_2 _ Hne).
           rewrite bool_decide_eq_false_2; [done|].
           intros [?|?%list_elem_of_singleton]%elem_of_app; done.
Qed.

(** The table after the consume handler, row by row. *)
Lemma POST_consumed now jobs :
  (ReviewJobs.POST None now jobs).2
  = map (λ j, if bool_decide (j.(ReviewJobRow.id)
                               ∈ map ReviewJobRow.id (ReviewJobs.fetchDueJobs now 25 jobs))
              then as_sent now j else j) jobs.
Proof.
  cbn. etrans; [|exact (foldl_mark_sent now [] _ jobs)]. f_equal.
  rewrite <- (map_id jobs) at 1. apply map_ext. intros j.
  rewrite bool_decide_eq_false_2; [done | apply not_elem_of_nil].
Qed.

Lemma fetchDueJobs_due now limit jobs j :
  j ∈ ReviewJobs.fetchDueJobs now limit jobs → j ∈ jobs ∧ ReviewJobs.due now j.
Proof.
  unfold ReviewJobs.fetchDueJobs. intros Hj%subseteq_take.
  rewrite merge_sort_Permutation in Hj. by apply list_elem_of_filter in Hj as [? ?].
Qed.

Lemma fetchDueJobs_all now limit jobs j :
  (length (filter (ReviewJobs.due now) jobs) ≤ limit)%nat →
  j ∈ jobs → ReviewJobs.due now j → j ∈ ReviewJobs.fetchDueJobs now limit jobs.
Proof.
  intros Hfit Hj Hdue. unfold ReviewJobs.fetchDueJobs.
  rewrite take_ge by (by rewrite merge_sort_Permutation).
  rewrite merge_sort_Permutation. by apply list_elem_of_filter.
Qed.

Lemma filter_none {A} (P : A → Prop) `{!∀ x, Decision (P x)} (l : list A) :
  (∀ x, x ∈ l → ¬ P x) → filter P l = [].
Proof.
  induction l as [|x l IH]; [done|]. intros Hnone. rewrite filter_cons.
  rewrite decide_False by (apply Hnone; left). apply IH.
  intros y Hy. apply Hnone. by right.
Qed.

(** X7.  The consume handler answers with the due jobs it fetched (at most
    25) and rewrites the table in place: a job whose id is among the
    fetched ones gets status sent, sent_at = now and no error; every other
    job is left as it is; no job is added, removed or rescheduled.  The
    fetched jobs are never fetched again, and when the due jobs fit the
    limit nothing is due at [now] afterwards. *)
Theorem consume_marks_sent now jobs :
  (ReviewJobs.POST None now jobs).1
  = ReviewJobs.Sent (length (ReviewJobs.fetchDueJobs now 25 jobs))
      (ReviewJobs.fetchDueJobs now 25 jobs)
  ∧ length (ReviewJobs.POST None now jobs).2 = length jobs
  ∧ (∀ i j, jobs !! i = Some j →
       ∃ j', (ReviewJobs.POST None now jobs).2 !! i = Some j'
         ∧ j'.(ReviewJobRow.id) = j.(ReviewJobRow.id)
         ∧ j'.(ReviewJobRow.scheduled_for) = j.(ReviewJobRow.scheduled_for)
         ∧ j'.(ReviewJobRow.message) = j.(ReviewJobRow.message)
         ∧ j'.(ReviewJobRow.to_email) = j.(ReviewJobRow.to_email)
         ∧ j'.(ReviewJobRow.to_phone) = j.(ReviewJobRow.to_phone)
         ∧ (j.(ReviewJobRow.id)
              ∈ map ReviewJobRow.id (ReviewJobs.fetchDueJobs now 25 jobs) →
            j'.(ReviewJobRow.status) = sent ∧ j'.(ReviewJobRow.sent_at) = Some now
            ∧ j'.(ReviewJobRow.error) = None)
         ∧ (j.(ReviewJobRow.id)
              ∉ map ReviewJobRow.id (ReviewJobs.fetchDueJobs now 25 jobs) →
            j' = j))
  ∧ (∀ now2 limit j',
       j' ∈ ReviewJobs.fetchDueJobs now2 limit (ReviewJobs.POST None now jobs).2 →
       j'.(ReviewJobRow.id) ∉ map ReviewJobRow.id (ReviewJobs.fetchDueJobs now 25 jobs))
  ∧ ((length (filter (ReviewJobs.due now) jobs) ≤ 25)%nat →
     ReviewJobs.fetchDueJobs now 25 (ReviewJobs.POST None now jobs).2 = []).
Proof.
  rewrite POST_consumed.
  set (fetched := ReviewJobs.fetchDueJobs now 25 jobs).
  set (ids := map ReviewJobRow.id fetched).
  set (f := λ j : ReviewJobRow.t,
              if bool_decide (ReviewJobRow.id j ∈ ids) then as_sent now j else j).
  assert (∀ j', j' ∈ map f jobs → ReviewJobRow.id j' ∈ ids →
                ReviewJobRow.status j' = sent) as Hsent.
  { intros j' (j & -> & Hj)%list_elem_of_fmap. unfold f.
    case_bool_decide; [done|]. done. }
  split; [done|]. split; [by rewrite length_map|]. split; [|split].
  - intros i j Hi. exists (f j). split.
    { change (map f jobs) with (f <$> jobs). by rewrite list_lookup_fmap, Hi. }
    unfold f. case_bool_decide; repeat split; try done.
  - intros now2 limit j' Hj' Hid.
    destruct (fetchDueJobs_due _ _ _ _ Hj') as (Hin & Hst & _).
    rewrite (Hsent j' Hin Hid) in Hst. done.
  - intros Hfit. unfold ReviewJobs.fetchDueJobs.
    assert (filter (ReviewJobs.due now) (map f jobs) = []) as ->; [|done].
    apply filter_none.
    intros j' Hj' [Hst Hle].
    apply list_elem_of_fmap in Hj' as (j & -> & Hj).
    unfold f in Hst, Hle. case_bool_decide as Hid; [done|].
    apply Hid. apply list_elem_of_fmap. exists j. split; [done|].
    by apply fetchDueJobs_all.
Qed.

Example consume_example :
  ReviewJobRow.status <$>
    (ReviewJobs.POST None 100
       [ sample_job 1 90 queued; sample_job 2 101 queued; sample_job 3 10 failed ]).2
  = [sent; queued; failed].
Proof. vm_compute. reflexivity. Qed.

(** ** What the webhook writes *)

Section Webhook_writes.

Variable JSON_parse : string → option json.
Variable Date_parse : string → option Z.
Variable several_rows_message null_property_message : string.

Local Abbreviation POST :=
  (Webhook.POST JSON_parse Date_parse several_rows_message null_property_message).



End Webhook_writes.


(** ** What the review-settings endpoint stores *)

Lemma ReviewSettings_upsert_other row table u :
  u ≠ row.(ReviewSettingsRow.user_id) →
  ReviewSettings.stored u (ReviewSettings.upsert row table)
  = ReviewSettings.stored u table.
Proof.
  intros Hne. unfold ReviewSettings.stored. induction table as [|x table IH]; cbn.
  - by rewrite decide_False.
  - case_bool_decide as Hx; rewrite !filter_cons.
    + rewrite !decide_False by congruence. done.
    + destruct (decide (ReviewSettingsRow.user_id x = u)); [done|]. exact IH.
Qed.

Lemma ReviewSettings_upsert_users row table :
  ReviewSettingsRow.user_id <$> ReviewSettings.upsert row table
  = if bool_decide (row.(ReviewSettingsRow.user_id) ∈ ReviewSettingsRow.user_id <$> table)
    then ReviewSettingsRow.user_id <$> table
    else (ReviewSettingsRow.user_id <$> table) ++ [row.(ReviewSettingsRow.user_id)].
Proof.
  induction table as [|x table IH]; [done|]. cbn [ReviewSettings.upsert].
  destruct (decide (ReviewSettingsRow.user_id x = ReviewSettingsRow.user_id row))
    as [Hx|Hx].
  - rewrite (bool_decide_eq_true_2 (_ = _)) by done.
    rewrite bool_decide_eq_true_2; [by rewrite !fmap_cons, Hx|].
    rewrite fmap_cons, Hx. left.
  - rewrite (bool_decide_eq_false_2 (_ = _)) by done. rewrite !fmap_cons, IH.
    destruct (decide (ReviewSettingsRow.user_id row ∈ ReviewSettingsRow.user_id <$> table))
      as [Hin|Hin].
    + rewrite !bool_decide_eq_true_2; [done | by right | done].
    + rewrite !bool_decide_eq_false_2; [done | | done].
      intros [?|?]%elem_of_cons; [congruence | done].
Qed.

Lemma ReviewSettings_POST_inv isValidHttpUrl userId body now table table' :
  ReviewSettings.POST isValidHttpUrl userId body now table = (ReviewSettings.Ok, table') →
  ∃ u b,
    authenticated userId = Some u ∧ body = Some b
    ∧ from_option Js.trim "" (as_str (prop "reviewUrl" b)) ≠ ""
    ∧ isValidHttpUrl (from_option Js.trim "" (as_str (prop "reviewUrl" b))) = true
    ∧ (10 ≤ String.length (normalizeSpaces (default "" (as_str (prop "template" b)))))%nat
    ∧ table' = ReviewSettings.upsert
        {| ReviewSettingsRow.user_id := u;
           ReviewSettingsRow.review_url :=
             from_option Js.trim "" (as_str (prop "reviewUrl" b));
           ReviewSettingsRow.send_delay_minutes :=
             ReviewSettings.sendDelayMinutes (prop "sendDelayMinutes" b);
           ReviewSettingsRow.channel :=
             if is_str "sms" (prop "channel" b) then sms else email;
           ReviewSettingsRow.template :=
             normalizeSpaces (default "" (as_str (prop "template" b)));
           ReviewSettingsRow.updated_at := now |} table.
Proof.
  unfold ReviewSettings.POST.
  destruct (authenticated userId) as [u|]; [|done].
  destruct body as [b|]; [|done].
  destruct (is_object b); [|done]. cbn [negb]. cbv zeta.
  case_bool_decide as Hurl; [done|]. cbn [orb].
  destruct (isValidHttpUrl _) eqn:Hvalid; [|done]. cbn [negb].
  case_bool_decide as Hlen; [done|].
  intros [= <-]. exists u, b. repeat split; try done. lia.
Qed.


(** X10.  A successful review-settings save stores, for the user, a row
    whose review link is the trimmed submitted link (not empty, accepted by
    the URL check), whose template is the normalized submitted template (no
    white space other than single spaces between words) of at least 10
    characters, and whose channel is sms only when the body says "sms".
    The rows of other users are not changed, and a table with one row per
    user keeps one row per user. *)
Theorem settings_save_row isValidHttpUrl userId body now table table' :
  ReviewSettings.POST isValidHttpUrl userId body now table = (ReviewSettings.Ok, table') →
  ∃ u b row,
    authenticated userId = Some u ∧ body = Some b
    ∧ ReviewSettings.stored u table' = Some row
    ∧ row.(ReviewSettingsRow.review_url) ≠ ""
    ∧ Js.trim row.(ReviewSettingsRow.review_url) = row.(ReviewSettingsRow.review_url)
    ∧ as_str (prop "reviewUrl" b) = Some (default "" (as_str (prop "reviewUrl" b)))
    ∧ row.(ReviewSettingsRow.review_url)
      = Js.trim (default "" (as_str (prop "reviewUrl" b)))
    ∧ isValidHttpUrl row.(ReviewSettingsRow.review_url) = true
    ∧ row.(ReviewSettingsRow.template)
      = normalizeSpaces (default "" (as_str (prop "template" b)))
    ∧ Js.tidy row.(ReviewSettingsRow.template) = true
    ∧ (10 ≤ String.length row.(ReviewSettingsRow.template))%nat
    ∧ (row.(ReviewSettingsRow.channel) = sms ↔ prop "channel" b = Some (JStr "sms"))
    ∧ row.(ReviewSettingsRow.updated_at) = now
    ∧ (∀ other, other ≠ u →
         ReviewSettings.stored other table' = ReviewSettings.stored other table)
    ∧ (NoDup (ReviewSettingsRow.user_id <$> table) →
       NoDup (ReviewSettingsRow.user_id <$> table')).
Proof.
  intros (u & b & Hu & Hb & Hurl & Hvalid & Hlen & ->)%ReviewSettings_POST_inv.
  eexists u, b, _. split; [done|]. split; [done|]. split.
  { apply (ReviewSettings_upsert_stored {| ReviewSettingsRow.user_id := u |}). }
  cbn [ReviewSettingsRow.review_url ReviewSettingsRow.template
       ReviewSettingsRow.channel ReviewSettingsRow.updated_at].
  destruct (as_str (prop "reviewUrl" b)) as [url|] eqn:Hraw; [|done].
  cbn [from_option default] in *.
  repeat split; try done.
  - apply trim_trim.
  - apply tidy_normalizeSpaces.
  - destruct (is_str "sms" (prop "channel" b)) eqn:Hch; [|done].
    intros _. apply is_str_as_str in Hch. by apply as_str_Some in Hch.
  - intros Hch. by rewrite Hch.
  - intros other Hne. by apply ReviewSettings_upsert_other.
  - intros Hnd. rewrite ReviewSettings_upsert_users. case_bool_decide; [done|].
    apply NoDup_app. split; [done|]. split; [|apply NoDup_singleton].
    intros k Hk ->%list_elem_of_singleton. done.
Qed.

Lemma settings_save_row_witness :
  ReviewSettings.POST any_url (Some "user_1")
    (Some (settings_body (Some (JNum (Finite (inject_Z 90)))))) 7000 []
  = (ReviewSettings.Ok,
     [ {| ReviewSettingsRow.user_id := "user_1";
          ReviewSettingsRow.review_url := "https://g.page/r/salon/review";
          ReviewSettingsRow.send_delay_minutes := 90;
          ReviewSettingsRow.channel := email;
          ReviewSettingsRow.template := "Thanks for visiting! Leave a review: {review_url}";
          ReviewSettingsRow.updated_at := 7000 |} ])
  ∧ ∃ u row,
      ReviewSettings.stored u
        [ {| ReviewSettingsRow.user_id := "user_1";
             ReviewSettingsRow.review_url := "https://g.page/r/salon/review";
             ReviewSettingsRow.send_delay_minutes := 90;
             ReviewSettingsRow.channel := email;
             ReviewSettingsRow.template :=
               "Thanks for visiting! Leave a review: {review_url}";
             ReviewSettingsRow.updated_at := 7000 |} ] = Some row
      ∧ Js.tidy row.(ReviewSettingsRow.template) = true
      ∧ (10 ≤ String.length row.(ReviewSettingsRow.template))%nat.
Proof.
  split; [vm_compute; reflexivity|].
  destruct (settings_save_row any_url (Some "user_1")
              (Some (settings_body (Some (JNum (Finite (inject_Z 90)))))) 7000 []
              [ {| ReviewSettingsRow.user_id := "user_1";
                   ReviewSettingsRow.review_url := "https://g.page/r/salon/review";
                   ReviewSettingsRow.send_delay_minutes := 90;
                   ReviewSettingsRow.channel := email;
                   ReviewSettingsRow.template :=
                     "Thanks for visiting! Leave a review: {review_url}";
                   ReviewSettingsRow.updated_at := 7000 |} ])
    as (u & b & row & _ & _ & Hst & _ & _ & _ & _ & _ & _ & Htidy & Hlen & _);
    [vm_compute; reflexivity|].
  exists u, row. split; [exact Hst|]. split; [exact Htidy | exact Hlen].
Defined.

(** ** From the saved settings to the scheduled job *)




Section Settings_to_webhook.

Variable JSON_parse : string → option json.
Variable Date_parse : string → option Z.
Variable several_rows_message null_property_message : string.

Local Abbreviation POST :=
  (Webhook.POST JSON_parse Date_parse several_rows_message null_property_message).


End Settings_to_webhook.


(** ** The plan store *)

Lemma latest_plan_strictly_newest userId plans row :
  row ∈ plans → row.(PlanRow.user_id) = userId →
  (∀ other, other ∈ plans → other.(PlanRow.user_id) = userId →
     other = row ∨ other.(PlanRow.generated_at) < row.(PlanRow.generated_at)) →
  DispatchReady.latest_plan userId plans = Some row.
Proof.
  intros Hin Hu Hnewest. unfold DispatchReady.latest_plan.
  set (mine := filter (λ r, PlanRow.user_id r = userId) plans).
  pose proof (merge_sort_Permutation DispatchReady.newer_first mine) as Hperm.
  pose proof (StronglySorted_merge_sort DispatchReady.newer_first mine) as Hsorted.
  assert (row ∈ merge_sort DispatchReady.newer_first mine) as Hrow.
  { rewrite Hperm. by apply list_elem_of_filter. }
  destruct (merge_sort DispatchReady.newer_first mine) as [|h rest];
    [by apply elem_of_nil in Hrow|].
  cbn. f_equal.
  assert (h ∈ mine) as [Hhu Hhin]%list_elem_of_filter by (rewrite <- Hperm; left).
  destruct (Hnewest h Hhin Hhu) as [->|Hlt]; [done|].
  apply elem_of_cons in Hrow as [->|Hrest]; [done|].
  apply StronglySorted_inv in Hsorted as [_ Hall].
  rewrite Forall_forall in Hall. specialize (Hall row Hrest).
  unfold DispatchReady.newer_first in Hall. lia.
Qed.

Lemma PlanStore_POST_inv Date_parse userId body now plans r plans' :
  PlanStore.POST Date_parse userId body now plans = (r, plans') →
  (∃ m s, r = PlanStore.JsonError m s ∧ plans' = plans)
  ∨ (∃ u b plan,
       authenticated userId = Some u ∧ body = Some b
       ∧ prop "plan" b = Some plan ∧ isValidPlan plan = true
       ∧ r = PlanStore.Stored (PlanStore.generatedAt_of Date_parse b now)
       ∧ plans' = plans ++
           [ {| PlanRow.user_id := u; PlanRow.plan_json := plan;
                PlanRow.model := PlanStore.model_of b;
                PlanRow.generated_at := PlanStore.generatedAt_of Date_parse b now |} ]).
Proof.
  unfold PlanStore.POST.
  destruct (authenticated userId) as [u|]; [|intros [= <- <-]; left; eauto].
  destruct body as [b|]; [|intros [= <- <-]; left; eauto].
  destruct (is_object b); [|intros [= <- <-]; left; eauto]. cbn [negb].
  destruct (prop "plan" b) as [plan|] eqn:Hplan; [|intros [= <- <-]; left; eauto].
  destruct (isValidPlan plan) eqn:Hvalid; [|intros [= <- <-]; left; eauto].
  cbn [negb]. cbv zeta. intros [= <- <-]. right. exists u, b, plan. done.
Qed.

Lemma PlanStore_written_valid plans :
  PlanStore.written plans →
  Forall (λ row, isValidPlan row.(PlanRow.plan_json) = true) plans.
Proof.
  induction 1 as [|Date_parse userId body now plans r plans' _ IH HPOST]; [constructor|].
  apply PlanStore_POST_inv in HPOST
    as [(m & s & _ & ->) | (u & b & plan & _ & _ & _ & Hvalid & _ & ->)]; [done|].
  apply Forall_app. split; [done|]. by constructor.
Qed.

(** X12.  A stored plan can be read back: when the plan-store POST answers
    ok, the body carried a plan that passes isValidPlan, exactly one row
    was appended for the user holding that plan unchanged, the trimmed
    model name (or none) and the answered instant, which is the parsed
    meta.generatedAt when that is a non-blank string that parses and the
    clock reading otherwise.  If the instant is later than that of every
    plan the user had stored, the plan-store GET and the resolver both read
    this very plan next. *)
Theorem plan_store_round_trip Date_parse userId body now plans g plans' :
  PlanStore.POST Date_parse userId body now plans = (PlanStore.Stored g, plans') →
  ∃ u b plan row,
    authenticated userId = Some u ∧ body = Some b
    ∧ prop "plan" b = Some plan ∧ isValidPlan plan = true
    ∧ plans' = plans ++ [row]
    ∧ row.(PlanRow.user_id) = u ∧ row.(PlanRow.plan_json) = plan
    ∧ row.(PlanRow.generated_at) = g
    ∧ match row.(PlanRow.model) with
      | Some m => m ≠ "" ∧ ∃ raw, prop "meta" b ≫= prop "model" = Some (JStr raw)
                              ∧ m = Js.trim raw
      | None => True
      end
    ∧ match as_str (prop "meta" b ≫= prop "generatedAt") with
      | Some s => if bool_decide (Js.trim s = "") then g = now
                  else g = default now (Date_parse s)
      | None => g = now
      end
    ∧ ((∀ other, other ∈ plans → other.(PlanRow.user_id) = u →
          other.(PlanRow.generated_at) < g) →
       PlanStore.GET userId plans' = PlanStore.PlanJson plan row.(PlanRow.model) g
       ∧ DispatchReady.latest_plan u plans' = Some row).
Proof.
  intros [(m & s & ? & _) | (u & b & plan & Hu & Hb & Hplan & Hvalid & [= ->] & ->)]
    %PlanStore_POST_inv; [done|].
  eexists u, b, plan, _. split; [done|]. split; [done|]. split; [done|].
  split; [done|]. split; [reflexivity|]. cbn [PlanRow.user_id PlanRow.plan_json
    PlanRow.generated_at PlanRow.model].
  split; [done|]. split; [done|]. split; [done|]. split; [|split].
  - unfold PlanStore.model_of, PlanStore.meta.
    destruct (prop "meta" b ≫= prop "model") as [[| | |raw| |]|] eqn:Hraw; try done.
    cbn [as_str]. case_bool_decide as Hlen; [done|]. split.
    + intros E. by rewrite E in Hlen.
    + by exists raw.
  - unfold PlanStore.generatedAt_of, PlanStore.meta, PlanStore.isIsoDate.
    destruct (as_str (prop "meta" b ≫= prop "generatedAt")) as [s|]; [|done].
    destruct (decide (Js.trim s = "")) as [E|E].
    + rewrite E. cbn. done.
    + rewrite (bool_decide_eq_false_2 (Js.trim s = "")) by done.
      rewrite bool_decide_eq_false_2.
      * by destruct (Date_parse s).
      * intros Hlen. by apply length_zero_empty in Hlen.
  - intros Hnewest.
    assert (DispatchReady.latest_plan u
              (plans ++ [ {| PlanRow.user_id := u; PlanRow.plan_json := plan;
                  PlanRow.model := PlanStore.model_of b;
                  PlanRow.generated_at := PlanStore.generatedAt_of Date_parse b now |} ])
            = Some {| PlanRow.user_id := u; PlanRow.plan_json := plan;
                  PlanRow.model := PlanStore.model_of b;
                  PlanRow.generated_at := PlanStore.generatedAt_of Date_parse b now |})
      as Hlatest.
    { apply latest_plan_strictly_newest.
      - apply elem_of_app. right. left.
      - done.
      - intros other [Hold| ->%list_elem_of_singleton]%elem_of_app Hou; [|by left].
        right. by apply Hnewest. }
    split; [|done]. unfold PlanStore.GET. by rewrite Hu, Hlatest.
Qed.

Lemma plan_store_round_trip_witness :
  PlanStore.POST sample_Date_parse (Some "user_1")
    (Some (store_body "2025-01-05T10:00:00.000Z")) 900 []
  = (PlanStore.Stored 1736071200000,
     [ {| PlanRow.user_id := "user_1"; PlanRow.plan_json := json_of_plan sample_plan;
          PlanRow.model := Some "model-a"; PlanRow.generated_at := 1736071200000 |} ])
  ∧ PlanStore.GET (Some "user_1")
      [ {| PlanRow.user_id := "user_1"; PlanRow.plan_json := json_of_plan sample_plan;
           PlanRow.model := Some "model-a"; PlanRow.generated_at := 1736071200000 |} ]
    = PlanStore.PlanJson (json_of_plan sample_plan) (Some "model-a") 1736071200000.
Proof.
  split; [vm_compute; reflexivity|].
  destruct (plan_store_round_trip sample_Date_parse (Some "user_1")
              (Some (store_body "2025-01-05T10:00:00.000Z")) 900 [] 1736071200000
              [ {| PlanRow.user_id := "user_1";
                   PlanRow.plan_json := json_of_plan sample_plan;
                   PlanRow.model := Some "model-a";
                   PlanRow.generated_at := 1736071200000 |} ])
    as (u & b & plan & row & Hu & Hb & Hplan & _ & Hrows & _ & _ & _ & _ & _ & Hget);
    [vm_compute; reflexivity|].
  injection Hu as <-. injection Hb as <-. injection Hplan as <-.
  apply (inj (app [])) in Hrows. injection Hrows as <-.
  apply Hget. intros other Hother. by apply elem_of_nil in Hother.
Defined.

Section PlanStore_to_resolver.

Variable localeCompare : string → string → Z.

(** X13.  Plans that entered the table through the plan-store POST always
    pass the resolver's validation: for a signed-in user the resolver
    answers with items and meta, never with the error
    "Stored plan_json is invalid. Regenerate plan.". *)
Theorem stored_plans_pass_validation userId u plans plan_dispatch plan_post_approvals :
  PlanStore.written plans →
  authenticated userId = Some u →
  ∃ items meta,
    DispatchReady.GET localeCompare userId plans plan_dispatch plan_post_approvals
    = DispatchReady.Json items meta.
Proof.
  intros Hvalid%PlanStore_written_valid Hu. unfold DispatchReady.GET. rewrite Hu.
  destruct (DispatchReady.latest_plan u plans) as [planRow|] eqn:Hlatest; [|eauto].
  assert (planRow ∈ plans) as Hin.
  { unfold DispatchReady.latest_plan in Hlatest.
    apply head_Some_elem_of in Hlatest.
    rewrite merge_sort_Permutation in Hlatest.
    by apply list_elem_of_filter in Hlatest as [_ ?]. }
  rewrite Forall_forall in Hvalid. specialize (Hvalid planRow Hin). cbn beta in Hvalid.
  rewrite Hvalid. cbn [negb].
  destruct (isValidPlan_asPlan _ Hvalid) as [plan ->]. cbv zeta.
  case_bool_decide; eauto.
Qed.

End PlanStore_to_resolver.

Lemma stored_plans_pass_validation_witness :
  PlanStore.written plans_after_store
  ∧ length plans_after_store = 2%nat
  ∧ ∃ items meta,
      DispatchReady.GET code_unit_compare (Some "user_1") plans_after_store
        sample_dispatch sample_approvals
      = DispatchReady.Json items meta.
Proof.
  assert (PlanStore.written plans_after_store) as Hwritten.
  { eapply (PlanStore.written_POST sample_Date_parse (Some "user_1")
              (Some (store_body "2025-01-05T10:00:00.000Z")) 900).
    - eapply (PlanStore.written_POST sample_Date_parse (Some "user_1")
                (Some (store_body "yesterday")) 800 []).
      + apply PlanStore.written_nil.
      + apply surjective_pairing.
    - apply surjective_pairing. }
  split; [exact Hwritten|]. split; [vm_compute; reflexivity|].
  apply (stored_plans_pass_validation code_unit_compare (Some "user_1") "user_1"
           plans_after_store sample_dispatch sample_approvals Hwritten).
  vm_compute; reflexivity.
Defined.

(** ** Hash tags *)

Lemma startsWith_hash_nonempty t : Js.startsWith "#" t = true → t ≠ "".
Proof. by destruct t. Qed.

Lemma concat_nonempty sep x l : x ≠ "" → String.concat sep (x :: l) ≠ "".
Proof.
  intros Hx. destruct x as [|c x]; [done|]. cbn. by destruct l.
Qed.

(** X14.  joinHashtags does not see white space around a tag; its answer is
    empty exactly when every tag is blank; tags that are already trimmed
    and start with # are joined as they are; and a single tag with a
    character other than white space comes out with exactly one more
    character, the #, unless it started with # already. *)
Theorem joinHashtags_spec tags :
  DispatchReady.joinHashtags (map Js.trim tags) = DispatchReady.joinHashtags tags
  ∧ (DispatchReady.joinHashtags tags = "" ↔ ∀ t, t ∈ tags → Js.trim t = "")
  ∧ ((∀ t, t ∈ tags → Js.trim t = t ∧ Js.startsWith "#" t = true) →
     DispatchReady.joinHashtags tags = Js.join " " tags)
  ∧ (∀ t, Js.trim t ≠ "" →
       DispatchReady.joinHashtags [t]
       = if Js.startsWith "#" (Js.trim t) then Js.trim t else String "#" (Js.trim t)).
Proof.
  unfold DispatchReady.joinHashtags. split; [|split; [|split]].
  - rewrite map_map. do 3 f_equal. apply map_ext. intros t. apply trim_trim.
  - split.
    + intros Hempty t Ht.
      destruct (decide (Js.trim t = "")) as [|Hne]; [done|]. exfalso.
      assert (Js.trim t ∈ filter (λ t, t ≠ "") (map Js.trim tags)) as Hin.
      { apply list_elem_of_filter. split; [done|].
        apply list_elem_of_fmap. by exists t. }
      destruct (filter (λ t, t ≠ "") (map Js.trim tags)) as [|x l] eqn:Hfilter;
        [by apply elem_of_nil in Hin|].
      assert (x ≠ "") as Hx.
      { assert (x ∈ filter (λ t, t ≠ "") (map Js.trim tags)) as Hxin
          by (rewrite Hfilter; left).
        by apply list_elem_of_filter in Hxin as [? _]. }
      revert Hempty. cbn [map]. apply concat_nonempty.
      destruct (Js.startsWith "#" x); [done|]. done.
    + intros Hblank. rewrite filter_none; [done|].
      intros x (t & -> & Ht)%list_elem_of_fmap Hne. apply Hne. by apply Hblank.
  - intros Hgood. unfold Js.join. f_equal.
    induction tags as [|t tags IH]; [done|]. cbn [map].
    destruct (Hgood t) as [Htrim Hhash]; [left|].
    rewrite Htrim, filter_cons, decide_True by by apply startsWith_hash_nonempty.
    cbn [map]. rewrite Hhash. f_equal. apply IH. intros t' Ht'. apply Hgood. by right.
  - intros t Hne. cbn [map]. rewrite filter_cons, decide_True by done.
    rewrite filter_nil. cbn [map]. by destruct (Js.startsWith "#" (Js.trim t)).
Qed.

Example joinHashtags_example :
  DispatchReady.joinHashtags [" salon "; ""; "#glow"; "  "; "##nails"]
  = "#salon #glow ##nails".
Proof. vm_compute. reflexivity. Qed.

(** ** Reading approvals and dispatch flags back *)

(** The record that the two GET handlers fill: for a key other than
    __proto__ the last row with that key decides. *)
Lemma foldl_assign_lookup {A B} (key : A → string) (val : A → B) rows
    (acc : gmap string B) k :
  foldl (λ acc row, if bool_decide (key row = "__proto__") then acc
                    else <[key row := val row]> acc) acc rows !! k
  = if bool_decide (k = "__proto__") then acc !! k
    else match last (filter (λ r, key r = k) rows) with
         | Some r => Some (val r)
         | None => acc !! k
         end.
Proof.
  induction rows as [|row rows IH] using rev_ind.
  { cbn. by case_bool_decide. }
  rewrite foldl_snoc, filter_app, last_app.
  destruct (decide (k = "__proto__")) as [Hp|Hp].
  - rewrite (bool_decide_eq_true_2 (k = "__proto__")) in IH |- * by done.
    destruct (decide (key row = "__proto__")).
    + by rewrite bool_decide_eq_true_2.
    + rewrite bool_decide_eq_false_2 by done.
      rewrite lookup_insert_ne by congruence. exact IH.
  - rewrite (bool_decide_eq_false_2 (k = "__proto__")) in IH |- * by done.
    destruct (decide (key row = k)) as [Hk|Hk].
    + rewrite filter_cons_True, filter_nil by done. cbn [last].
      rewrite bool_decide_eq_false_2 by congruence. rewrite Hk.
      by rewrite lookup_insert_eq.
    + rewrite filter_cons_False, filter_nil by done. cbn [last].
      destruct (bool_decide (key row = "__proto__")); [exact IH|].
      rewrite lookup_insert_ne by done. exact IH.
Qed.

Lemma filter_key_head_last {A K} `{EqDecision K} (f : A → K) (y : K) (l : list A) :
  NoDup (f <$> l) →
  last (filter (λ x, f x = y) l) = head (filter (λ x, f x = y) l).
Proof.
  induction l as [|x l IH]; [done|]. rewrite fmap_cons. intros [Hx Hl]%NoDup_cons.
  destruct (decide (f x = y)) as [Hy|Hy].
  - rewrite filter_cons_True by done.
    rewrite filter_none; [done|].
    intros z Hz Hzy. apply Hx. rewrite Hy, <- Hzy. apply list_elem_of_fmap. eauto.
  - rewrite filter_cons_False by done. by apply IH.
Qed.

Lemma PlanApprovals_GET_lookup u table k :
  NoDup (PlanApprovals.key_of <$> table) → u ≠ "" →
  ∃ m, PlanApprovals.GET (Some u) table = PlanApprovals.Approvals m
       ∧ m !! k = if bool_decide (k = "__proto__") then None
                  else PlanApprovals.view <$> PlanApprovals.stored u k table.
Proof.
  intros Hnd Hu. unfold PlanApprovals.GET, authenticated.
  rewrite bool_decide_eq_false_2 by done. eexists. split; [done|].
  rewrite (foldl_assign_lookup ApprovalRow.post_key PlanApprovals.view).
  case_bool_decide; [done|]. rewrite lookup_empty.
  rewrite list_filter_filter.
  rewrite (list_filter_iff _ (λ r, PlanApprovals.key_of r = (u, k))).
  2:{ intros r. unfold PlanApprovals.key_of. split; [by intros [-> ->]|].
      by intros [= -> ->]. }
  rewrite filter_key_head_last by done.
  unfold PlanApprovals.stored.
  rewrite (list_filter_iff (λ r, ApprovalRow.user_id r = u ∧ ApprovalRow.post_key r = k)
             (λ r, PlanApprovals.key_of r = (u, k))).
  2:{ intros r. unfold PlanApprovals.key_of. split; [by intros [-> ->]|].
      by intros [= -> ->]. }
  by destruct (head _).
Qed.

Lemma PlanApprovals_upsert_other row table u k :
  (u, k) ≠ PlanApprovals.key_of row →
  PlanApprovals.stored u k (PlanApprovals.upsert row table)
  = PlanApprovals.stored u k table.
Proof.
  intros Hne. unfold PlanApprovals.stored.
  assert (¬ (ApprovalRow.user_id row = u ∧ ApprovalRow.post_key row = k)) as Hrow.
  { intros [<- <-]. by apply Hne. }
  induction table as [|x table IH]; cbn [PlanApprovals.upsert].
  - by rewrite filter_cons_False.
  - case_bool_decide as Hx.
    + rewrite !filter_cons. rewrite decide_False by done.
      rewrite decide_False; [done|]. destruct Hx as [-> ->]. done.
    + rewrite !filter_cons. destruct (decide _); [done|]. exact IH.
Qed.

(** X15.  An approval can be read back: after a successful POST on a table
    with one row per user and key, the GET of the same user shows, under
    the normalized key, the submitted status, no decision time for pending
    and no reason unless rejected; every other key reads as before.  The
    one exception is the key __proto__: the record is stored, but GET
    answers exactly as before. *)
Theorem approvals_read_back Date_parse userId body now table table' :
  NoDup (PlanApprovals.key_of <$> table) →
  PlanApprovals.POST Date_parse userId body now table = (PlanApprovals.Ok, table') →
  ∃ b rawKey st m m',
    body = Some b ∧ prop "postKey" b = Some (JStr rawKey)
    ∧ PlanApprovals.isStatus (prop "status" b) = Some st
    ∧ PlanApprovals.GET userId table = PlanApprovals.Approvals m
    ∧ PlanApprovals.GET userId table' = PlanApprovals.Approvals m'
    ∧ (normalizeSpaces rawKey ≠ "__proto__" →
       ∃ v, m' !! normalizeSpaces rawKey = Some v
            ∧ v.(PlanApprovals.view_status) = st
            ∧ (st = pending → v.(PlanApprovals.decidedAtIso) = None)
            ∧ (st ≠ pending → is_Some v.(PlanApprovals.decidedAtIso))
            ∧ (st ≠ rejected → v.(PlanApprovals.rejectReason) = None))
    ∧ (normalizeSpaces rawKey = "__proto__" → m' = m)
    ∧ (∀ k, k ≠ normalizeSpaces rawKey → m' !! k = m !! k).
Proof.
  intros Hnd (u & b & rawKey & st & Hu & Hb & Hk & Hst & ->)%PlanApprovals_POST_inv.
  set (row := {| ApprovalRow.user_id := u;
                 ApprovalRow.post_key := normalizeSpaces rawKey |}).
  assert (userId = Some u ∧ u ≠ "") as [-> Hne].
  { unfold authenticated in Hu. destruct userId as [x|]; [|done].
    case_bool_decide; [done|]. by injection Hu as ->. }
  pose proof (PlanApprovals_upsert_NoDup row table Hnd) as Hnd'.
  assert (∀ k, ∃ m, PlanApprovals.GET (Some u) table = PlanApprovals.Approvals m
                    ∧ m !! k = if bool_decide (k = "__proto__") then None
                               else PlanApprovals.view <$> PlanApprovals.stored u k table)
    as Hget by (intros k; by apply PlanApprovals_GET_lookup).
  assert (∀ k, ∃ m, PlanApprovals.GET (Some u) (PlanApprovals.upsert row table)
                      = PlanApprovals.Approvals m
                    ∧ m !! k = if bool_decide (k = "__proto__") then None
                               else PlanApprovals.view <$>
                                      PlanApprovals.stored u k (PlanApprovals.upsert row table))
    as Hget' by (intros k; by apply PlanApprovals_GET_lookup).
  destruct (Hget "") as (m & Hm & _). destruct (Hget' "") as (m' & Hm' & _).
  assert (∀ k, k ≠ normalizeSpaces rawKey → m' !! k = m !! k) as Hframe.
  { intros k Hkne.
    destruct (Hget k) as (m0 & Hm0 & Hl0). destruct (Hget' k) as (m1 & Hm1 & Hl1).
    rewrite Hm in Hm0. injection Hm0 as <-.
    rewrite Hm' in Hm1. injection Hm1 as <-. rewrite Hl0, Hl1.
    case_bool_decide; [done|].
    rewrite PlanApprovals_upsert_other; [done|].
    unfold PlanApprovals.key_of. cbn. congruence. }
  exists b, rawKey, st, m, m'. split; [done|]. split; [done|]. split; [done|].
  split; [done|]. split; [done|]. split; [|split; [|done]].
  - intros Hproto. destruct (Hget' (normalizeSpaces rawKey)) as (m1 & Hm1 & Hl1).
    rewrite Hm' in Hm1. injection Hm1 as <-.
    rewrite bool_decide_eq_false_2 in Hl1 by done.
    pose proof (PlanApprovals_upsert_stored row table) as Hst'.
    change (PlanApprovals.stored u (normalizeSpaces rawKey)
              (PlanApprovals.upsert row table) = Some row) in Hst'.
    rewrite Hst' in Hl1. cbn in Hl1.
    eexists. split; [exact Hl1|]. cbn. split; [done|].
    split; [by intros ->|]. split; [by destruct st|by destruct st].
  - intros Hproto. apply map_eq. intros k.
    destruct (decide (k = normalizeSpaces rawKey)) as [->|Hkne]; [|by apply Hframe].
    destruct (Hget (normalizeSpaces rawKey)) as (m0 & Hm0 & Hl0).
    destruct (Hget' (normalizeSpaces rawKey)) as (m1 & Hm1 & Hl1).
    rewrite Hm in Hm0. injection Hm0 as <-.
    rewrite Hm' in Hm1. injection Hm1 as <-.
    rewrite Hl0, Hl1. by rewrite !bool_decide_eq_true_2.
Qed.

Lemma approvals_read_back_witness :
  NoDup (PlanApprovals.key_of <$> table_after_reject)
  ∧ PlanApprovals.POST sample_Date_parse (Some "user_1")
      (Some (approval_body key_sale "pending" (Some "still unsure")
               (Some "2025-01-05T10:00:00.000Z"))) 6000 table_after_reject
    = (PlanApprovals.Ok,
       [ {| ApprovalRow.user_id := "user_1"; ApprovalRow.post_key := key_sale;
            ApprovalRow.status := pending; ApprovalRow.reject_reason := None;
            ApprovalRow.decided_at := None; ApprovalRow.updated_at := 6000 |} ])
  ∧ ∃ m m',
      PlanApprovals.GET (Some "user_1") table_after_reject = PlanApprovals.Approvals m
      ∧ PlanApprovals.GET (Some "user_1")
          [ {| ApprovalRow.user_id := "user_1"; ApprovalRow.post_key := key_sale;
               ApprovalRow.status := pending; ApprovalRow.reject_reason := None;
               ApprovalRow.decided_at := None; ApprovalRow.updated_at := 6000 |} ]
        = PlanApprovals.Approvals m'
      ∧ ∀ k, k ≠ key_sale → m' !! k = m !! k.
Proof.
  assert (NoDup (PlanApprovals.key_of <$> table_after_reject)) as Hnd.
  { vm_compute. apply NoDup_singleton. }
  split; [exact Hnd|]. split; [vm_compute; reflexivity|].
  destruct (approvals_read_back sample_Date_parse (Some "user_1")
              (Some (approval_body key_sale "pending" (Some "still unsure")
                       (Some "2025-01-05T10:00:00.000Z"))) 6000 table_after_reject
              [ {| ApprovalRow.user_id := "user_1"; ApprovalRow.post_key := key_sale;
                   ApprovalRow.status := pending; ApprovalRow.reject_reason := None;
                   ApprovalRow.decided_at := None; ApprovalRow.updated_at := 6000 |} ]
              Hnd)
    as (b & rawKey & st & m & m' & Hb & Hk & _ & Hm & Hm' & _ & _ & Hframe);
    [vm_compute; reflexivity|].
  exists m, m'. split; [exact Hm|]. split; [exact Hm'|].
  injection Hb as <-. injection Hk as <-. exact Hframe.
Defined.

(** A record stored under the key __proto__ is not shown by GET. *)
Example approvals_proto_hidden :
  (PlanApprovals.POST sample_Date_parse (Some "user_1")
     (Some (approval_body " __proto__ " "approved" None None)) 6000 []).1
  = PlanApprovals.Ok
  ∧ PlanApprovals.GET (Some "user_1")
      (PlanApprovals.POST sample_Date_parse (Some "user_1")
         (Some (approval_body " __proto__ " "approved" None None)) 6000 []).2
    = PlanApprovals.Approvals ∅.
Proof. split; vm_compute; reflexivity. Qed.

Lemma Dispatch_POST_inv userId body now table table' :
  Dispatch.POST userId body now table = (Dispatch.Ok, table') →
  ∃ u b rawKey ready,
    authenticated userId = Some u ∧ body = Some b
    ∧ prop "postKey" b = Some (JStr rawKey)
    ∧ prop "ready" b = Some (JBool ready)
    ∧ normalizeSpaces rawKey ≠ ""
    ∧ table' = Dispatch.upsert u (normalizeSpaces rawKey) ready now table.
Proof.
  unfold Dispatch.POST.
  destruct (authenticated userId) as [u|]; [|done].
  destruct body as [b|]; [|done].
  destruct (is_object b); [|done]. cbn [negb].
  destruct (prop "postKey" b) as [[| | |rawKey| |]|] eqn:Hk; try done. cbn [as_str].
  case_bool_decide as Hlen; [done|].
  destruct (prop "ready" b) as [[|ready| | | |]|] eqn:Hr; try done. cbn [as_bool].
  intros [= <-]. exists u, b, rawKey, ready. repeat split; try done.
  intros E. by rewrite E in Hlen.
Qed.

Lemma Dispatch_upsert_stored u k ready now table :
  ∃ row, Dispatch.stored u k (Dispatch.upsert u k ready now table) = Some row
         ∧ row.(DispatchRow.ready) = ready
         ∧ row.(DispatchRow.updated_at)
           = from_option DispatchRow.updated_at now (Dispatch.stored u k table).
Proof.
  unfold Dispatch.stored. induction table as [|x table IH]; cbn [Dispatch.upsert].
  - rewrite filter_cons_True by done. eexists. split; [done|]. done.
  - case_bool_decide as Hx.
    + rewrite !filter_cons_True by done. eexists. split; [done|]. done.
    + rewrite !filter_cons_False by done. exact IH.
Qed.

Lemma Dispatch_upsert_other u k ready now table u' k' :
  (u', k') ≠ (u, k) →
  Dispatch.stored u' k' (Dispatch.upsert u k ready now table)
  = Dispatch.stored u' k' table.
Proof.
  intros Hne. unfold Dispatch.stored.
  assert (¬ (u = u' ∧ k = k')) as Hrow by (intros [<- <-]; by apply Hne).
  induction table as [|x table IH]; cbn [Dispatch.upsert].
  - by rewrite filter_cons_False.
  - case_bool_decide as Hx.
    + rewrite !filter_cons. cbn. rewrite decide_False by done.
      rewrite decide_False; [done|]. destruct Hx as [-> ->]. done.
    + rewrite !filter_cons. destruct (decide _); [done|]. exact IH.
Qed.

Lemma Dispatch_upsert_keys u k ready now table :
  Dispatch.key_of <$> Dispatch.upsert u k ready now table
  = if bool_decide ((u, k) ∈ Dispatch.key_of <$> table)
    then Dispatch.key_of <$> table
    else (Dispatch.key_of <$> table) ++ [(u, k)].
Proof.
  induction table as [|x table IH]; [done|]. cbn [Dispatch.upsert].
  destruct (decide (DispatchRow.user_id x = u ∧ DispatchRow.post_key x = k))
    as [[Hu Hk]|Hx].
  - rewrite (bool_decide_eq_true_2 (_ ∧ _)) by done.
    assert (Dispatch.key_of x = (u, k)) as E.
    { unfold Dispatch.key_of. by rewrite Hu, Hk. }
    rewrite bool_decide_eq_true_2; [by rewrite !fmap_cons, E|].
    rewrite fmap_cons, E. left.
  - rewrite (bool_decide_eq_false_2 (_ ∧ _)) by done.
    rewrite !fmap_cons, IH.
    assert ((u, k) ≠ Dispatch.key_of x) as Hne.
    { unfold Dispatch.key_of. intros [= ? ?]. by destruct Hx. }
    destruct (decide ((u, k) ∈ Dispatch.key_of <$> table)) as [Hin|Hin].
    + rewrite !bool_decide_eq_true_2; [done | by right | done].
    + rewrite !bool_decide_eq_false_2; [done | | done].
      by intros [?|?]%elem_of_cons.
Qed.

Lemma Dispatch_upsert_NoDup u k ready now table :
  NoDup (Dispatch.key_of <$> table) →
  NoDup (Dispatch.key_of <$> Dispatch.upsert u k ready now table).
Proof.
  intros Hnd. rewrite Dispatch_upsert_keys. case_bool_decide; [done|].
  apply NoDup_app. split; [done|]. split; [|apply NoDup_singleton].
  intros x Hx ->%list_elem_of_singleton. done.
Qed.

Lemma Dispatch_GET_lookup u table k :
  NoDup (Dispatch.key_of <$> table) → u ≠ "" →
  ∃ m, Dispatch.GET (Some u) table = Dispatch.DispatchMap m
       ∧ m !! k = if bool_decide (k = "__proto__") then None
                  else Dispatch.view <$> Dispatch.stored u k table.
Proof.
  intros Hnd Hu. unfold Dispatch.GET, authenticated.
  rewrite bool_decide_eq_false_2 by done. eexists. split; [done|].
  rewrite (foldl_assign_lookup DispatchRow.post_key Dispatch.view).
  case_bool_decide; [done|]. rewrite lookup_empty.
  rewrite list_filter_filter.
  rewrite (list_filter_iff _ (λ r, Dispatch.key_of r = (u, k))).
  2:{ intros r. unfold Dispatch.key_of. split; [by intros [-> ->]|].
      by intros [= -> ->]. }
  rewrite filter_key_head_last by done.
  unfold Dispatch.stored.
  rewrite (list_filter_iff (λ r, DispatchRow.user_id r = u ∧ DispatchRow.post_key r = k)
             (λ r, Dispatch.key_of r = (u, k))).
  2:{ intros r. unfold Dispatch.key_of. split; [by intros [-> ->]|].
      by intros [= -> ->]. }
  by destruct (head _).
Qed.

(** X16.  A dispatch flag can be read back: after a successful POST on a
    table with one row per user and key, the GET of the same user shows the
    submitted flag under the normalized key; every other key reads as
    before.  Under the key __proto__ the flag is stored but GET answers
    exactly as before. *)
Theorem dispatch_read_back userId body now table table' :
  NoDup (Dispatch.key_of <$> table) →
  Dispatch.POST userId body now table = (Dispatch.Ok, table') →
  ∃ b rawKey ready m m',
    body = Some b ∧ prop "postKey" b = Some (JStr rawKey)
    ∧ prop "ready" b = Some (JBool ready)
    ∧ Dispatch.GET userId table = Dispatch.DispatchMap m
    ∧ Dispatch.GET userId table' = Dispatch.DispatchMap m'
    ∧ (normalizeSpaces rawKey ≠ "__proto__" →
       ∃ v, m' !! normalizeSpaces rawKey = Some v
            ∧ v.(Dispatch.view_ready) = ready)
    ∧ (normalizeSpaces rawKey = "__proto__" → m' = m)
    ∧ (∀ k, k ≠ normalizeSpaces rawKey → m' !! k = m !! k).
Proof.
  intros Hnd (u & b & rawKey & ready & Hu & Hb & Hk & Hr & Hkey & ->)%Dispatch_POST_inv.
  assert (userId = Some u ∧ u ≠ "") as [-> Hne].
  { unfold authenticated in Hu. destruct userId as [x|]; [|done].
    case_bool_decide; [done|]. by injection Hu as ->. }
  pose proof (Dispatch_upsert_NoDup u (normalizeSpaces rawKey) ready now table Hnd)
    as Hnd'.
  pose proof (λ k, Dispatch_GET_lookup u table k Hnd Hne) as Hget.
  pose proof (λ k, Dispatch_GET_lookup u _ k Hnd' Hne) as Hget'.
  destruct (Hget "") as (m & Hm & _). destruct (Hget' "") as (m' & Hm' & _).
  assert (∀ k, m !! k = if bool_decide (k = "__proto__") then None
                        else Dispatch.view <$> Dispatch.stored u k table) as Hl.
  { intros k. destruct (Hget k) as (m0 & Hm0 & Hl0).
    rewrite Hm in Hm0. by injection Hm0 as <-. }
  assert (∀ k, m' !! k = if bool_decide (k = "__proto__") then None
                         else Dispatch.view <$> Dispatch.stored u k
                                (Dispatch.upsert u (normalizeSpaces rawKey) ready now table))
    as Hl'.
  { intros k. destruct (Hget' k) as (m1 & Hm1 & Hl1).
    rewrite Hm' in Hm1. by injection Hm1 as <-. }
  assert (∀ k, k ≠ normalizeSpaces rawKey → m' !! k = m !! k) as Hframe.
  { intros k Hkne. rewrite Hl, Hl'. case_bool_decide; [done|].
    rewrite Dispatch_upsert_other; [done|]. congruence. }
  exists b, rawKey, ready, m, m'. split; [done|]. split; [done|]. split; [done|].
  split; [done|]. split; [done|]. split; [|split; [|done]].
  - intros Hproto. rewrite Hl'. rewrite bool_decide_eq_false_2 by done.
    destruct (Dispatch_upsert_stored u (normalizeSpaces rawKey) ready now table)
      as (row & -> & Hready & _).
    eexists. split; [done|]. done.
  - intros Hproto. apply map_eq. intros k.
    destruct (decide (k = normalizeSpaces rawKey)) as [->|Hkne]; [|by apply Hframe].
    rewrite Hl, Hl'. by rewrite !bool_decide_eq_true_2.
Qed.

Lemma dispatch_read_back_witness :
  NoDup (Dispatch.key_of <$> sample_dispatch)
  ∧ Dispatch.POST (Some "user_1") (Some (dispatch_body key_team true)) 9000
      sample_dispatch
    = (Dispatch.Ok,
       [ dispatch_row "user_1" key_sale true; dispatch_row "user_1" key_glow true;
         dispatch_row "user_1" key_loyalty true; dispatch_row "user_1" key_team true;
         dispatch_row "user_2" key_team true ])
  ∧ ∃ m m',
      Dispatch.GET (Some "user_1") sample_dispatch = Dispatch.DispatchMap m
      ∧ Dispatch.GET (Some "user_1")
          [ dispatch_row "user_1" key_sale true; dispatch_row "user_1" key_glow true;
            dispatch_row "user_1" key_loyalty true; dispatch_row "user_1" key_team true;
            dispatch_row "user_2" key_team true ]
        = Dispatch.DispatchMap m'
      ∧ ∀ k, k ≠ normalizeSpaces key_team → m' !! k = m !! k.
Proof.
  assert (NoDup (Dispatch.key_of <$> sample_dispatch)) as Hnd.
  { apply (bool_decide_unpack _). vm_compute. exact I. }
  split; [exact Hnd|]. split; [vm_compute; reflexivity|].
  destruct (dispatch_read_back (Some "user_1") (Some (dispatch_body key_team true)) 9000
              sample_dispatch
              [ dispatch_row "user_1" key_sale true; dispatch_row "user_1" key_glow true;
                dispatch_row "user_1" key_loyalty true; dispatch_row "user_1" key_team true;
                dispatch_row "user_2" key_team true ] Hnd)
    as (b & rawKey & ready & m & m' & Hb & Hk & Hr & Hm & Hm' & _ & _ & Hframe);
    [vm_compute; reflexivity|].
  exists m, m'. split; [exact Hm|]. split; [exact Hm'|].
  injection Hb as <-. injection Hk as <-. exact Hframe.
Defined.
